(** * Telemetry relay: connection routing and message dispatch

    A shallow embedding of the relay's dispatch layer

      - [index.ts]                      the upgrade router,
      - [services/auth.ts]              the token gate ([AuthService]),
      - [services/clientServer.ts]      the subscriber pool and its heartbeat
                                        ([ClientServer]),
      - [services/telemetryServer.ts]   the producer registry and the per-frame
                                        pipeline ([TelemetryServer]),
      - [types/telemetry.ts]            the shape probes ([isTelemetryDataMessage]
                                        and its siblings),

    followed by the properties of the specification that were checked
    against it.

    Every handler is a computation in a small monad [Js] that threads the
    relay's mutable state, records the observable effects (log calls,
    serialisations, socket writes) in a trace, and completes either normally
    or by a thrown exception, which [try_catch] intercepts the way the
    source's [try { } catch { }] blocks do. *)

From Stdlib Require Import String Ascii List Bool Arith ZArith Lia DecimalString.
From stdpp Require Import base list.
Import ListNotations.
Local Open Scope string_scope.
Local Open Scope list_scope.
Set Warnings "-register-all".

(** ** JavaScript values *)

(** The plain values that [JSON.parse] and protobufjs' [toObject] produce.
    An object is the list of its own properties in insertion order; a
    property read that finds nothing is [None] (JavaScript's [undefined]).
    The relay never looks inside a number, which is kept as an integer. *)
Inductive JsValue : Type :=
| JNull
| JBool (b : bool)
| JNum (n : Z)
| JStr (s : string)
| JArr (items : list JsValue)
| JObj (fields : list (string * JsValue)).

Definition nonempty (s : string) : bool :=
  match s with EmptyString => false | String _ _ => true end.

(** [ToBoolean]: what [if (x)] and [!x] test. *)
Definition truthy (v : JsValue) : bool :=
  match v with
  | JNull => false
  | JBool b => b
  | JNum n => negb (Z.eqb n 0)
  | JStr s => nonempty s
  | JArr _ | JObj _ => true
  end.

Inductive JsType : Type := TObject | TBoolean | TNumber | TString.

Definition typeof (v : JsValue) : JsType :=
  match v with
  | JNull | JArr _ | JObj _ => TObject
  | JBool _ => TBoolean
  | JNum _ => TNumber
  | JStr _ => TString
  end.

Fixpoint lookup_field (k : string) (fields : list (string * JsValue)) : option JsValue :=
  match fields with
  | [] => None
  | (k', v) :: rest => if String.eqb k' k then Some v else lookup_field k rest
  end.

(** [m.k] on an object value. *)
Definition get (k : string) (m : JsValue) : option JsValue :=
  match m with
  | JObj fields => lookup_field k fields
  | _ => None
  end.

(** ['k' in m], for the property names the relay probes ([vin], [data],
    [status], [errors], [alerts]): none of them lives on a prototype, so the
    probe succeeds exactly on an object that owns the property. *)
Definition has_key (k : string) (m : JsValue) : bool :=
  match get k m with Some _ => true | None => false end.

Definition isArray (v : option JsValue) : bool :=
  match v with Some (JArr _) => true | _ => false end.

Definition is_string_value (v : option JsValue) (s : string) : bool :=
  match v with Some (JStr s') => String.eqb s' s | _ => false end.

(** ** Sockets and the relay state *)

Definition ConnId := nat.
Definition RawId := nat.

Inductive ReadyState : Type := CONNECTING | OPEN | CLOSING | CLOSED.

Definition is_open (r : ReadyState) : bool :=
  match r with OPEN => true | _ => false end.

(** Which connection handler registered its listeners on a socket: the
    subscriber pool's ([close], [error], [pong]) or the producer side's
    ([message], [close], [error]). *)
Inductive Role : Type := Subscriber | Producer.

(** A [WebSocket] object.  [isAlive] is the ad-hoc property the heartbeat
    keeps on subscriber sockets; [None] is a property that was never
    assigned. *)
Record Socket : Type := mkSocket {
  readyState : ReadyState;
  isAlive : option bool;
  role : Role;
  authData : option JsValue
}.

Inductive ProtoType : Type := VehicleDataPayload.

(** The mutable state of the process: the fields of [ClientServer] and
    [TelemetryServer], the heap of socket objects (a socket is named by its
    index) and the number of clock readings taken so far. *)
Record Relay : Type := mkRelay {
  clients : list ConnId;
  vehicleConnections : list (string * ConnId);
  PayloadType : option ProtoType;
  sockets : list Socket;
  dateReads : nat
}.

Definition initial : Relay :=
  {| clients := []; vehicleConnections := []; PayloadType := None;
     sockets := []; dateReads := 0 |}.

Definition set_clients (f : list ConnId -> list ConnId) (st : Relay) : Relay :=
  {| clients := f (clients st); vehicleConnections := vehicleConnections st;
     PayloadType := PayloadType st; sockets := sockets st; dateReads := dateReads st |}.

Definition set_vehicleConnections (f : list (string * ConnId) -> list (string * ConnId))
  (st : Relay) : Relay :=
  {| clients := clients st; vehicleConnections := f (vehicleConnections st);
     PayloadType := PayloadType st; sockets := sockets st; dateReads := dateReads st |}.

Definition set_PayloadType (p : option ProtoType) (st : Relay) : Relay :=
  {| clients := clients st; vehicleConnections := vehicleConnections st;
     PayloadType := p; sockets := sockets st; dateReads := dateReads st |}.

Definition set_sockets (f : list Socket -> list Socket) (st : Relay) : Relay :=
  {| clients := clients st; vehicleConnections := vehicleConnections st;
     PayloadType := PayloadType st; sockets := f (sockets st); dateReads := dateReads st |}.

Definition tick_clock (st : Relay) : Relay :=
  {| clients := clients st; vehicleConnections := vehicleConnections st;
     PayloadType := PayloadType st; sockets := sockets st; dateReads := S (dateReads st) |}.

Definition update_socket (c : ConnId) (f : Socket -> Socket) (l : list Socket) : list Socket :=
  match l !! c with
  | Some s => <[c := f s]> l
  | None => l
  end.

Definition readyState_of (st : Relay) (c : ConnId) : ReadyState :=
  match sockets st !! c with Some s => readyState s | None => CLOSED end.

Definition isAlive_of (st : Relay) (c : ConnId) : option bool :=
  match sockets st !! c with Some s => isAlive s | None => None end.

Definition role_of (st : Relay) (c : ConnId) : option Role :=
  match sockets st !! c with Some s => Some (role s) | None => None end.

(** *** [Set<WebSocket>] and [Map<string, WebSocket>]

    Both iterate in insertion order, which the heartbeat and the
    disconnect scan observe, so they are kept as lists. *)

Definition Set_has (c : ConnId) (s : list ConnId) : bool := existsb (Nat.eqb c) s.

Definition Set_add (c : ConnId) (s : list ConnId) : list ConnId :=
  if Set_has c s then s else s ++ [c].

Definition Set_delete (c : ConnId) (s : list ConnId) : list ConnId :=
  List.filter (fun x => negb (Nat.eqb x c)) s.

Definition Map_has (k : string) (m : list (string * ConnId)) : bool :=
  existsb (fun e => String.eqb (fst e) k) m.

Fixpoint Map_get (k : string) (m : list (string * ConnId)) : option ConnId :=
  match m with
  | [] => None
  | (k', v) :: rest => if String.eqb k' k then Some v else Map_get k rest
  end.

Fixpoint Map_set (k : string) (v : ConnId) (m : list (string * ConnId)) : list (string * ConnId) :=
  match m with
  | [] => [(k, v)]
  | (k', v') :: rest =>
      if String.eqb k' k then (k, v) :: rest else (k', v') :: Map_set k v rest
  end.

Definition Map_delete (k : string) (m : list (string * ConnId)) : list (string * ConnId) :=
  List.filter (fun e => negb (String.eqb (fst e) k)) m.

(** ** Effects *)

Inductive LogLevel : Type := INFO | WARN | ERROR | DEBUG.

(** What a handler does to the outside world, in order.  A [Log] keeps the
    level and the message text of the call (interpolated counts and peer
    addresses are left out of the text). *)
Inductive Effect : Type :=
| Log (level : LogLevel) (message : string)
| Stringify (v : JsValue)
| Send (c : ConnId) (payload : string)
| Ping (c : ConnId)
| Terminate (c : ConnId)
| SocketWrite (raw : RawId) (text : string)
| SocketDestroy (raw : RawId).

Abbreviation Trace := (list Effect).

(** ** The collaborators outside the repository

    The libraries and the process environment the relay calls into.  A
    function that can throw returns [None] where it does. *)
Record URL : Type := mkURL {
  pathname : string;
  searchParams_token : option string
}.

Record Platform : Type := mkPlatform {
  JSON_parse : string -> option JsValue;
  JSON_stringify : JsValue -> string;
  Payload_decode : list Byte.byte -> option JsValue;
  URL_parse : string -> string -> option URL;
  jwt_verify : string -> string -> option JsValue;
  toISOString : nat -> string;
  JWT_SECRET : string;
  NODE_ENV_production : bool
}.

(** ** The monad of handlers *)

Inductive Completion (A : Type) : Type :=
| Normal (a : A)
| Thrown.
Arguments Normal {A} a.
Arguments Thrown {A}.

Definition Js (A : Type) : Type := Relay -> Completion A * Relay * Trace.

Definition ret {A} (a : A) : Js A := fun st => (Normal a, st, []).

Definition bind {A B} (m : Js A) (k : A -> Js B) : Js B :=
  fun st =>
    match m st with
    | (Normal a, st1, t1) =>
        match k a st1 with
        | (r, st2, t2) => (r, st2, t1 ++ t2)
        end
    | (Thrown, st1, t1) => (Thrown, st1, t1)
    end.

Definition throw {A} : Js A := fun st => (Thrown, st, []).

Definition try_catch {A} (body handler : Js A) : Js A :=
  fun st =>
    match body st with
    | (Normal a, st1, t1) => (Normal a, st1, t1)
    | (Thrown, st1, t1) =>
        match handler st1 with
        | (r, st2, t2) => (r, st2, t1 ++ t2)
        end
    end.

Definition emit (e : Effect) : Js unit := fun st => (Normal tt, st, [e]).
Definition gets {A} (f : Relay -> A) : Js A := fun st => (Normal (f st), st, []).
Definition modify (f : Relay -> Relay) : Js unit := fun st => (Normal tt, f st, []).

Notation "'let!' x ':=' m 'in' k" := (bind m (fun x => k))
  (at level 10, x name, m at level 100, k at level 200).
Notation "m ;;; k" := (bind m (fun _ => k))
  (at level 100, k at level 200, right associativity).

Definition state_of {A} (r : Completion A * Relay * Trace) : Relay := snd (fst r).
Definition trace_of {A} (r : Completion A * Relay * Trace) : Trace := snd r.
Definition completion_of {A} (r : Completion A * Relay * Trace) : Completion A := fst (fst r).

Definition log (level : LogLevel) (message : string) : Js unit := emit (Log level message).

Definition CRLF : string := String "013" (String "010" EmptyString).

(** ** Primitive operations on sockets and the clock *)

Section Primitives.
Context (env : Platform).

(** [new Date().toISOString()]: the n-th reading of the clock. *)
Definition now : Js string :=
  fun st => (Normal (toISOString env (dateReads st)), tick_clock st, []).

(** [JSON.stringify(v)] on a plain value. *)
Definition stringify (v : JsValue) : Js string :=
  emit (Stringify v) ;;; ret (JSON_stringify env v).

Definition send (c : ConnId) (payload : string) : Js unit := emit (Send c payload).

(** [new URL(u, base)], which throws on an unparsable address. *)
Definition new_URL (u base : string) : Js URL :=
  match URL_parse env u base with
  | Some x => ret x
  | None => throw
  end.

End Primitives.

(** [ws.terminate()]: the socket is torn down; its [close] event follows
    later as an event of its own. *)
Definition terminate (c : ConnId) : Js unit :=
  emit (Terminate c) ;;;
  modify (set_sockets (update_socket c (fun s =>
    {| readyState := match readyState s with CLOSED => CLOSED | _ => CLOSING end;
       isAlive := isAlive s; role := role s; authData := authData s |}))).

Definition ping (c : ConnId) : Js unit := emit (Ping c).

Definition assign_isAlive (c : ConnId) (b : bool) : Js unit :=
  modify (set_sockets (update_socket c (fun s =>
    {| readyState := readyState s; isAlive := Some b;
       role := role s; authData := authData s |}))).

Definition assign_authData (c : ConnId) (a : JsValue) : Js unit :=
  modify (set_sockets (update_socket c (fun s =>
    {| readyState := readyState s; isAlive := isAlive s;
       role := role s; authData := Some a |}))).

Definition assign_readyState (c : ConnId) (r : ReadyState) : Js unit :=
  modify (set_sockets (update_socket c (fun s =>
    {| readyState := r; isAlive := isAlive s;
       role := role s; authData := authData s |}))).

(** [wss.handleUpgrade(request, socket, head, cb)] of the [ws] library: it
    completes the handshake on the raw transport and passes a new, open
    [WebSocket] to the callback.  The new object has no [isAlive] property.
    [r] records which connection handler the callback goes on to run. *)
Definition wss_handleUpgrade (r : Role) : Js ConnId :=
  fun st =>
    (Normal (length (sockets st)),
     set_sockets (fun l => l ++ [{| readyState := OPEN; isAlive := None;
                                    role := r; authData := None |}]) st,
     []).

(** An upgrade request: the request line's target, the two headers the
    relay reads, and what the TLS layer says about a client certificate
    ([None] when mutual TLS is off). *)
Record IncomingMessage : Type := mkRequest {
  url : option string;
  headers_host : option string;
  headers_authorization : option string;
  peer_authorized : option bool
}.

Definition base_of (request : IncomingMessage) : string :=
  "http://" ++ match headers_host request with
               | Some h => if nonempty h then h else "localhost"
               | None => "localhost"
               end.

(** ** [services/auth.ts] *)

Module AuthService.
Section WithPlatform.
Context (env : Platform).

(** The credential of an [Authorization: Bearer ...] header, if any. *)
Definition bearer (request : IncomingMessage) : option string :=
  match headers_authorization request with
  | Some h =>
      if nonempty h && String.prefix "Bearer " h
      then Some (String.substring 7 (String.length h - 7) h)
      else None
  | None => None
  end.

Definition extractToken (request : IncomingMessage) : Js (option string) :=
  try_catch
    (let! tokenParam :=
       match url request with
       | Some u =>
           if nonempty u then
             let! parsed := new_URL env u (base_of request) in
             ret (searchParams_token parsed)
           else ret None
       | None => ret None
       end in
     match tokenParam with
     | Some t => if nonempty t then ret (Some t) else ret (bearer request)
     | None => ret (bearer request)
     end)
    (log ERROR "Failed to extract token" ;;; ret None).

Definition secret : string :=
  if nonempty (JWT_SECRET env) then JWT_SECRET env
  else if negb (NODE_ENV_production env) then "development-secret-key" else "".

(** Returns the decoded payload, or [JNull] when the token is rejected. *)
Definition verifyToken (token : string) : Js JsValue :=
  try_catch
    (if negb (nonempty secret) then throw
     else
       match jwt_verify env token secret with
       | Some decoded => ret decoded
       | None => throw
       end)
    (log ERROR "Token verification failed" ;;; ret JNull).

Definition authenticateWebSocketRequest (request : IncomingMessage) : Js JsValue :=
  let! token := extractToken request in
  match token with
  | None =>
      log WARN "WebSocket connection attempt without token" ;;; ret JNull
  | Some t =>
      if negb (nonempty t) then
        log WARN "WebSocket connection attempt without token" ;;; ret JNull
      else
        let! decoded := verifyToken t in
        if negb (truthy decoded) then
          log WARN "WebSocket connection attempt with invalid token" ;;; ret JNull
        else
          log INFO "WebSocket client authenticated" ;;; ret decoded
  end.


End WithPlatform.
End AuthService.

(** ** [services/clientServer.ts] *)

Module ClientServer.
Section WithPlatform.
Context (env : Platform).

Definition sendToClient (client : ConnId) (data : JsValue) : Js unit :=
  try_catch
    (let! r := gets (fun st => readyState_of st client) in
     if is_open r then
       let! text := stringify env data in
       send client text
     else ret tt)
    (log ERROR "Error sending to client").

Definition welcome (timestamp : string) : JsValue :=
  JObj [("type", JStr "connection_status");
        ("connected", JBool true);
        ("timestamp", JStr timestamp);
        ("message", JStr "Connected to Tesla Telemetry Server")].

(** The [connection] listener of [setupSocketHandlers]. *)
Definition onConnection (socket : ConnId) : Js unit :=
  modify (set_clients (Set_add socket)) ;;;
  log INFO "Client connected" ;;;
  let! timestamp := now env in
  sendToClient socket (welcome timestamp).

(** The socket's [close], [error] and [pong] listeners. *)
Definition onClose (socket : ConnId) : Js unit :=
  modify (set_clients (Set_delete socket)) ;;;
  log INFO "Client disconnected".

Definition onError (socket : ConnId) : Js unit :=
  log ERROR "Client socket error" ;;;
  modify (set_clients (Set_delete socket)).

Definition onPong (socket : ConnId) : Js unit :=
  assign_isAlive socket true.

Definition handleUpgrade (request : IncomingMessage) (socket : RawId) : Js unit :=
  try_catch
    (let! auth := AuthService.authenticateWebSocketRequest env request in
     if negb (truthy auth) then
       log WARN "Client authentication failed, rejecting WebSocket connection" ;;;
       emit (SocketWrite socket ("HTTP/1.1 401 Unauthorized" ++ CRLF ++ CRLF)) ;;;
       emit (SocketDestroy socket)
     else
       let! ws := wss_handleUpgrade Subscriber in
       assign_authData ws auth ;;;
       onConnection ws)
    (log ERROR "Error handling WebSocket upgrade" ;;;
     emit (SocketWrite socket ("HTTP/1.1 500 Internal Server Error" ++ CRLF ++ CRLF)) ;;;
     emit (SocketDestroy socket)).

(** The body of the [for (const client of this.clients)] loop of
    [broadcastTelemetry]; it returns the running [clientCount]. *)
Fixpoint broadcast_loop (messageJson : string) (pool : list ConnId) (clientCount : nat)
  : Js nat :=
  match pool with
  | [] => ret clientCount
  | client :: rest =>
      let! r := gets (fun st => readyState_of st client) in
      if is_open r then
        send client messageJson ;;;
        broadcast_loop messageJson rest (S clientCount)
      else broadcast_loop messageJson rest clientCount
  end.

Definition broadcastTelemetry (telemetryMessage : JsValue) : Js unit :=
  let! pool := gets clients in
  if Nat.eqb (length pool) 0 then ret tt
  else
    try_catch
      (let! messageJson := stringify env telemetryMessage in
       let! clientCount := broadcast_loop messageJson pool 0 in
       log DEBUG "Broadcast telemetry to clients")
      (log ERROR "Error broadcasting telemetry").

(** The timer callback of [startHeartbeat].  Deleting the element under
    the cursor does not disturb the iteration of a [Set], so the loop runs
    over the members the pool had when the callback started. *)
Fixpoint heartbeat_loop (pool : list ConnId) : Js unit :=
  match pool with
  | [] => ret tt
  | client :: rest =>
      let! alive := gets (fun st => isAlive_of st client) in
      match alive with
      | Some false =>
          terminate client ;;;
          modify (set_clients (Set_delete client)) ;;;
          heartbeat_loop rest
      | _ =>
          assign_isAlive client false ;;;
          ping client ;;;
          heartbeat_loop rest
      end
  end.

Definition heartbeat : Js unit :=
  let! pool := gets clients in
  heartbeat_loop pool.

Definition getClientCount : Js nat := gets (fun st => length (clients st)).

End WithPlatform.
End ClientServer.

(** ** [types/telemetry.ts]: the shape probes *)

Definition isTelemetryDataMessage (message : JsValue) : bool := has_key "data" message.
Definition isTelemetryConnectivityMessage (message : JsValue) : bool := has_key "status" message.
Definition isTelemetryErrorMessage (message : JsValue) : bool := has_key "errors" message.
Definition isTelemetryAlertMessage (message : JsValue) : bool := has_key "alerts" message.

(** ** [services/telemetryServer.ts] *)

(** A frame as the [message] listener receives it ([WebSocket.Data]). *)
Inductive Data : Type :=
| Buffer (bytes : list Byte.byte)
| Text (s : string)
| OtherData.

(** The five outcomes of the shape test of [handleVehicleMessage]. *)
Inductive Variant : Type :=
| DataMessage | ConnectivityMessage | ErrorMessage | AlertMessage | UnknownMessage.

Definition classify (messageObject : JsValue) : Variant :=
  if has_key "data" messageObject && isArray (get "data" messageObject) then DataMessage
  else if has_key "status" messageObject
          && (is_string_value (get "status" messageObject) "CONNECTED"
              || is_string_value (get "status" messageObject) "DISCONNECTED")
       then ConnectivityMessage
  else if has_key "errors" messageObject && isArray (get "errors" messageObject) then ErrorMessage
  else if has_key "alerts" messageObject && isArray (get "alerts" messageObject) then AlertMessage
  else UnknownMessage.

(** The test that guards the pipeline: [messageObject] must be a non-null
    object that has a [vin] whose type is string. *)
Definition valid_vin (messageObject : JsValue) : option string :=
  if negb (truthy messageObject) then None
  else match typeof messageObject with
       | TObject =>
           if negb (has_key "vin" messageObject) then None
           else match get "vin" messageObject with
                | Some (JStr v) => Some v
                | _ => None
                end
       | _ => None
       end.

(** Reading a property off [v] ([v.length], [v.code]): a [TypeError] when
    [v] is [null] or [undefined], otherwise some value the caller only
    interpolates into a log line. *)
Definition read_property_of (v : option JsValue) : Js unit :=
  match v with
  | None | Some JNull => throw
  | Some _ => ret tt
  end.

Definition connectivity (vin status timestamp : string) : JsValue :=
  JObj [("vin", JStr vin);
        ("connectionId", JStr "");
        ("status", JStr status);
        ("timestamp", JStr timestamp)].

Definition acknowledgment (vin : option JsValue) (timestamp : string) : JsValue :=
  JObj ([("type", JStr "ack")]
        ++ match vin with Some v => [("vin", v)] | None => [] end
        ++ [("timestamp", JStr timestamp)]).

Module TelemetryServer.
Section WithPlatform.
Context (env : Platform).

Definition checkClientCertificate (request : IncomingMessage) : Js unit :=
  match peer_authorized request with
  | Some true => log INFO "Vehicle provided valid certificate"
  | Some false => log WARN "Vehicle provided invalid certificate"
  | None => log DEBUG "No client certificate validation (mTLS not enabled)"
  end.

(** [message.errors.forEach(error => Logger.warn(... error.code ...
    error.message ...))]. *)
Fixpoint forEach_error (errors : list JsValue) : Js unit :=
  match errors with
  | [] => ret tt
  | error :: rest =>
      read_property_of (Some error) ;;;
      log WARN "Vehicle Error" ;;;
      forEach_error rest
  end.

Definition processMessage (message : JsValue) : Js unit :=
  try_catch
    (if isTelemetryDataMessage message then
       read_property_of (get "data" message) ;;;
       log DEBUG "Received data message" ;;;
       ClientServer.broadcastTelemetry env message
     else if isTelemetryConnectivityMessage message then
       log INFO "Received connectivity message" ;;;
       ClientServer.broadcastTelemetry env message
     else if isTelemetryErrorMessage message then
       read_property_of (get "errors" message) ;;;
       log WARN "Received error message" ;;;
       match get "errors" message with
       | Some (JArr errors) => forEach_error errors
       | _ => throw
       end ;;;
       ClientServer.broadcastTelemetry env message
     else if isTelemetryAlertMessage message then
       read_property_of (get "alerts" message) ;;;
       log INFO "Received alert message" ;;;
       ClientServer.broadcastTelemetry env message
     else
       log WARN "Received unknown message type" ;;;
       ClientServer.broadcastTelemetry env message)
    (log ERROR "Error processing message").

Definition sendAcknowledgment (socket : ConnId) (message : JsValue) : Js unit :=
  try_catch
    (if negb (isTelemetryDataMessage message) then ret tt
     else
       let! timestamp := now env in
       let ack := acknowledgment (get "vin" message) timestamp in
       let! r := gets (fun st => readyState_of st socket) in
       if is_open r then
         let! text := stringify env ack in
         send socket text ;;;
         log DEBUG "Sent acknowledgment"
       else ret tt)
    (log ERROR "Error sending acknowledgment").

(** The first stage of [handleVehicleMessage]: [Some] of the decoded
    object, or [None] after the frame was dropped. *)
Definition decode (data : Data) : Js (option JsValue) :=
  match data with
  | Buffer bytes =>
      match Payload_decode env bytes with
      | Some messageObject =>
          log DEBUG "Received and decoded protobuf message from vehicle" ;;;
          ret (Some messageObject)
      | None =>
          log ERROR "Failed to decode protobuf message" ;;; ret None
      end
  | Text s =>
      match JSON_parse env s with
      | Some messageObject =>
          log DEBUG "Received text message (assumed JSON) from vehicle" ;;;
          ret (Some messageObject)
      | None =>
          log ERROR "Failed to parse text message" ;;; ret None
      end
  | OtherData =>
      log WARN "Received message of unknown type, ignoring." ;;; ret None
  end.

Definition handleVehicleMessage (socket : ConnId) (data : Data) : Js unit :=
  try_catch
    (let! payloadType := gets PayloadType in
     match payloadType with
     | None => log ERROR "Protobuf definitions not loaded, cannot process message."
     | Some _ =>
         let! decoded := decode data in
         match decoded with
         | None => ret tt
         | Some messageObject =>
             match valid_vin messageObject with
             | None => log WARN "Received message without valid VIN, ignoring"
             | Some vin =>
                 let! known := gets (fun st => Map_has vin (vehicleConnections st)) in
                 (if negb known then
                    modify (set_vehicleConnections (Map_set vin socket)) ;;;
                    log INFO ("Vehicle identified: VIN=" ++ vin) ;;;
                    let! timestamp := now env in
                    ClientServer.broadcastTelemetry env (connectivity vin "CONNECTED" timestamp)
                  else ret tt) ;;;
                 match classify messageObject with
                 | UnknownMessage => log WARN ("Received unknown message type from VIN=" ++ vin)
                 | _ => ret tt
                 end ;;;
                 processMessage messageObject ;;;
                 sendAcknowledgment socket messageObject
             end
         end
     end)
    (log ERROR "Error handling vehicle message").

(** The [close] listener that [handleVehicleConnection] registers: the
    scan stops at the first entry whose connection is the closing socket. *)
Definition find_vin (socket : ConnId) (entries : list (string * ConnId)) : option string :=
  match List.find (fun e => Nat.eqb (snd e) socket) entries with
  | Some (vin, _) => Some vin
  | None => None
  end.

Definition onClose (socket : ConnId) : Js unit :=
  let! disconnectedVin := gets (fun st => find_vin socket (vehicleConnections st)) in
  match disconnectedVin with
  | Some vin =>
      if nonempty vin then
        modify (set_vehicleConnections (Map_delete vin)) ;;;
        log INFO ("Vehicle " ++ vin ++ " disconnected") ;;;
        let! timestamp := now env in
        ClientServer.broadcastTelemetry env (connectivity vin "DISCONNECTED" timestamp)
      else log INFO "Unknown vehicle disconnected"
  | None => log INFO "Unknown vehicle disconnected"
  end.

Definition onError (socket : ConnId) : Js unit := log ERROR "Vehicle socket error".

Definition handleVehicleConnection (socket : ConnId) (request : IncomingMessage) : Js unit :=
  log INFO "Vehicle connected" ;;;
  checkClientCertificate request.

Definition handleUpgrade (request : IncomingMessage) (socket : RawId) : Js unit :=
  let! ws := wss_handleUpgrade Producer in
  handleVehicleConnection ws request.

(** The continuation of [loadProtoDefinitions] once the schema file has
    been read. *)
Definition protoLoaded : Js unit :=
  modify (set_PayloadType (Some VehicleDataPayload)) ;;;
  log INFO "Protobuf definitions loaded successfully.".

Definition getVehicleCount : Js nat := gets (fun st => length (vehicleConnections st)).
Definition getConnectedVehicles : Js (list string) := gets (fun st => map fst (vehicleConnections st)).

End WithPlatform.
End TelemetryServer.

(** ** [index.ts]: the upgrade router and the event loop *)

Section Server.
Context (env : Platform).

(** The [upgrade] listener of the HTTP server. *)
Definition onUpgrade (request : IncomingMessage) (socket : RawId) : Js unit :=
  try_catch
    (let! path :=
       match url request with
       | Some u =>
           if nonempty u then
             let! parsed := new_URL env u (base_of request) in
             ret (pathname parsed)
           else ret "/"
       | None => ret "/"
       end in
     if String.eqb path "/stream" then
       log DEBUG "Client WebSocket connection attempt" ;;;
       ClientServer.handleUpgrade env request socket
     else if String.eqb path "/" then
       log DEBUG "Vehicle WebSocket connection attempt" ;;;
       TelemetryServer.handleUpgrade request socket
     else
       log WARN "WebSocket connection attempt to invalid path" ;;;
       emit (SocketWrite socket ("HTTP/1.1 404 Not Found" ++ CRLF ++ CRLF)) ;;;
       emit (SocketDestroy socket))
    (log ERROR "Error handling WebSocket upgrade" ;;;
     emit (SocketWrite socket ("HTTP/1.1 500 Internal Server Error" ++ CRLF ++ CRLF)) ;;;
     emit (SocketDestroy socket)).

(** The events the single dispatcher thread serves, one at a time. *)
Inductive Event : Type :=
| Upgrade (request : IncomingMessage) (socket : RawId)
| ProtoLoaded
| Message (c : ConnId) (data : Data)
| Close (c : ConnId)
| Error (c : ConnId)
| Pong (c : ConnId)
| HeartbeatTick.

(** An event on a socket runs the listeners that were registered on it;
    the library marks a socket closed before it emits [close]. *)
Definition dispatch (ev : Event) : Js unit :=
  match ev with
  | Upgrade request socket => onUpgrade request socket
  | ProtoLoaded => TelemetryServer.protoLoaded
  | Message c data =>
      let! r := gets (fun st => role_of st c) in
      match r with
      | Some Producer => TelemetryServer.handleVehicleMessage env c data
      | _ => ret tt
      end
  | Close c =>
      let! r := gets (fun st => role_of st c) in
      match r with
      | Some Producer => assign_readyState c CLOSED ;;; TelemetryServer.onClose env c
      | Some Subscriber => assign_readyState c CLOSED ;;; ClientServer.onClose c
      | None => ret tt
      end
  | Error c =>
      let! r := gets (fun st => role_of st c) in
      match r with
      | Some Producer => TelemetryServer.onError c
      | Some Subscriber => ClientServer.onError c
      | None => ret tt
      end
  | Pong c =>
      let! r := gets (fun st => role_of st c) in
      match r with
      | Some Subscriber => ClientServer.onPong c
      | _ => ret tt
      end
  | HeartbeatTick => ClientServer.heartbeat
  end.

Fixpoint run (events : list Event) (st : Relay) : Relay * Trace :=
  match events with
  | [] => (st, [])
  | ev :: rest =>
      let r := dispatch ev st in
      let r' := run rest (state_of r) in
      (fst r', trace_of r ++ snd r')
  end.


End Server.

(** ** [services/teslaApi.ts] *)

(** What [fetch] gives back: a rejection, or a response with its [ok] flag
    and the value of [response.json()] ([None] when the body is not JSON). *)
Inductive FetchResult : Type :=
| FetchFailed
| Response (ok : bool) (json : option JsValue).

(** The configuration of the service and the network behind it: [fetch] is
    applied to the address, the method and the body of the request. *)
Record FleetApi : Type := mkFleetApi {
  API_BASE_URL : string;
  ACCESS_TOKEN : string;
  VIN : string;
  fetch : string -> string -> option JsValue -> FetchResult
}.

(** [v.k] on any value: a [TypeError] on [null], the property on an object,
    [undefined] otherwise. *)
Definition member (k : string) (v : JsValue) : Js (option JsValue) :=
  match v with
  | JNull => throw
  | _ => ret (get k v)
  end.

(** [v.k] where [v] may be [undefined]. *)
Definition member_of (k : string) (v : option JsValue) : Js (option JsValue) :=
  match v with
  | None => throw
  | Some x => member k x
  end.

Module TeslaApiService.
Section WithApi.
Context (api : FleetApi).

Definition validateConfig : Js unit :=
  if negb (nonempty (ACCESS_TOKEN api)) then throw
  else if negb (nonempty (VIN api)) then throw
  else ret tt.

Definition makeRequest (endpoint method : string) (body : option JsValue) : Js JsValue :=
  try_catch
    (let url := (API_BASE_URL api ++ endpoint)%string in
     log DEBUG ("Making " ++ method ++ " request to Tesla API: " ++ url) ;;;
     match fetch api url method body with
     | FetchFailed => throw
     | Response ok json =>
         if negb ok then throw
         else match json with
              | Some v => ret v
              | None => throw
              end
     end)
    (log ERROR "Tesla API request failed" ;;; throw).

(** [vehicles.find((v) => v.vin === this.VIN)]: the scan reads [v.vin] of
    each element in turn, which throws on a [null] element. *)
Fixpoint find_vehicle (vehicles : list JsValue) : Js (option JsValue) :=
  match vehicles with
  | [] => ret None
  | v :: rest =>
      let! vin := member "vin" v in
      if is_string_value vin (VIN api) then ret (Some v) else find_vehicle rest
  end.

(** Returns [vehicle.id_s], which is [undefined] ([None]) when the vehicle
    has no such property. *)
Definition getVehicleTag : Js (option JsValue) :=
  try_catch
    (let! response := makeRequest "/vehicles" "GET" None in
     let! vehicles := member "response" response in
     let! vehicle :=
       match vehicles with
       | Some (JArr items) => find_vehicle items
       | _ => throw
       end in
     match vehicle with
     | None => throw
     | Some v =>
         log INFO "Found vehicle" ;;;
         ret (get "id_s" v)
     end)
    (log ERROR "Failed to get vehicle tag" ;;; throw).

Definition wakeUpVehicle (vehicleTag : string) : Js unit :=
  try_catch
    (log INFO ("Waking up vehicle " ++ VIN api ++ "...") ;;;
     let! response := makeRequest ("/vehicles/" ++ vehicleTag ++ "/wake_up") "POST" None in
     let! inner := member "response" response in
     let! state := member_of "state" inner in
     if negb (is_string_value state "online")
     then log INFO "Vehicle not yet online, waiting..."
     else log INFO "Vehicle is now online")
    (log ERROR "Failed to wake up vehicle" ;;; throw).

Definition getTelemetryConfigStatus (vehicleTag : string) : Js (option JsValue) :=
  try_catch
    (log INFO ("Getting telemetry config status for vehicle " ++ VIN api ++ "...") ;;;
     let! response :=
       makeRequest ("/vehicles/" ++ vehicleTag ++ "/fleet_telemetry_config") "GET" None in
     member "response" response)
    (log ERROR "Failed to get telemetry config status" ;;; throw).

Definition getTelemetryErrors (vehicleTag : string) : Js (option JsValue) :=
  try_catch
    (log INFO ("Checking telemetry errors for vehicle " ++ VIN api ++ "...") ;;;
     let! response :=
       makeRequest ("/vehicles/" ++ vehicleTag ++ "/fleet_telemetry_errors") "GET" None in
     member "response" response)
    (log ERROR "Failed to get telemetry errors" ;;; throw).

Definition configureTelemetry (config : JsValue) : Js unit :=
  log WARN "IMPORTANT: Direct telemetry configuration is not implemented here." ;;;
  throw.

Definition checkVehicleStatus (vehicleTag : string) : Js (option JsValue) :=
  try_catch
    (let! response :=
       makeRequest ("/vehicles/" ++ vehicleTag ++ "/fleet_status") "GET" None in
     let! inner := member "response" response in
     let! status := member_of "online_state" inner in
     log INFO "Vehicle online status" ;;;
     ret status)
    (log ERROR "Failed to check vehicle status" ;;; throw).

End WithApi.
End TeslaApiService.

(** ** A concrete platform for the scenarios

    Stand-ins for the libraries, used to run the relay on concrete frames:
    a printer for plain values in the place of [JSON.stringify], and a
    parser that recognises the printed form of the frames listed in
    [known_frames]. *)

Module Scenario.

Definition quote : string := String "034" EmptyString.

Definition join (parts : list string) : string :=
  match parts with
  | [] => ""
  | p :: rest => fold_left (fun acc q => (acc ++ "," ++ q)%string) rest p
  end.

Fixpoint print (v : JsValue) : string :=
  match v with
  | JNull => "null"
  | JBool true => "true"
  | JBool false => "false"
  | JNum n => NilZero.string_of_int (Z.to_int n)
  | JStr s => (quote ++ s ++ quote)%string
  | JArr items => ("[" ++ join (map print items) ++ "]")%string
  | JObj fields =>
      ("{" ++ join ((fix members (l : list (string * JsValue)) : list string :=
                       match l with
                       | [] => []
                       | (k, x) :: rest =>
                           (quote ++ k ++ quote ++ ":" ++ print x)%string :: members rest
                       end) fields) ++ "}")%string
  end.

Definition frame_A : JsValue :=
  JObj [("vin", JStr "V1");
        ("data", JArr [JObj [("key", JStr "soc");
                             ("value", JObj [("doubleValue", JNum 80)])]]);
        ("createdAt", JStr "T1")].

Definition frame_alert : JsValue :=
  JObj [("vin", JStr "V1");
        ("alerts", JArr [JObj [("type", JStr "tpms"); ("message", JStr "low");
                               ("timestamp", JStr "T2")]])].

Definition frame_unknown : JsValue :=
  JObj [("vin", JStr "V1"); ("odometer", JStr "12")].

Definition frame_data_null : JsValue :=
  JObj [("vin", JStr "V1"); ("data", JNull)].

Definition frame_data_scalar : JsValue :=
  JObj [("vin", JStr "V1"); ("data", JStr "soc")].

Definition frame_empty_vin : JsValue :=
  JObj [("vin", JStr ""); ("data", JArr [])].

Definition frame_no_vin : JsValue :=
  JObj [("data", JArr [])].

Definition known_frames : list JsValue :=
  [frame_A; frame_alert; frame_unknown; frame_data_null; frame_data_scalar;
   frame_empty_vin; frame_no_vin].

Definition parse (s : string) : option JsValue :=
  List.find (fun v => String.eqb (print v) s) known_frames.

(** Addresses of the form [/path] or [/path?token=t]. *)
Fixpoint split_query (s : string) : string * option string :=
  match s with
  | EmptyString => (EmptyString, None)
  | String c rest =>
      if Ascii.eqb c "?" then
        (EmptyString,
         if String.prefix "token=" rest
         then Some (String.substring 6 (String.length rest - 6) rest) else None)
      else let (p, q) := split_query rest in (String c p, q)
  end.

Definition parse_url (u base : string) : option URL :=
  if String.prefix "/" u
  then let (p, q) := split_query u in Some {| pathname := p; searchParams_token := q |}
  else None.

(** The one token the gate accepts is ["good"], signed with ["s3cret"]. *)
Definition verify (token secret : string) : option JsValue :=
  if String.eqb token "good" && String.eqb secret "s3cret"
  then Some (JObj [("scope", JStr "client")]) else None.

Definition clock (n : nat) : string :=
  match n with 0 => "T0" | 1 => "T1" | 2 => "T2" | 3 => "T3" | _ => "T9" end.

Definition env : Platform :=
  {| JSON_parse := parse;
     JSON_stringify := print;
     Payload_decode := fun _ => None;
     URL_parse := parse_url;
     jwt_verify := verify;
     toISOString := clock;
     JWT_SECRET := "s3cret";
     NODE_ENV_production := true |}.

Definition subscriber_request (token : string) : IncomingMessage :=
  {| url := Some ("/stream?token=" ++ token)%string; headers_host := Some "relay";
     headers_authorization := None; peer_authorized := None |}.

Definition producer_request : IncomingMessage :=
  {| url := Some "/"; headers_host := Some "relay";
     headers_authorization := None; peer_authorized := None |}.


End Scenario.

(** * The vocabulary of the properties *)

(** ** Reading a trace *)

(** The socket writes of a trace, in order. *)
Definition is_send (e : Effect) : bool :=
  match e with Send _ _ => true | _ => false end.

Definition sends (t : Trace) : Trace := List.filter is_send t.

(** The frames written to connection [c], in order. *)
Fixpoint sent_to (c : ConnId) (t : Trace) : list string :=
  match t with
  | [] => []
  | Send c' payload :: rest =>
      if Nat.eqb c' c then payload :: sent_to c rest else sent_to c rest
  | _ :: rest => sent_to c rest
  end.

(** The values handed to [JSON.stringify], in order. *)
Fixpoint serialised (t : Trace) : list JsValue :=
  match t with
  | [] => []
  | Stringify v :: rest => v :: serialised rest
  | _ :: rest => serialised rest
  end.

(** A stretch of a trace that only logs. *)
Definition only_logs (t : Trace) : Prop :=
  Forall (fun e => match e with Log _ _ => True | _ => False end) t.

(** Runs the monad's plumbing, leaving the calls of handlers in place. *)
Ltac js_run :=
  cbv beta iota zeta delta
    [bind ret gets modify emit log throw try_catch stringify send now new_URL
     ping terminate assign_isAlive assign_authData assign_readyState
     state_of trace_of completion_of].

(** ** The upgrade router *)

(** The path the router dispatches on: [/] when the request has no target,
    nothing when the target does not parse (the router then answers 500). *)
Definition pathname_of (env : Platform) (request : IncomingMessage) : option string :=
  match url request with
  | Some u =>
      if nonempty u then
        match URL_parse env u (base_of request) with
        | Some parsed => Some (pathname parsed)
        | None => None
        end
      else Some "/"
  | None => Some "/"
  end.

(** The state after a subscriber has been admitted with claims [auth]. *)
Definition joined (auth : JsValue) (st : Relay) : Relay :=
  {| clients := Set_add (length (sockets st)) (clients st);
     vehicleConnections := vehicleConnections st;
     PayloadType := PayloadType st;
     sockets := sockets st ++ [{| readyState := OPEN; isAlive := None;
                                   role := Subscriber; authData := Some auth |}];
     dateReads := S (dateReads st) |}.

(** The state after a producer socket has been accepted. *)
Definition accepted (st : Relay) : Relay :=
  set_sockets (fun l => l ++ [{| readyState := OPEN; isAlive := None;
                                 role := Producer; authData := None |}]) st.

(** ** The pool and the pipeline *)

(** The members of the pool whose socket is open, in iteration order. *)
Definition open_clients (st : Relay) : list ConnId :=
  List.filter (fun c => is_open (readyState_of st c)) (clients st).

Definition is_null (v : JsValue) : bool :=
  match v with JNull => true | _ => false end.

(** Whether a property can be read off [v]. *)
Definition readable (v : option JsValue) : bool :=
  match v with None | Some JNull => false | Some _ => true end.

(** Whether [processMessage] gets as far as its call of
    [broadcastTelemetry]: the log line of the branch taken reads
    [message.data.length], [message.errors.length], every [error.code], or
    [message.alerts.length] first, and a [null] there throws into the
    [catch] of [processMessage]. *)
Definition reaches_broadcast (message : JsValue) : bool :=
  if isTelemetryDataMessage message then readable (get "data" message)
  else if isTelemetryConnectivityMessage message then true
  else if isTelemetryErrorMessage message then
    match get "errors" message with
    | Some (JArr errors) => forallb (fun e => negb (is_null e)) errors
    | _ => false
    end
  else if isTelemetryAlertMessage message then readable (get "alerts" message)
  else true.

(** The frame as [decode] sees it, without the logging. *)
Definition payload_of (env : Platform) (data : Data) : option JsValue :=
  match data with
  | Buffer bytes => Payload_decode env bytes
  | Text s => JSON_parse env s
  | OtherData => None
  end.

(** The state after the registry step of the pipeline: a new identity is
    entered (and the clock read for its announcement), a known one is left
    alone. *)
Definition registered (vin : string) (socket : ConnId) (st : Relay) : Relay :=
  if Map_has vin (vehicleConnections st) then st
  else tick_clock (set_vehicleConnections (Map_set vin socket) st).

Section Vocabulary.
Context (env : Platform).

(** What one call of [broadcastTelemetry] does, in closed form. *)
Definition fan_out (message : JsValue) (st : Relay) : Trace :=
  match clients st with
  | [] => []
  | _ :: _ =>
      Stringify message
      :: map (fun c => Send c (JSON_stringify env message)) (open_clients st)
      ++ [Log DEBUG "Broadcast telemetry to clients"]
  end.

(** What the registry step emits: the announcement of a new identity. *)
Definition announce (vin : string) (st : Relay) : Trace :=
  if Map_has vin (vehicleConnections st) then []
  else Log INFO ("Vehicle identified: VIN=" ++ vin)
       :: fan_out (connectivity vin "CONNECTED" (toISOString env (dateReads st))) st.

(** The acknowledgment [sendAcknowledgment] builds in state [st], and what
    the function emits. *)
Definition ack_for (message : JsValue) (st : Relay) : JsValue :=
  acknowledgment (get "vin" message) (toISOString env (dateReads st)).

Definition ack_effects (socket : ConnId) (message : JsValue) (st : Relay) : Trace :=
  if isTelemetryDataMessage message && is_open (readyState_of st socket)
  then [Stringify (ack_for message st);
        Send socket (JSON_stringify env (ack_for message st));
        Log DEBUG "Sent acknowledgment"]
  else [].

End Vocabulary.

(** ** The heartbeat *)

(** The test of the heartbeat, [client.isAlive === false]: the subscriber
    was probed and has not answered since. *)
Definition awaiting (st : Relay) (c : ConnId) : bool :=
  match isAlive_of st c with Some false => true | _ => false end.



(** What the loop body does to a member that is awaiting, and to one that
    is not. *)
Definition evicted (c : ConnId) (st : Relay) : Relay :=
  set_clients (Set_delete c)
    (set_sockets (update_socket c (fun s =>
       {| readyState := match readyState s with CLOSED => CLOSED | _ => CLOSING end;
          isAlive := isAlive s; role := role s; authData := authData s |})) st).

Definition probed (c : ConnId) (st : Relay) : Relay :=
  set_sockets (update_socket c (fun s =>
    {| readyState := readyState s; isAlive := Some false;
       role := role s; authData := authData s |})) st.

(** The pool is a set of sockets of the heap: no socket is in it twice and
    every member names a socket that exists. *)
Definition pool_wf (st : Relay) : Prop :=
  List.NoDup (clients st) /\ Forall (fun c => c < length (sockets st)) (clients st).

(** The members of the pool are sockets the subscriber side set up. *)
Definition subscribers_only (st : Relay) : Prop :=
  Forall (fun c => role_of st c = Some Subscriber) (clients st).



(** What an event other than the timer may do: the heap of sockets only
    grows, a socket's [isAlive] changes only by its own pong, its role never
    changes, and the pool changes by one deletion or by the admission of the
    newest socket, a subscriber's. *)
Record step_ok (ev : Event) (st st' : Relay) : Prop := mk_step_ok {
  ok_length : length (sockets st) <= length (sockets st');
  ok_alive : forall x, x < length (sockets st) ->
             isAlive_of st' x = isAlive_of st x
             \/ (ev = Pong x /\ isAlive_of st' x = Some true);
  ok_role : forall x, x < length (sockets st) -> role_of st' x = role_of st x;
  ok_clients : clients st' = clients st
               \/ (exists c, clients st' = Set_delete c (clients st))
               \/ (clients st' = Set_add (length (sockets st)) (clients st)
                   /\ length (sockets st) < length (sockets st')
                   /\ role_of st' (length (sockets st)) = Some Subscriber)
}.

(** ** The token gate in closed form *)

(** What the query string of the request offers: nothing at all when the
    address does not parse, otherwise the non-empty [token] parameter if
    there is one. *)
Definition query_token (env : Platform) (request : IncomingMessage) : option (option string) :=
  match url request with
  | Some u =>
      if nonempty u then
        match URL_parse env u (base_of request) with
        | Some parsed =>
            Some (match searchParams_token parsed with
                  | Some t => if nonempty t then Some t else None
                  | None => None
                  end)
        | None => None
        end
      else Some None
  | None => Some None
  end.

Definition extracted_token (env : Platform) (request : IncomingMessage) : option string :=
  match query_token env request with
  | None => None
  | Some (Some t) => Some t
  | Some None => AuthService.bearer request
  end.

(** The verdict of the gate on a request: the verified payload, or [JNull]. *)
Definition verdict (env : Platform) (request : IncomingMessage) : JsValue :=
  match extracted_token env request with
  | Some t =>
      if nonempty t && nonempty (AuthService.secret env) then
        match jwt_verify env t (AuthService.secret env) with
        | Some decoded => if truthy decoded then decoded else JNull
        | None => JNull
        end
      else JNull
  | None => JNull
  end.

(** ** Runs *)

Definition is_ProtoLoaded (ev : Event) : bool :=
  match ev with ProtoLoaded => true | _ => false end.

(** No identity is entered twice in the registry. *)
Definition unique_identities (st : Relay) : Prop :=
  List.NoDup (map fst (vehicleConnections st)).

(** Every frame of the trace is written to a socket below [n]. *)
Definition writes_below (n : nat) (t : Trace) : Prop :=
  Forall (fun e => match e with Send c _ => c < n | _ => True end) t.

(** A request with no target and no credential at all. *)
Definition bare_request : IncomingMessage :=
  {| url := None; headers_host := None; headers_authorization := None;
     peer_authorized := None |}.

(** The three refusals the relay can write on a raw transport. *)
Definition refusals : list string :=
  [("HTTP/1.1 401 Unauthorized" ++ CRLF ++ CRLF)%string;
   ("HTTP/1.1 404 Not Found" ++ CRLF ++ CRLF)%string;
   ("HTTP/1.1 500 Internal Server Error" ++ CRLF ++ CRLF)%string].

(** A request whose target the scenario platform cannot parse. *)
Definition malformed_request : IncomingMessage :=
  {| url := Some "stream"; headers_host := Some "relay";
     headers_authorization := Some "Bearer good"; peer_authorized := None |}.

(** An effect of the heartbeat on a member of [pool]. *)
Definition is_probe_of (pool : list ConnId) (e : Effect) : Prop :=
  match e with
  | Ping c | Terminate c => In c pool
  | _ => False
  end.

(** What a producer's frame may do to the outside world while the relay
    is in state [st]: log, serialise, and write to the socket it came from
    (if that is open) or to an open member of the pool. *)
Definition within_reach (st : Relay) (socket : ConnId) (e : Effect) : Prop :=
  match e with
  | Log _ _ | Stringify _ => True
  | Send c _ =>
      (c = socket /\ is_open (readyState_of st socket) = true) \/ In c (open_clients st)
  | _ => False
  end.

(** The log line that reports a frame the first stage could not read. *)
Definition unreadable (data : Data) : Effect :=
  match data with
  | Buffer _ => Log ERROR "Failed to decode protobuf message"
  | Text _ => Log ERROR "Failed to parse text message"
  | OtherData => Log WARN "Received message of unknown type, ignoring."
  end.

(** Every entry of the registry names a socket the producer side set up. *)
Definition names_producers (st : Relay) : Prop :=
  Forall (fun e => role_of st (snd e) = Some Producer) (vehicleConnections st).

Definition is_welcome (v : JsValue) : Prop :=
  exists timestamp, v = ClientServer.welcome timestamp.

(** A trace that serialises and writes nothing but welcome messages. *)
Definition welcomes_only (env : Platform) (t : Trace) : Prop :=
  Forall (fun e => match e with
                   | Stringify v => is_welcome v
                   | Send _ payload => exists v, is_welcome v /\ payload = JSON_stringify env v
                   | _ => True
                   end) t.

(** ** The fleet API *)


(** A request that does not yield a value: [fetch] rejected, the status
    was not a success, or the body was not JSON. *)
Definition failed (r : FetchResult) : bool :=
  match r with
  | Response true (Some _) => false
  | _ => true
  end.

(** ** States of the scenarios *)

(** Two subscribers, the second of which has gone away, and a registered
    producer. *)
Definition two_subscribers : Relay :=
  {| clients := [0; 1];
     vehicleConnections := [("V1", 2)];
     PayloadType := Some VehicleDataPayload;
     sockets := [ {| readyState := OPEN; isAlive := None; role := Subscriber; authData := None |};
                  {| readyState := CLOSED; isAlive := None; role := Subscriber; authData := None |};
                  {| readyState := OPEN; isAlive := None; role := Producer; authData := None |} ];
     dateReads := 0 |}.



(** One producer socket that is closing, with nothing registered yet. *)
Definition closing_producer : Relay :=
  {| clients := [];
     vehicleConnections := [];
     PayloadType := Some VehicleDataPayload;
     sockets := [ {| readyState := CLOSING; isAlive := None; role := Producer;
                     authData := None |} ];
     dateReads := 0 |}.

(** One open producer socket, registered as [V1]. *)
Definition open_producer : Relay :=
  {| clients := [];
     vehicleConnections := [("V1", 0)];
     PayloadType := Some VehicleDataPayload;
     sockets := [ {| readyState := OPEN; isAlive := None; role := Producer;
                     authData := None |} ];
     dateReads := 0 |}.

(** An open subscriber (socket 0) and an open producer (socket 1) that has
    not sent a frame yet. *)
Definition subscriber_and_producer : Relay :=
  {| clients := [0];
     vehicleConnections := [];
     PayloadType := Some VehicleDataPayload;
     sockets := [ {| readyState := OPEN; isAlive := None; role := Subscriber; authData := None |};
                  {| readyState := OPEN; isAlive := None; role := Producer; authData := None |} ];
     dateReads := 0 |}.

(** A producer socket that has sent frames under two identities. *)
Definition two_identities : Relay :=
  fst (run Scenario.env
         [ProtoLoaded;
          Upgrade Scenario.producer_request 8;
          Message 0 (Text (Scenario.print Scenario.frame_A));
          Message 0 (Text (Scenario.print Scenario.frame_empty_vin))]
         initial).

(** An account with two vehicles, the second of which is the configured
    one, and an account that cannot be reached. *)
Definition account : JsValue :=
  JObj [("response",
         JArr [JObj [("vin", JStr "V0"); ("id_s", JStr "100")];
               JObj [("vin", JStr "V1"); ("id_s", JStr "101")];
               JObj [("vin", JStr "V1"); ("id_s", JStr "102")]])].

Definition fleet : FleetApi :=
  {| API_BASE_URL := "https://fleet";
     ACCESS_TOKEN := "t0ken";
     VIN := "V1";
     fetch := fun url method body =>
                if String.eqb url "https://fleet/vehicles" then Response true (Some account)
                else if String.eqb url "https://fleet/vehicles/101/wake_up"
                then Response true (Some (JObj [("response", JObj [("state", JStr "asleep")])]))
                else Response false None |}.

Definition unreachable_fleet : FleetApi :=
  {| API_BASE_URL := "https://fleet";
     ACCESS_TOKEN := "t0ken";
     VIN := "V1";
     fetch := fun _ _ _ => FetchFailed |}.

(** * Properties *)

(** ** Reading a trace *)

Lemma sends_app (t1 t2 : Trace) : sends (t1 ++ t2) = sends t1 ++ sends t2.
Proof. unfold sends. apply List.filter_app. Qed.

Lemma sent_to_app (c : ConnId) (t1 t2 : Trace) :
  sent_to c (t1 ++ t2) = sent_to c t1 ++ sent_to c t2.
Proof.
  induction t1 as [|e t1 IH]; [reflexivity|].
  destruct e; simpl; try exact IH.
  destruct (Nat.eqb c0 c); simpl; now rewrite IH.
Qed.

Lemma serialised_app (t1 t2 : Trace) :
  serialised (t1 ++ t2) = serialised t1 ++ serialised t2.
Proof.
  induction t1 as [|e t1 IH]; [reflexivity|].
  destruct e; simpl; try exact IH. now rewrite IH.
Qed.

Lemma sends_map_Send (payload : string) (l : list ConnId) :
  sends (map (fun c => Send c payload) l) = map (fun c => Send c payload) l.
Proof. induction l as [|c l IH]; simpl; [reflexivity|]. unfold sends in *. simpl. now rewrite IH. Qed.

Lemma serialised_map_Send (payload : string) (l : list ConnId) :
  serialised (map (fun c => Send c payload) l) = [].
Proof. induction l as [|c l IH]; simpl; [reflexivity|exact IH]. Qed.

Lemma sent_to_map_Send_absent (c : ConnId) (payload : string) (l : list ConnId) :
  Set_has c l = false -> sent_to c (map (fun x => Send x payload) l) = [].
Proof.
  unfold Set_has. induction l as [|x l IH]; simpl; [reflexivity|].
  intros H. apply orb_false_iff in H as [Hx Hl].
  rewrite Nat.eqb_sym, Hx. now apply IH.
Qed.

Lemma Set_has_filter (c : ConnId) (f : ConnId -> bool) (l : list ConnId) :
  Set_has c l = false -> Set_has c (List.filter f l) = false.
Proof.
  unfold Set_has. induction l as [|x l IH]; simpl; [reflexivity|].
  intros H. apply orb_false_iff in H as [Hx Hl].
  destruct (f x); simpl; [rewrite Hx|]; now apply IH.
Qed.

(** ** The subscriber pool *)

Section PoolFacts.
Context (env : Platform).

Lemma broadcast_loop_run (messageJson : string) (pool : list ConnId) (n : nat) (st : Relay) :
  ClientServer.broadcast_loop messageJson pool n st
  = (Normal (n + length (List.filter (fun c => is_open (readyState_of st c)) pool)),
     st,
     map (fun c => Send c messageJson)
         (List.filter (fun c => is_open (readyState_of st c)) pool)).
Proof.
  revert n. induction pool as [|c pool IH]; intros n; simpl.
  - js_run. now rewrite Nat.add_0_r.
  - js_run. destruct (is_open (readyState_of st c)); simpl.
    + js_run. rewrite IH. simpl. now rewrite Nat.add_succ_r.
    + rewrite IH. reflexivity.
Qed.

Lemma broadcastTelemetry_run (message : JsValue) (st : Relay) :
  ClientServer.broadcastTelemetry env message st = (Normal tt, st, fan_out env message st).
Proof.
  unfold ClientServer.broadcastTelemetry, fan_out, open_clients. js_run.
  destruct (clients st) as [|c pool] eqn:Hpool; [reflexivity|].
  cbn [length Nat.eqb]. js_run.
  rewrite broadcast_loop_run. reflexivity.
Qed.

Lemma sends_fan_out (message : JsValue) (st : Relay) :
  sends (fan_out env message st)
  = map (fun c => Send c (JSON_stringify env message)) (open_clients st).
Proof.
  unfold fan_out, open_clients. destruct (clients st) as [|c pool]; [reflexivity|].
  change (Stringify message :: ?l) with ([Stringify message] ++ l).
  rewrite !sends_app, sends_map_Send. simpl. now rewrite app_nil_r.
Qed.

Lemma serialised_fan_out (message : JsValue) (st : Relay) :
  serialised (fan_out env message st) = match clients st with [] => [] | _ => [message] end.
Proof.
  unfold fan_out. destruct (clients st) as [|c pool]; [reflexivity|].
  simpl. now rewrite serialised_app, serialised_map_Send.
Qed.

Lemma sent_to_fan_out_absent (c : ConnId) (message : JsValue) (st : Relay) :
  Set_has c (clients st) = false -> sent_to c (fan_out env message st) = [].
Proof.
  intros H. unfold fan_out. destruct (clients st) as [|x pool] eqn:E; [reflexivity|].
  cbn [sent_to]. rewrite sent_to_app.
  rewrite sent_to_map_Send_absent; [reflexivity|].
  unfold open_clients. apply Set_has_filter. now rewrite E.
Qed.

End PoolFacts.

Lemma only_logs_nil : only_logs [].
Proof. constructor. Qed.

Lemma only_logs_cons (level : LogLevel) (message : string) (t : Trace) :
  only_logs t -> only_logs (Log level message :: t).
Proof. intros H. constructor; [exact I|exact H]. Qed.

Lemma only_logs_app (t1 t2 : Trace) : only_logs t1 -> only_logs t2 -> only_logs (t1 ++ t2).
Proof. unfold only_logs. intros H1 H2. apply Forall_app. now split. Qed.

Create HintDb js.
#[local] Hint Resolve only_logs_nil only_logs_cons only_logs_app : js.

Lemma only_logs_sends (t : Trace) : only_logs t -> sends t = [].
Proof.
  induction 1 as [|e t He _ IH]; [reflexivity|].
  destruct e; try contradiction. exact IH.
Qed.

Lemma only_logs_serialised (t : Trace) : only_logs t -> serialised t = [].
Proof.
  induction 1 as [|e t He _ IH]; [reflexivity|].
  destruct e; try contradiction. exact IH.
Qed.

Lemma only_logs_sent_to (c : ConnId) (t : Trace) : only_logs t -> sent_to c t = [].
Proof.
  induction 1 as [|e t He _ IH]; [reflexivity|].
  destruct e; try contradiction. exact IH.
Qed.

(** ** The per-frame pipeline *)

Section PipelineFacts.
Context (env : Platform).

Lemma read_property_of_run (v : option JsValue) (st : Relay) :
  read_property_of v st = (if readable v then Normal tt else Thrown, st, []).
Proof. destruct v as [[]|]; reflexivity. Qed.

Lemma forEach_error_run (errors : list JsValue) (st : Relay) :
  exists logs, only_logs logs /\
    TelemetryServer.forEach_error errors st
    = (if forallb (fun e => negb (is_null e)) errors then Normal tt else Thrown, st, logs).
Proof.
  induction errors as [|e errors [logs [Hlogs IH]]];
    cbn [TelemetryServer.forEach_error forallb].
  - exists []. split; [constructor|reflexivity].
  - js_run. rewrite read_property_of_run.
    destruct e; simpl; try (rewrite IH; eexists; split; [|reflexivity]; auto with js).
    exists []. split; [constructor|reflexivity].
Qed.

Lemma processMessage_run (message : JsValue) (st : Relay) :
  exists logs, only_logs logs /\
    TelemetryServer.processMessage env message st
    = (Normal tt, st,
       logs ++ (if reaches_broadcast message then fan_out env message st else [])).
Proof.
  unfold TelemetryServer.processMessage, reaches_broadcast.
  destruct (isTelemetryDataMessage message).
  { js_run. rewrite read_property_of_run.
    destruct (readable (get "data" message)).
    - rewrite broadcastTelemetry_run.
      exists [Log DEBUG "Received data message"]. split; [auto with js|reflexivity].
    - exists [Log ERROR "Error processing message"]. split; [auto with js|reflexivity]. }
  destruct (isTelemetryConnectivityMessage message).
  { js_run. rewrite broadcastTelemetry_run.
    exists [Log INFO "Received connectivity message"]. split; [auto with js|reflexivity]. }
  destruct (isTelemetryErrorMessage message).
  { js_run. rewrite read_property_of_run.
    destruct (get "errors" message) as [[| | | |errors|]|]; cbn [readable];
      try (exists [Log ERROR "Error processing message"]; split; [auto with js|reflexivity]);
      try (exists [Log WARN "Received error message"; Log ERROR "Error processing message"];
           split; [auto with js|reflexivity]).
    destruct (forEach_error_run errors st) as [logs [Hlogs ->]].
    destruct (forallb _ errors).
    - rewrite broadcastTelemetry_run.
      exists (Log WARN "Received error message" :: logs). split; [auto with js|].
      reflexivity.
    - exists ((Log WARN "Received error message" :: logs)
              ++ [Log ERROR "Error processing message"]).
      split; [auto with js|]. simpl. now rewrite ?app_nil_r. }
  destruct (isTelemetryAlertMessage message).
  { js_run. rewrite read_property_of_run.
    destruct (readable (get "alerts" message)).
    - rewrite broadcastTelemetry_run.
      exists [Log INFO "Received alert message"]. split; [auto with js|reflexivity].
    - exists [Log ERROR "Error processing message"]. split; [auto with js|reflexivity]. }
  js_run. rewrite broadcastTelemetry_run.
  exists [Log WARN "Received unknown message type"]. split; [auto with js|reflexivity].
Qed.

Lemma sendAcknowledgment_run (socket : ConnId) (message : JsValue) (st : Relay) :
  TelemetryServer.sendAcknowledgment env socket message st
  = if isTelemetryDataMessage message then
      (Normal tt, tick_clock st,
       if is_open (readyState_of st socket)
       then [Stringify (ack_for env message st);
             Send socket (JSON_stringify env (ack_for env message st));
             Log DEBUG "Sent acknowledgment"]
       else [])
    else (Normal tt, st, []).
Proof.
  unfold TelemetryServer.sendAcknowledgment, ack_for.
  destruct (isTelemetryDataMessage message); [|reflexivity].
  js_run. cbn [negb].
  change (readyState_of (tick_clock st) socket) with (readyState_of st socket).
  destruct (is_open (readyState_of st socket)); reflexivity.
Qed.

Lemma decode_run (data : Data) (st : Relay) :
  exists logs, only_logs logs /\
    TelemetryServer.decode env data st = (Normal (payload_of env data), st, logs).
Proof.
  destruct data as [bytes|s|]; simpl.
  - destruct (Payload_decode env bytes); eexists; (split; [|reflexivity]); auto with js.
  - destruct (JSON_parse env s); eexists; (split; [|reflexivity]); auto with js.
  - eexists; (split; [|reflexivity]); auto with js.
Qed.

Lemma fan_out_registered (message : JsValue) (vin : string) (socket : ConnId) (st : Relay) :
  fan_out env message (registered vin socket st) = fan_out env message st.
Proof. unfold registered. destruct (Map_has vin (vehicleConnections st)); reflexivity. Qed.

Lemma readyState_of_registered (vin : string) (socket c : ConnId) (st : Relay) :
  readyState_of (registered vin socket st) c = readyState_of st c.
Proof. unfold registered. destruct (Map_has vin (vehicleConnections st)); reflexivity. Qed.

(** The whole pipeline on a frame that decodes to an object with a string
    identity, as one equation. *)
Lemma handleVehicleMessage_run (socket : ConnId) (data : Data) (st : Relay)
    (p : ProtoType) (messageObject : JsValue) (vin : string) :
  PayloadType st = Some p ->
  payload_of env data = Some messageObject ->
  valid_vin messageObject = Some vin ->
  exists logs0 logs1, only_logs logs0 /\ only_logs logs1 /\
    TelemetryServer.handleVehicleMessage env socket data st
    = (Normal tt,
       (if isTelemetryDataMessage messageObject
        then tick_clock (registered vin socket st) else registered vin socket st),
       logs0 ++ announce env vin st ++ logs1
       ++ (if reaches_broadcast messageObject then fan_out env messageObject st else [])
       ++ ack_effects env socket messageObject (registered vin socket st)).
Proof.
  intros Hp Hdata Hvin.
  destruct (decode_run data st) as [logs0 [Hlogs0 Hdec]].
  destruct (processMessage_run messageObject (registered vin socket st))
    as [logs [Hlogs Hproc]].
  rewrite fan_out_registered in Hproc.
  pose proof (sendAcknowledgment_run socket messageObject (registered vin socket st)) as Hack.
  rewrite readyState_of_registered in Hack.
  exists logs0.
  exists (match classify messageObject with
          | UnknownMessage => [Log WARN ("Received unknown message type from VIN=" ++ vin)]
          | _ => []
          end ++ logs).
  split; [exact Hlogs0|]. split.
  { apply only_logs_app; [|exact Hlogs]. destruct (classify messageObject); auto with js. }
  unfold TelemetryServer.handleVehicleMessage. js_run.
  rewrite Hp, Hdec, Hdata, Hvin.
  unfold registered, announce, ack_effects in *.
  destruct (Map_has vin (vehicleConnections st)); cbn [negb].
  - destruct (classify messageObject); rewrite Hproc, Hack;
      destruct (isTelemetryDataMessage messageObject); cbn [andb];
      rewrite ?app_nil_r, <- ?app_assoc; reflexivity.
  - rewrite broadcastTelemetry_run.
    destruct (classify messageObject); rewrite Hproc, Hack;
      destruct (isTelemetryDataMessage messageObject); cbn [andb];
      rewrite ?app_nil_r, <- ?app_assoc; reflexivity.
Qed.

End PipelineFacts.

(** ** The token gate and the upgrade router *)

Section GateFacts.
Context (env : Platform).

Lemma extractToken_run (request : IncomingMessage) (st : Relay) :
  exists token logs, only_logs logs /\
    AuthService.extractToken env request st = (Normal token, st, logs).
Proof.
  unfold AuthService.extractToken. js_run.
  destruct (url request) as [u|].
  - destruct (nonempty u).
    + destruct (URL_parse env u (base_of request)) as [parsed|].
      * destruct (searchParams_token parsed) as [t|].
        -- destruct (nonempty t); eexists _, []; (split; [constructor|reflexivity]).
        -- eexists _, []; (split; [constructor|reflexivity]).
      * exists None, [Log ERROR "Failed to extract token"]. split; [auto with js|reflexivity].
    + eexists _, []; (split; [constructor|reflexivity]).
  - eexists _, []; (split; [constructor|reflexivity]).
Qed.

Lemma verifyToken_run (token : string) (st : Relay) :
  exists decoded logs, only_logs logs /\
    AuthService.verifyToken env token st = (Normal decoded, st, logs).
Proof.
  unfold AuthService.verifyToken. js_run.
  destruct (negb (nonempty (AuthService.secret env))).
  - exists JNull, [Log ERROR "Token verification failed"]. split; [auto with js|reflexivity].
  - destruct (jwt_verify env token (AuthService.secret env)) as [decoded|].
    + exists decoded, []. split; [constructor|reflexivity].
    + exists JNull, [Log ERROR "Token verification failed"]. split; [auto with js|reflexivity].
Qed.

(** The gate always returns, leaves the relay's state alone and only logs. *)
Lemma authenticate_run (request : IncomingMessage) (st : Relay) :
  exists auth logs, only_logs logs /\
    AuthService.authenticateWebSocketRequest env request st = (Normal auth, st, logs).
Proof.
  unfold AuthService.authenticateWebSocketRequest. js_run.
  destruct (extractToken_run request st) as [token [logs0 [Hlogs0 ->]]].
  destruct token as [t|].
  - destruct (nonempty t); cbn [negb].
    + destruct (verifyToken_run t st) as [decoded [logs1 [Hlogs1 ->]]].
      destruct (truthy decoded); cbn [negb].
      * exists decoded, (logs0 ++ logs1 ++ [Log INFO "WebSocket client authenticated"]).
        split; [auto with js|reflexivity].
      * exists JNull,
          (logs0 ++ logs1 ++ [Log WARN "WebSocket connection attempt with invalid token"]).
        split; [auto with js|reflexivity].
    + exists JNull, (logs0 ++ [Log WARN "WebSocket connection attempt without token"]).
      split; [auto with js|reflexivity].
  - exists JNull, (logs0 ++ [Log WARN "WebSocket connection attempt without token"]).
    split; [auto with js|reflexivity].
Qed.

Lemma update_socket_last (l : list Socket) (s : Socket) (f : Socket -> Socket) :
  update_socket (length l) f (l ++ [s]) = l ++ [f s].
Proof.
  unfold update_socket.
  rewrite lookup_app_r by lia. rewrite Nat.sub_diag. simpl.
  rewrite insert_app_r_alt by lia. now rewrite Nat.sub_diag.
Qed.

End GateFacts.



(** ** Broadcast *)

Lemma Set_has_filter_eq (c : ConnId) (f : ConnId -> bool) (l : list ConnId) :
  Set_has c (List.filter f l) = Set_has c l && f c.
Proof.
  unfold Set_has. induction l as [|x l IH]; simpl; [reflexivity|].
  destruct (f x) eqn:Hfx; simpl; rewrite IH.
  - destruct (Nat.eqb c x) eqn:Hcx; simpl; [|reflexivity].
    apply Nat.eqb_eq in Hcx. subst x. now rewrite Hfx.
  - destruct (Nat.eqb c x) eqn:Hcx; simpl; [|reflexivity].
    apply Nat.eqb_eq in Hcx. subst x. rewrite Hfx. now rewrite !andb_false_r.
Qed.

Lemma sent_to_map_Send (c : ConnId) (payload : string) (l : list ConnId) :
  List.NoDup l ->
  sent_to c (map (fun x => Send x payload) l) = if Set_has c l then [payload] else [].
Proof.
  induction 1 as [|x l Hx Hl IH]; [reflexivity|].
  cbn [map sent_to]. unfold Set_has in *. cbn [existsb].
  rewrite (Nat.eqb_sym x c).
  destruct (Nat.eqb c x) eqn:Hcx; cbn [orb]; [|exact IH].
  apply Nat.eqb_eq in Hcx. subst x.
  rewrite IH.
  destruct (existsb (Nat.eqb c) l) eqn:Hin; [|reflexivity].
  exfalso. apply Hx. apply existsb_exists in Hin as [y [Hy Hcy]].
  apply Nat.eqb_eq in Hcy. now subst y.
Qed.

(** C6. [broadcastTelemetry] leaves the relay's state as it found it, so
    neither the pool nor the registry changes. On an empty pool it does
    nothing at all, not even serialise. Otherwise it serialises the message
    exactly once, writes that one string to the open members of the pool, in
    pool order, passing over the members that are not open without a word,
    and logs the count; when the pool holds no connection twice, every open
    member gets exactly one copy and every other connection gets none. *)
Theorem C6_broadcast (env : Platform) (message : JsValue) (st : Relay) :
  let r := ClientServer.broadcastTelemetry env message st in
  completion_of r = Normal tt
  /\ state_of r = st
  /\ match clients st with
     | [] => trace_of r = []
     | _ :: _ =>
         trace_of r
         = Stringify message
           :: map (fun c => Send c (JSON_stringify env message)) (open_clients st)
           ++ [Log DEBUG "Broadcast telemetry to clients"]
         /\ serialised (trace_of r) = [message]
     end
  /\ (List.NoDup (clients st) -> forall c,
        sent_to c (trace_of r)
        = if Set_has c (clients st) && is_open (readyState_of st c)
          then [JSON_stringify env message] else []).
Proof.
  cbv zeta. rewrite broadcastTelemetry_run. unfold completion_of, state_of, trace_of.
  cbn [fst snd]. split; [reflexivity|]. split; [reflexivity|]. split.
  - pose proof (serialised_fan_out env message st) as Hser.
    unfold fan_out in *. destruct (clients st); [reflexivity|]. now split.
  - intros Hnodup c. unfold fan_out.
    destruct (clients st) as [|x pool] eqn:Hpool; [reflexivity|].
    cbn [sent_to]. rewrite sent_to_app. cbn [sent_to]. rewrite app_nil_r.
    rewrite sent_to_map_Send.
    + unfold open_clients. rewrite Set_has_filter_eq, Hpool. reflexivity.
    + unfold open_clients. apply List.NoDup_filter. now rewrite Hpool.
Qed.

Lemma C6_broadcast_witness :
  List.NoDup (clients two_subscribers)
  /\ sent_to 0 (trace_of (ClientServer.broadcastTelemetry Scenario.env Scenario.frame_alert
                            two_subscribers))
     = [Scenario.print Scenario.frame_alert]
  /\ sent_to 1 (trace_of (ClientServer.broadcastTelemetry Scenario.env Scenario.frame_alert
                            two_subscribers))
     = [].
Proof.
  assert (Hnodup : List.NoDup (clients two_subscribers)).
  { cbn. repeat constructor; cbn; intuition discriminate. }
  split; [exact Hnodup|].
  destruct (C6_broadcast Scenario.env Scenario.frame_alert two_subscribers)
    as [_ [_ [_ Hper]]].
  split; rewrite (Hper Hnodup); reflexivity.
Defined.

(** ** Frames that arrive before the schema is loaded *)

(** C10. While [PayloadType] is unset, [handleVehicleMessage] logs one
    error and returns: the state (registry, pool, sockets) is what it was
    and nothing is serialised or written, whatever the frame, a text frame
    included. *)
Theorem C10_no_schema_no_processing (env : Platform) (socket : ConnId) (data : Data)
    (st : Relay) :
  PayloadType st = None ->
  TelemetryServer.handleVehicleMessage env socket data st
  = (Normal tt, st, [Log ERROR "Protobuf definitions not loaded, cannot process message."]).
Proof.
  intros Hnone. unfold TelemetryServer.handleVehicleMessage. js_run.
  rewrite Hnone. reflexivity.
Qed.

Lemma C10_no_schema_no_processing_witness :
  PayloadType (accepted initial) = None
  /\ TelemetryServer.handleVehicleMessage Scenario.env 0
       (Text (Scenario.print Scenario.frame_A)) (accepted initial)
     = (Normal tt, accepted initial,
        [Log ERROR "Protobuf definitions not loaded, cannot process message."]).
Proof.
  split; [reflexivity|].
  apply (C10_no_schema_no_processing Scenario.env 0 (Text (Scenario.print Scenario.frame_A))
           (accepted initial)).
  reflexivity.
Defined.

(** ** The producer registry and the pipeline *)

Lemma valid_vin_get (message : JsValue) (vin : string) :
  valid_vin message = Some vin -> get "vin" message = Some (JStr vin).
Proof.
  unfold valid_vin. destruct (negb (truthy message)); [discriminate|].
  destruct (typeof message); try discriminate.
  destruct (negb (has_key "vin" message)); [discriminate|].
  destruct (get "vin" message) as [[]|]; try discriminate. now intros [= ->].
Qed.

Lemma classify_DataMessage (message : JsValue) :
  classify message = DataMessage ->
  isTelemetryDataMessage message = true /\ reaches_broadcast message = true.
Proof.
  unfold classify, reaches_broadcast, isTelemetryDataMessage.
  destruct (has_key "data" message); cbn [andb].
  - destruct (get "data" message) as [[]|]; cbn [isArray readable]; try (now split).
    all: repeat match goal with
                | |- context [if ?b then _ else _] => destruct b
                end; discriminate.
  - repeat match goal with
           | |- context [if ?b then _ else _] => destruct b
           end; discriminate.
Qed.


Lemma Map_set_absent (k : string) (c : ConnId) (m : list (string * ConnId)) :
  Map_has k m = false -> Map_set k c m = m ++ [(k, c)].
Proof.
  unfold Map_has. induction m as [|[k' v] m IH]; simpl; [reflexivity|].
  destruct (String.eqb k' k); simpl; [discriminate|].
  intros H. now rewrite IH.
Qed.

Section RegistryClaims.
Context (env : Platform).


End RegistryClaims.



(** ** Acknowledgments *)

Section AckClaims.
Context (env : Platform).

(** C3, as the code has it. For a decoded frame with a string identity
    that arrives on a producer connection (one that is not in the
    subscriber pool): if the frame is a DataMessage (its [data] is an
    array), the connection is written exactly one frame, the
    acknowledgment with the frame's identity, when its socket is open, and
    nothing when it is not; if the frame has no [data] field at all, the
    connection is written nothing. *)
Theorem C3_acknowledgment (socket : ConnId) (data : Data) (st : Relay)
    (p : ProtoType) (messageObject : JsValue) (vin : string) :
  PayloadType st = Some p ->
  payload_of env data = Some messageObject ->
  valid_vin messageObject = Some vin ->
  Set_has socket (clients st) = false ->
  let r := TelemetryServer.handleVehicleMessage env socket data st in
  (classify messageObject = DataMessage ->
     sent_to socket (trace_of r)
     = if is_open (readyState_of st socket)
       then [JSON_stringify env
               (acknowledgment (Some (JStr vin))
                  (toISOString env
                     (if Map_has vin (vehicleConnections st)
                      then dateReads st else S (dateReads st))))]
       else [])
  /\ (isTelemetryDataMessage messageObject = false -> sent_to socket (trace_of r) = []).
Proof.
  intros Hp Hdata Hvin Hout. cbv zeta.
  destruct (handleVehicleMessage_run env socket data st p messageObject vin Hp Hdata Hvin)
    as [logs0 [logs1 [Hlogs0 [Hlogs1 Hrun]]]].
  rewrite Hrun. unfold trace_of. cbn [snd].
  assert (Hann : sent_to socket (announce env vin st) = []).
  { unfold announce. destruct (Map_has vin (vehicleConnections st)); [reflexivity|].
    cbn [sent_to]. now apply sent_to_fan_out_absent. }
  assert (Hfan : sent_to socket (if reaches_broadcast messageObject
                                 then fan_out env messageObject st else []) = []).
  { destruct (reaches_broadcast messageObject); [|reflexivity].
    now apply sent_to_fan_out_absent. }
  rewrite !sent_to_app, (only_logs_sent_to _ _ Hlogs0), (only_logs_sent_to _ _ Hlogs1),
    Hann, Hfan.
  cbn [app]. unfold ack_effects, ack_for.
  rewrite readyState_of_registered, (valid_vin_get _ _ Hvin).
  split.
  - intros Hclass. destruct (classify_DataMessage _ Hclass) as [Hdatakey _].
    rewrite Hdatakey. cbn [andb].
    destruct (is_open (readyState_of st socket)); [|reflexivity].
    cbn [sent_to]. rewrite Nat.eqb_refl. unfold registered.
    destruct (Map_has vin (vehicleConnections st)); reflexivity.
  - intros Hnodata. rewrite Hnodata. reflexivity.
Qed.

End AckClaims.

Lemma C3_acknowledgment_witness :
  Set_has 0 (clients open_producer) = false
  /\ (classify Scenario.frame_A = DataMessage
      /\ sent_to 0 (trace_of (TelemetryServer.handleVehicleMessage Scenario.env 0
                                (Text (Scenario.print Scenario.frame_A)) open_producer))
         = [Scenario.print (acknowledgment (Some (JStr "V1")) "T0")])
  /\ (isTelemetryDataMessage Scenario.frame_alert = false
      /\ sent_to 0 (trace_of (TelemetryServer.handleVehicleMessage Scenario.env 0
                                (Text (Scenario.print Scenario.frame_alert)) open_producer))
         = []).
Proof.
  split; [reflexivity|]. split.
  - split; [reflexivity|].
    destruct (C3_acknowledgment Scenario.env 0 (Text (Scenario.print Scenario.frame_A))
                open_producer VehicleDataPayload Scenario.frame_A "V1"
                eq_refl eq_refl eq_refl eq_refl) as [Hack _].
    rewrite (Hack eq_refl). reflexivity.
  - split; [reflexivity|].
    destruct (C3_acknowledgment Scenario.env 0 (Text (Scenario.print Scenario.frame_alert))
                open_producer VehicleDataPayload Scenario.frame_alert "V1"
                eq_refl eq_refl eq_refl eq_refl) as [_ Hnone].
    exact (Hnone eq_refl).
Defined.

(** The claim as the specification words it fails in both directions. A
    DataMessage that arrives on a socket that is no longer open is not
    acknowledged; and a frame whose [data] is not an array, which the
    pipeline classifies as unknown, is acknowledged all the same. *)
Lemma C3_counterexample :
  (classify Scenario.frame_A = DataMessage
   /\ valid_vin Scenario.frame_A = Some "V1"
   /\ sends (trace_of (TelemetryServer.handleVehicleMessage Scenario.env 0
                         (Text (Scenario.print Scenario.frame_A)) closing_producer))
      = [])
  /\ (classify Scenario.frame_data_scalar = UnknownMessage
      /\ valid_vin Scenario.frame_data_scalar = Some "V1"
      /\ sends (trace_of (TelemetryServer.handleVehicleMessage Scenario.env 0
                            (Text (Scenario.print Scenario.frame_data_scalar)) open_producer))
         = [Send 0 (Scenario.print (acknowledgment (Some (JStr "V1")) "T0"))]).
Proof. repeat split; reflexivity. Qed.

(** ** Identity *)

Section IdentityClaims.
Context (env : Platform).

(** C4, as the code has it. A decoded payload that is not an object with a
    [vin] of type string is rejected before the registry and the
    classification are reached: the state is unchanged and the handler only
    logs, ending with the warning. For a payload that passes the test with
    identity [vin], every value the handler serialises carries [vin] as its
    identity, and every frame it writes is the serialisation of such a
    value. [vin] is a string, possibly the empty one. *)
Theorem C4_identity (socket : ConnId) (data : Data) (st : Relay)
    (p : ProtoType) (messageObject : JsValue) :
  PayloadType st = Some p ->
  payload_of env data = Some messageObject ->
  let r := TelemetryServer.handleVehicleMessage env socket data st in
  match valid_vin messageObject with
  | None =>
      completion_of r = Normal tt /\ state_of r = st
      /\ only_logs (trace_of r)
      /\ In (Log WARN "Received message without valid VIN, ignoring") (trace_of r)
  | Some vin =>
      Forall (fun m => get "vin" m = Some (JStr vin)) (serialised (trace_of r))
      /\ Forall (fun e => match e with
                          | Send _ payload =>
                              exists m, In m (serialised (trace_of r))
                                        /\ payload = JSON_stringify env m
                          | _ => True
                          end) (trace_of r)
  end.
Proof.
  intros Hp Hdata. cbv zeta.
  destruct (valid_vin messageObject) as [vin|] eqn:Hvin.
  - destruct (handleVehicleMessage_run env socket data st p messageObject vin Hp Hdata Hvin)
      as [logs0 [logs1 [Hlogs0 [Hlogs1 Hrun]]]].
    rewrite Hrun. unfold trace_of. cbn [snd].
    pose proof (valid_vin_get _ _ Hvin) as Hget.
    rewrite !serialised_app, (only_logs_serialised _ Hlogs0), (only_logs_serialised _ Hlogs1).
    cbn [app].
    assert (Hser_ann : serialised (announce env vin st)
              = if Map_has vin (vehicleConnections st) then []
                else match clients st with
                     | [] => []
                     | _ :: _ => [connectivity vin "CONNECTED" (toISOString env (dateReads st))]
                     end).
    { unfold announce. destruct (Map_has vin (vehicleConnections st)); [reflexivity|].
      cbn [serialised]. apply serialised_fan_out. }
    assert (Hser_fan : serialised (if reaches_broadcast messageObject
                                   then fan_out env messageObject st else [])
              = if reaches_broadcast messageObject
                then match clients st with [] => [] | _ :: _ => [messageObject] end
                else []).
    { destruct (reaches_broadcast messageObject); [apply serialised_fan_out|reflexivity]. }
    assert (Hser_ack : serialised (ack_effects env socket messageObject (registered vin socket st))
              = if isTelemetryDataMessage messageObject && is_open (readyState_of st socket)
                then [ack_for env messageObject (registered vin socket st)] else []).
    { unfold ack_effects. rewrite readyState_of_registered.
      destruct (isTelemetryDataMessage messageObject && is_open (readyState_of st socket));
        reflexivity. }
    rewrite Hser_ann, Hser_fan, Hser_ack.
    split.
    + repeat apply Forall_app_2.
      * destruct (Map_has vin (vehicleConnections st)); [constructor|].
        destruct (clients st); repeat constructor.
      * destruct (reaches_broadcast messageObject); [|constructor].
        destruct (clients st); repeat constructor. exact Hget.
      * destruct (isTelemetryDataMessage messageObject && is_open (readyState_of st socket));
          repeat constructor.
        unfold ack_for. rewrite Hget. reflexivity.
    + repeat apply Forall_app_2.
      * eapply List.Forall_impl; [|exact Hlogs0]. intros []; simpl; tauto.
      * unfold announce. destruct (Map_has vin (vehicleConnections st)); [constructor|].
        constructor; [exact I|]. unfold fan_out.
        destruct (clients st) as [|c0 pool]; [constructor|].
        constructor; [exact I|]. apply Forall_app_2; [|repeat constructor].
        apply Forall_forall. intros e He. apply list_elem_of_In in He.
        apply in_map_iff in He as [c [<- _]].
        eexists. split; [|reflexivity]. apply in_or_app. left. now left.
      * eapply List.Forall_impl; [|exact Hlogs1]. intros []; simpl; tauto.
      * destruct (reaches_broadcast messageObject); [|constructor]. unfold fan_out.
        destruct (clients st) as [|c0 pool]; [constructor|].
        constructor; [exact I|]. apply Forall_app_2; [|repeat constructor].
        apply Forall_forall. intros e He. apply list_elem_of_In in He.
        apply in_map_iff in He as [c [<- _]].
        eexists. split; [|reflexivity]. apply in_or_app. right. apply in_or_app. left. now left.
      * unfold ack_effects. rewrite readyState_of_registered.
        destruct (isTelemetryDataMessage messageObject && is_open (readyState_of st socket));
          [|constructor].
        repeat constructor.
        eexists. split; [|reflexivity]. apply in_or_app. right. apply in_or_app. right. now left.
  - destruct (decode_run env data st) as [logs0 [Hlogs0 Hdec]].
    unfold TelemetryServer.handleVehicleMessage. js_run.
    rewrite Hp, Hdec, Hdata, Hvin.
    unfold completion_of, state_of, trace_of. cbn [fst snd].
    split; [reflexivity|]. split; [reflexivity|]. split.
    + rewrite ?app_nil_l. auto with js.
    + apply in_or_app. right. apply in_or_app. right. now left.
Qed.

End IdentityClaims.

Lemma C4_identity_witness :
  PayloadType subscriber_and_producer = Some VehicleDataPayload
  /\ payload_of Scenario.env (Text (Scenario.print Scenario.frame_no_vin))
     = Some Scenario.frame_no_vin
  /\ valid_vin Scenario.frame_no_vin = None
  /\ state_of (TelemetryServer.handleVehicleMessage Scenario.env 1
                 (Text (Scenario.print Scenario.frame_no_vin)) subscriber_and_producer)
     = subscriber_and_producer.
Proof.
  split; [reflexivity|]. split; [reflexivity|]. split; [reflexivity|].
  pose proof (C4_identity Scenario.env 1 (Text (Scenario.print Scenario.frame_no_vin))
                subscriber_and_producer VehicleDataPayload Scenario.frame_no_vin
                eq_refl eq_refl) as H.
  cbv zeta in H. change (valid_vin Scenario.frame_no_vin) with (@None string) in H.
  cbv iota in H. destruct H as [_ [Hstate _]]. exact Hstate.
Defined.

(** The claim as the specification words it fails: a frame whose [vin] is
    the empty string passes the identity test, and both the CONNECTED
    message synthesised for it and the frame itself reach the subscriber
    with an empty identity. *)
Lemma C4_counterexample :
  valid_vin Scenario.frame_empty_vin = Some ""
  /\ serialised (trace_of (TelemetryServer.handleVehicleMessage Scenario.env 1
                             (Text (Scenario.print Scenario.frame_empty_vin))
                             subscriber_and_producer))
     = [connectivity "" "CONNECTED" "T0"; Scenario.frame_empty_vin;
        acknowledgment (Some (JStr "")) "T1"]
  /\ sent_to 0 (trace_of (TelemetryServer.handleVehicleMessage Scenario.env 1
                            (Text (Scenario.print Scenario.frame_empty_vin))
                            subscriber_and_producer))
     = [Scenario.print (connectivity "" "CONNECTED" "T0");
        Scenario.print Scenario.frame_empty_vin]
  /\ get "vin" (connectivity "" "CONNECTED" "T0") = Some (JStr "")
  /\ get "vin" Scenario.frame_empty_vin = Some (JStr "").
Proof. repeat split; reflexivity. Qed.

(** ** The first frame of a producer *)

Section FirstFrameClaims.
Context (env : Platform).

(** C5, as the code has it. A frame whose identity [vin] is not in the
    registry enters [vin] with the frame's connection, and nothing but
    logging precedes the broadcast of the CONNECTED message synthesised for
    [vin]: whatever is done with the frame itself comes after it. For a
    DataMessage the writes of the whole pipeline are, in order, the
    CONNECTED message to every open subscriber, the frame to every open
    subscriber, and one acknowledgment to the producer when its socket is
    open (none when it is not). *)
Theorem C5_first_frame (socket : ConnId) (data : Data) (st : Relay)
    (p : ProtoType) (messageObject : JsValue) (vin : string) :
  PayloadType st = Some p ->
  payload_of env data = Some messageObject ->
  valid_vin messageObject = Some vin ->
  Map_has vin (vehicleConnections st) = false ->
  let r := TelemetryServer.handleVehicleMessage env socket data st in
  let connected := connectivity vin "CONNECTED" (toISOString env (dateReads st)) in
  let ack := acknowledgment (Some (JStr vin)) (toISOString env (S (dateReads st))) in
  vehicleConnections (state_of r) = vehicleConnections st ++ [(vin, socket)]
  /\ clients (state_of r) = clients st
  /\ (exists logs rest,
        only_logs logs
        /\ trace_of r
           = logs ++ trace_of (ClientServer.broadcastTelemetry env connected st) ++ rest)
  /\ (classify messageObject = DataMessage ->
        sends (trace_of r)
        = map (fun c => Send c (JSON_stringify env connected)) (open_clients st)
          ++ map (fun c => Send c (JSON_stringify env messageObject)) (open_clients st)
          ++ (if is_open (readyState_of st socket)
              then [Send socket (JSON_stringify env ack)] else [])).
Proof.
  intros Hp Hdata Hvin Hnew. cbv zeta.
  destruct (handleVehicleMessage_run env socket data st p messageObject vin Hp Hdata Hvin)
    as [logs0 [logs1 [Hlogs0 [Hlogs1 Hrun]]]].
  rewrite Hrun, broadcastTelemetry_run. unfold state_of, trace_of. cbn [fst snd].
  unfold registered, announce, ack_effects, ack_for. rewrite Hnew.
  rewrite (valid_vin_get _ _ Hvin).
  split; [|split; [|split]].
  - destruct (isTelemetryDataMessage messageObject); cbn; now rewrite Map_set_absent.
  - destruct (isTelemetryDataMessage messageObject); reflexivity.
  - exists (logs0 ++ [Log INFO ("Vehicle identified: VIN=" ++ vin)]). eexists.
    split; [auto with js|]. rewrite <- !app_assoc. reflexivity.
  - intros Hclass. destruct (classify_DataMessage _ Hclass) as [Hdatakey Hreach].
    rewrite Hdatakey, Hreach. cbn [andb].
    change (Log INFO ("Vehicle identified: VIN=" ++ vin) :: ?l)
      with ([Log INFO ("Vehicle identified: VIN=" ++ vin)] ++ l).
    rewrite !sends_app, (only_logs_sends _ Hlogs0), (only_logs_sends _ Hlogs1),
      !sends_fan_out.
    cbn [app sends List.filter is_send].
    f_equal. f_equal.
    change (readyState_of
              (tick_clock (set_vehicleConnections (Map_set vin socket) st)) socket)
      with (readyState_of st socket).
    destruct (is_open (readyState_of st socket)); reflexivity.
Qed.

End FirstFrameClaims.

(** Scenario A: an open subscriber, and a producer whose first frame is a
    DataMessage for [V1]. *)
Lemma C5_first_frame_witness :
  Map_has "V1" (vehicleConnections subscriber_and_producer) = false
  /\ classify Scenario.frame_A = DataMessage
  /\ vehicleConnections
       (state_of (TelemetryServer.handleVehicleMessage Scenario.env 1
                    (Text (Scenario.print Scenario.frame_A)) subscriber_and_producer))
     = [("V1", 1)]
  /\ sends (trace_of (TelemetryServer.handleVehicleMessage Scenario.env 1
                        (Text (Scenario.print Scenario.frame_A)) subscriber_and_producer))
     = [Send 0 (Scenario.print (connectivity "V1" "CONNECTED" "T0"));
        Send 0 (Scenario.print Scenario.frame_A);
        Send 1 (Scenario.print (acknowledgment (Some (JStr "V1")) "T1"))].
Proof.
  split; [reflexivity|]. split; [reflexivity|].
  destruct (C5_first_frame Scenario.env 1 (Text (Scenario.print Scenario.frame_A))
              subscriber_and_producer VehicleDataPayload Scenario.frame_A "V1"
              eq_refl eq_refl eq_refl eq_refl) as [Hreg [_ [_ Hsends]]].
  split; [exact Hreg|]. rewrite (Hsends eq_refl). reflexivity.
Defined.

(** The claim as the specification words it fails in its last part: the
    first DataMessage of a producer whose socket is no longer open enters
    the registry, and the producer is written no acknowledgment. *)
Lemma C5_counterexample :
  Map_has "V1" (vehicleConnections closing_producer) = false
  /\ classify Scenario.frame_A = DataMessage
  /\ vehicleConnections
       (state_of (TelemetryServer.handleVehicleMessage Scenario.env 0
                    (Text (Scenario.print Scenario.frame_A)) closing_producer))
     = [("V1", 0)]
  /\ sent_to 0 (trace_of (TelemetryServer.handleVehicleMessage Scenario.env 0
                            (Text (Scenario.print Scenario.frame_A)) closing_producer))
     = [].
Proof. repeat split; reflexivity. Qed.

(** ** Frames of an unknown shape *)

Section UnknownShape.
Context (env : Platform).

(** A frame that has none of the four distinguishing fields is treated as
    unknown and forwarded: after the announcement of a new identity, if any,
    the frame is written to every open subscriber and to nobody else. *)
Lemma unknown_shape_is_forwarded (socket : ConnId) (data : Data) (st : Relay)
    (p : ProtoType) (messageObject : JsValue) (vin : string) :
  PayloadType st = Some p ->
  payload_of env data = Some messageObject ->
  valid_vin messageObject = Some vin ->
  has_key "data" messageObject = false ->
  has_key "status" messageObject = false ->
  has_key "errors" messageObject = false ->
  has_key "alerts" messageObject = false ->
  let r := TelemetryServer.handleVehicleMessage env socket data st in
  classify messageObject = UnknownMessage
  /\ In (Log WARN ("Received unknown message type from VIN=" ++ vin)) (trace_of r)
  /\ sends (trace_of r)
     = sends (announce env vin st)
       ++ map (fun c => Send c (JSON_stringify env messageObject)) (open_clients st).
Proof.
  intros Hp Hdata Hvin Hd Hs He Ha. cbv zeta.
  assert (Hclass : classify messageObject = UnknownMessage).
  { unfold classify. now rewrite Hd, Hs, He, Ha. }
  assert (Hreach : reaches_broadcast messageObject = true).
  { unfold reaches_broadcast, isTelemetryDataMessage, isTelemetryConnectivityMessage,
      isTelemetryErrorMessage, isTelemetryAlertMessage. now rewrite Hd, Hs, He, Ha. }
  split; [exact Hclass|].
  destruct (decode_run env data st) as [logs0 [Hlogs0 Hdec]].
  destruct (processMessage_run env messageObject (registered vin socket st))
    as [logs [Hlogs Hproc]].
  rewrite fan_out_registered, Hreach in Hproc.
  pose proof (sendAcknowledgment_run env socket messageObject (registered vin socket st))
    as Hack.
  unfold isTelemetryDataMessage in Hack. rewrite Hd in Hack.
  assert (Hrun : TelemetryServer.handleVehicleMessage env socket data st
                 = (Normal tt, registered vin socket st,
                    logs0 ++ announce env vin st
                    ++ [Log WARN ("Received unknown message type from VIN=" ++ vin)]
                    ++ logs ++ fan_out env messageObject st)).
  { unfold TelemetryServer.handleVehicleMessage. js_run.
    rewrite Hp, Hdec, Hdata, Hvin, Hclass.
    unfold registered, announce in *.
    destruct (Map_has vin (vehicleConnections st)); cbn [negb].
    - rewrite Hproc, Hack. rewrite ?app_nil_r, <- ?app_assoc. reflexivity.
    - rewrite broadcastTelemetry_run, Hproc, Hack.
      rewrite ?app_nil_r, <- ?app_assoc. reflexivity. }
  rewrite Hrun. unfold trace_of. cbn [snd]. split.
  - apply in_or_app. right. apply in_or_app. right. now left.
  - rewrite !sends_app, (only_logs_sends _ Hlogs0), (only_logs_sends _ Hlogs), sends_fan_out.
    reflexivity.
Qed.

End UnknownShape.

(** ** Producer disconnect *)

Section Disconnect.
Context (env : Platform).

(** The disconnect handler on a registered, non-empty identity and on a
    socket that is not registered. *)
Lemma onClose_registered (socket : ConnId) (st : Relay) (vin : string) :
  TelemetryServer.find_vin socket (vehicleConnections st) = Some vin ->
  nonempty vin = true ->
  TelemetryServer.onClose env socket st
  = (Normal tt,
     tick_clock (set_vehicleConnections (Map_delete vin) st),
     Log INFO ("Vehicle " ++ vin ++ " disconnected")
     :: fan_out env (connectivity vin "DISCONNECTED" (toISOString env (dateReads st))) st).
Proof.
  intros Hfind Hne. unfold TelemetryServer.onClose. js_run.
  rewrite Hfind, Hne. rewrite broadcastTelemetry_run. reflexivity.
Qed.

Lemma onClose_unregistered (socket : ConnId) (st : Relay) :
  TelemetryServer.find_vin socket (vehicleConnections st) = None ->
  TelemetryServer.onClose env socket st
  = (Normal tt, st, [Log INFO "Unknown vehicle disconnected"]).
Proof.
  intros Hfind. unfold TelemetryServer.onClose. js_run. now rewrite Hfind.
Qed.

End Disconnect.

(** C9, where the code departs from it. A producer whose first frame has
    the empty string as its identity is entered in the registry under that
    identity. When its connection closes, the scan finds the entry, but the
    test [if (disconnectedVin)] takes the empty string for "not found": the
    entry stays in the registry and no DISCONNECTED message is broadcast. *)
Theorem C9_empty_identity_is_not_unregistered :
  let st := fst (run Scenario.env
                   [ProtoLoaded;
                    Upgrade (Scenario.subscriber_request "good") 7;
                    Upgrade Scenario.producer_request 8;
                    Message 1 (Text (Scenario.print Scenario.frame_empty_vin))]
                   initial) in
  vehicleConnections st = [("", 1)]
  /\ clients st = [0]
  /\ TelemetryServer.find_vin 1 (vehicleConnections st) = Some ""
  /\ vehicleConnections (state_of (dispatch Scenario.env (Close 1) st)) = [("", 1)]
  /\ trace_of (dispatch Scenario.env (Close 1) st)
     = [Log INFO "Unknown vehicle disconnected"].
Proof. cbv zeta. repeat split; reflexivity. Qed.

(** ** The heartbeat *)

Lemma update_socket_length (c : ConnId) (f : Socket -> Socket) (l : list Socket) :
  length (update_socket c f l) = length l.
Proof. unfold update_socket. destruct (l !! c); [apply length_insert|reflexivity]. Qed.

Lemma update_socket_lookup (c x : ConnId) (f : Socket -> Socket) (l : list Socket) :
  update_socket c f l !! x = if Nat.eqb x c then f <$> (l !! c) else l !! x.
Proof.
  unfold update_socket. destruct (Nat.eqb x c) eqn:Hxc.
  - apply Nat.eqb_eq in Hxc. subst x. destruct (l !! c) as [s|] eqn:Hl; cbn.
    + apply list_lookup_insert_eq. now apply lookup_lt_Some in Hl.
    + exact Hl.
  - apply Nat.eqb_neq in Hxc. destruct (l !! c) as [s|]; [|reflexivity].
    apply list_lookup_insert_ne. congruence.
Qed.

Lemma isAlive_of_update (c x : ConnId) (f : Socket -> Socket) (st : Relay) :
  isAlive_of (set_sockets (update_socket c f) st) x
  = if Nat.eqb x c
    then match sockets st !! c with Some s => isAlive (f s) | None => None end
    else isAlive_of st x.
Proof.
  unfold isAlive_of. cbn [sockets set_sockets]. rewrite update_socket_lookup.
  destruct (Nat.eqb x c); [|reflexivity]. destruct (sockets st !! c); reflexivity.
Qed.

Lemma isAlive_of_evicted (c x : ConnId) (st : Relay) :
  isAlive_of (evicted c st) x = isAlive_of st x.
Proof.
  unfold evicted.
  change (isAlive_of (set_clients ?f ?s) x) with (isAlive_of s x).
  rewrite isAlive_of_update. destruct (Nat.eqb x c) eqn:Hxc; [|reflexivity].
  apply Nat.eqb_eq in Hxc. subst x. unfold isAlive_of.
  destruct (sockets st !! c); reflexivity.
Qed.

Lemma isAlive_of_probed (c x : ConnId) (st : Relay) :
  isAlive_of (probed c st) x
  = if Nat.eqb x c && Nat.ltb c (length (sockets st)) then Some false else isAlive_of st x.
Proof.
  unfold probed. rewrite isAlive_of_update.
  destruct (Nat.eqb x c) eqn:Hxc; [|reflexivity]. cbn [andb].
  apply Nat.eqb_eq in Hxc. subst x. unfold isAlive_of.
  destruct (sockets st !! c) as [s|] eqn:Hl.
  - apply lookup_lt_Some in Hl. apply Nat.ltb_lt in Hl. now rewrite Hl.
  - apply lookup_ge_None in Hl. apply Nat.ltb_ge in Hl. now rewrite Hl.
Qed.

Lemma awaiting_evicted (c x : ConnId) (st : Relay) :
  awaiting (evicted c st) x = awaiting st x.
Proof. unfold awaiting. now rewrite isAlive_of_evicted. Qed.

Lemma awaiting_probed_other (c x : ConnId) (st : Relay) :
  x <> c -> awaiting (probed c st) x = awaiting st x.
Proof.
  intros Hne. unfold awaiting. rewrite isAlive_of_probed.
  apply Nat.eqb_neq in Hne. now rewrite Hne.
Qed.

Lemma Set_has_In (c : ConnId) (l : list ConnId) : Set_has c l = true <-> In c l.
Proof.
  unfold Set_has. rewrite existsb_exists. split.
  - intros [x [Hx Hcx]]. apply Nat.eqb_eq in Hcx. now subst x.
  - intros H. exists c. split; [exact H|apply Nat.eqb_refl].
Qed.

Lemma Set_has_not_In (c : ConnId) (l : list ConnId) : Set_has c l = false <-> ~ In c l.
Proof.
  rewrite <- Set_has_In. destruct (Set_has c l); split; intros H; congruence.
Qed.

Lemma filter_filter_bool {A} (f g : A -> bool) (l : list A) :
  List.filter f (List.filter g l) = List.filter (fun x => g x && f x) l.
Proof.
  induction l as [|x l IH]; [reflexivity|]. simpl.
  destruct (g x); simpl; [destruct (f x)|]; now rewrite IH.
Qed.

(** The whole loop over a pool without repetition, in closed form: the
    test of each member is the one it would pass in the state the loop
    started from. *)
Lemma heartbeat_loop_run (pool : list ConnId) :
  forall st : Relay,
  List.NoDup pool ->
  exists st',
    ClientServer.heartbeat_loop pool st
    = (Normal tt, st', map (fun c => if awaiting st c then Terminate c else Ping c) pool)
    /\ clients st'
       = List.filter (fun x => negb (Set_has x pool && awaiting st x)) (clients st)
    /\ length (sockets st') = length (sockets st)
    /\ forall x,
         isAlive_of st' x
         = if Set_has x pool && negb (awaiting st x) && Nat.ltb x (length (sockets st))
           then Some false else isAlive_of st x.
Proof.
  induction pool as [|c rest IH]; intros st Hnodup.
  - exists st. split; [reflexivity|]. split; [|split; [reflexivity|reflexivity]].
    cbn. induction (clients st) as [|x l IHl]; [reflexivity|]. cbn. now rewrite <- IHl.
  - inversion Hnodup as [|? ? Hc Hrest]; subst.
    assert (Hstep : ClientServer.heartbeat_loop (c :: rest) st
              = let st1 := if awaiting st c then evicted c st else probed c st in
                match ClientServer.heartbeat_loop rest st1 with
                | (r, st2, t) =>
                    (r, st2, (if awaiting st c then Terminate c else Ping c) :: t)
                end).
    { cbn [ClientServer.heartbeat_loop]. js_run. unfold awaiting, evicted, probed.
      destruct (isAlive_of st c) as [[]|]; cbv zeta;
        match goal with
        | |- context [ClientServer.heartbeat_loop rest ?s] =>
            destruct (ClientServer.heartbeat_loop rest s) as [[[] ?] ?]
        end; reflexivity. }
    rewrite Hstep. cbv zeta.
    destruct (awaiting st c) eqn:Hc_aw.
    + destruct (IH (evicted c st) Hrest) as [st' [Hrun [Hcl [Hlen Halive]]]].
      exists st'. rewrite Hrun. split; [|split; [|split]].
      * f_equal. cbn [map]. rewrite Hc_aw. f_equal.
        apply map_ext. intros x. now rewrite awaiting_evicted.
      * rewrite Hcl. unfold evicted at 2. cbn [clients set_clients set_sockets].
        unfold Set_delete. rewrite filter_filter_bool.
        apply List.filter_ext. intros x. rewrite awaiting_evicted.
        unfold Set_has. cbn [existsb].
        destruct (Nat.eqb x c) eqn:Hxc; cbn [negb andb orb]; [|reflexivity].
        apply Nat.eqb_eq in Hxc. subst x. now rewrite Hc_aw.
      * rewrite Hlen. unfold evicted. cbn [sockets set_clients set_sockets].
        apply update_socket_length.
      * intros x. rewrite Halive, awaiting_evicted, isAlive_of_evicted.
        assert (Hlen' : length (sockets (evicted c st)) = length (sockets st)).
        { unfold evicted. cbn [sockets set_clients set_sockets]. apply update_socket_length. }
        rewrite Hlen'. unfold Set_has. cbn [existsb].
        destruct (Nat.eqb x c) eqn:Hxc; cbn [orb]; [|reflexivity].
        apply Nat.eqb_eq in Hxc. subst x. rewrite Hc_aw. cbn [negb andb].
        now rewrite andb_false_r.
    + destruct (IH (probed c st) Hrest) as [st' [Hrun [Hcl [Hlen Halive]]]].
      assert (Hlen' : length (sockets (probed c st)) = length (sockets st)).
      { unfold probed. cbn [sockets set_sockets]. apply update_socket_length. }
      exists st'. rewrite Hrun. split; [|split; [|split]].
      * f_equal. cbn [map]. rewrite Hc_aw. f_equal.
        apply map_ext_in. intros x Hx. rewrite awaiting_probed_other; [reflexivity|].
        intros ->. contradiction.
      * rewrite Hcl. unfold probed at 2. cbn [clients set_sockets].
        apply List.filter_ext. intros x. unfold Set_has. cbn [existsb].
        destruct (Nat.eqb x c) eqn:Hxc; cbn [orb].
        -- apply Nat.eqb_eq in Hxc. subst x. rewrite Hc_aw.
           apply Set_has_not_In in Hc. unfold Set_has in Hc. rewrite Hc. reflexivity.
        -- apply Nat.eqb_neq in Hxc. now rewrite awaiting_probed_other.
      * now rewrite Hlen.
      * intros x. rewrite Halive, Hlen', isAlive_of_probed.
        unfold Set_has. cbn [existsb].
        destruct (Nat.eqb x c) eqn:Hxc; cbn [orb andb].
        -- apply Nat.eqb_eq in Hxc. subst x. rewrite Hc_aw. cbn [negb andb].
           apply Set_has_not_In in Hc. unfold Set_has in Hc. rewrite Hc. cbn [andb].
           reflexivity.
        -- apply Nat.eqb_neq in Hxc. now rewrite awaiting_probed_other.
Qed.

(** *** What one event does to the pool and to the sockets *)

Section EventFacts.
Context (env : Platform).

Lemma ClientServer_handleUpgrade_state (request : IncomingMessage) (socket : RawId)
    (st : Relay) :
  state_of (ClientServer.handleUpgrade env request socket st) = st
  \/ exists auth, state_of (ClientServer.handleUpgrade env request socket st) = joined auth st.
Proof.
  unfold ClientServer.handleUpgrade. js_run.
  destruct (authenticate_run env request st) as [auth [logs [Hlogs Hauth]]].
  rewrite Hauth. destruct (truthy auth); cbn [negb]; [|now left].
  right. exists auth.
  unfold wss_handleUpgrade, ClientServer.onConnection, ClientServer.sendToClient. js_run.
  cbv beta iota delta [readyState_of set_sockets set_clients tick_clock sockets clients
                       vehicleConnections PayloadType dateReads].
  rewrite update_socket_last.
  rewrite lookup_app_r by lia; rewrite Nat.sub_diag.
  cbn [lookup list_lookup readyState is_open]. reflexivity.
Qed.

Lemma onUpgrade_state (request : IncomingMessage) (socket : RawId) (st : Relay) :
  state_of (onUpgrade env request socket st) = st
  \/ (exists auth, state_of (onUpgrade env request socket st) = joined auth st)
  \/ state_of (onUpgrade env request socket st) = accepted st.
Proof.
  pose proof (ClientServer_handleUpgrade_state request socket st) as Hclient.
  unfold onUpgrade. js_run. unfold state_of in Hclient.
  destruct (url request) as [u|];
    [destruct (nonempty u);
       [destruct (URL_parse env u (base_of request)) as [parsed|]; [|now left]|]|].
  all: match goal with
       | |- context [String.eqb ?p "/stream"] => destruct (String.eqb p "/stream")
       end.
  all: match goal with
       | |- context [String.eqb ?p "/"] => try destruct (String.eqb p "/")
       | _ => idtac
       end.
  all: try (left; reflexivity).
  all: try (right; right;
            unfold TelemetryServer.handleUpgrade, wss_handleUpgrade,
              TelemetryServer.handleVehicleConnection, TelemetryServer.checkClientCertificate;
            js_run; destruct (peer_authorized request) as [[]|]; reflexivity).
  all: destruct (ClientServer.handleUpgrade env request socket st) as [[[[]|] st'] t];
    cbn [fst snd] in *;
    (destruct Hclient as [H|[auth H]]; [left|right; left; exists auth]; exact H).
Qed.

Lemma handleVehicleMessage_frame (socket : ConnId) (data : Data) (st : Relay) :
  clients (state_of (TelemetryServer.handleVehicleMessage env socket data st)) = clients st
  /\ sockets (state_of (TelemetryServer.handleVehicleMessage env socket data st)) = sockets st.
Proof.
  destruct (PayloadType st) as [p|] eqn:Hp.
  - destruct (payload_of env data) as [messageObject|] eqn:Hdata.
    + destruct (valid_vin messageObject) as [vin|] eqn:Hvin.
      * destruct (handleVehicleMessage_run env socket data st p messageObject vin Hp Hdata Hvin)
          as [logs0 [logs1 [_ [_ ->]]]].
        unfold state_of, registered. cbn [fst snd].
        destruct (isTelemetryDataMessage messageObject);
          destruct (Map_has vin (vehicleConnections st)); split; reflexivity.
      * destruct (decode_run env data st) as [logs0 [_ Hdec]].
        unfold TelemetryServer.handleVehicleMessage. js_run.
        rewrite Hp, Hdec, Hdata, Hvin. split; reflexivity.
    + destruct (decode_run env data st) as [logs0 [_ Hdec]].
      unfold TelemetryServer.handleVehicleMessage. js_run.
      rewrite Hp, Hdec, Hdata. split; reflexivity.
  - unfold TelemetryServer.handleVehicleMessage. js_run. rewrite Hp. split; reflexivity.
Qed.

Lemma TelemetryServer_onClose_frame (socket : ConnId) (st : Relay) :
  clients (state_of (TelemetryServer.onClose env socket st)) = clients st
  /\ sockets (state_of (TelemetryServer.onClose env socket st)) = sockets st.
Proof.
  unfold TelemetryServer.onClose. js_run.
  destruct (TelemetryServer.find_vin socket (vehicleConnections st)) as [vin|];
    [|split; reflexivity].
  destruct (nonempty vin); [|split; reflexivity].
  rewrite broadcastTelemetry_run. split; reflexivity.
Qed.

Lemma step_ok_same (ev : Event) (st st' : Relay) :
  clients st' = clients st -> sockets st' = sockets st -> step_ok ev st st'.
Proof.
  intros Hc Hs. split.
  - now rewrite Hs.
  - intros x _. left. unfold isAlive_of. now rewrite Hs.
  - intros x _. unfold role_of. now rewrite Hs.
  - now left.
Qed.

Lemma role_of_grown (st st' : Relay) (s : Socket) (x : ConnId) :
  sockets st' = sockets st ++ [s] -> x < length (sockets st) ->
  role_of st' x = role_of st x.
Proof.
  intros Hs Hx. unfold role_of. rewrite Hs. now rewrite lookup_app_l.
Qed.

Lemma role_of_update (c x : ConnId) (f : Socket -> Socket) (st : Relay) :
  (forall s, role (f s) = role s) ->
  role_of (set_sockets (update_socket c f) st) x = role_of st x.
Proof.
  intros Hf. unfold role_of. cbn [sockets set_sockets]. rewrite update_socket_lookup.
  destruct (Nat.eqb x c) eqn:Hxc; [|reflexivity].
  apply Nat.eqb_eq in Hxc. subst x.
  destruct (sockets st !! c); cbn; [now rewrite Hf|reflexivity].
Qed.

Lemma isAlive_of_grown (st st' : Relay) (s : Socket) (x : ConnId) :
  sockets st' = sockets st ++ [s] -> x < length (sockets st) ->
  isAlive_of st' x = isAlive_of st x.
Proof.
  intros Hs Hx. unfold isAlive_of. rewrite Hs. now rewrite lookup_app_l.
Qed.

Lemma dispatch_step_ok (ev : Event) (st : Relay) :
  ev <> HeartbeatTick -> step_ok ev st (state_of (dispatch env ev st)).
Proof.
  intros Hev. destruct ev as [request socket| |c data|c|c|c|]; [| | | | | |congruence].
  - cbn [dispatch].
    destruct (onUpgrade_state request socket st) as [->|[[auth ->]| ->]].
    + now apply step_ok_same.
    + split.
      * cbn. rewrite length_app. lia.
      * intros x Hx. left. eapply isAlive_of_grown; [reflexivity|exact Hx].
      * intros x Hx. eapply role_of_grown; [reflexivity|exact Hx].
      * right. right. split; [reflexivity|]. split.
        -- cbn. rewrite length_app. cbn. lia.
        -- unfold role_of, joined. cbn [sockets].
           rewrite lookup_app_r by lia. now rewrite Nat.sub_diag.
    + split.
      * cbn. rewrite length_app. lia.
      * intros x Hx. left. eapply isAlive_of_grown; [reflexivity|exact Hx].
      * intros x Hx. eapply role_of_grown; [reflexivity|exact Hx].
      * now left.
  - now apply step_ok_same.
  - cbn [dispatch]. js_run.
    destruct (role_of st c) as [[]|]; try (now apply step_ok_same).
    pose proof (handleVehicleMessage_frame c data st) as [Hc Hs].
    unfold state_of in *.
    destruct (TelemetryServer.handleVehicleMessage env c data st) as [[r st'] t].
    cbn [fst snd] in *. now apply step_ok_same.
  - cbn [dispatch]. unfold ClientServer.onClose. js_run.
    destruct (role_of st c) as [[]|]; cbn [fst snd]; try (now apply step_ok_same).
    + split.
      * cbn. now rewrite update_socket_length.
      * intros x _. left.
        change (isAlive_of (set_clients ?f ?s) x) with (isAlive_of s x).
        rewrite isAlive_of_update. destruct (Nat.eqb x c) eqn:Hxc; [|reflexivity].
        apply Nat.eqb_eq in Hxc. subst x. unfold isAlive_of.
        destruct (sockets st !! c); reflexivity.
      * intros x _.
        change (role_of (set_clients ?f ?s) x) with (role_of s x).
        now apply role_of_update.
      * right. left. exists c. reflexivity.
    + pose proof (TelemetryServer_onClose_frame c
                    (set_sockets (update_socket c (fun s =>
                       {| readyState := CLOSED; isAlive := isAlive s;
                          role := role s; authData := authData s |})) st)) as [Hc Hs].
      unfold state_of in *.
      match goal with
      | |- context [TelemetryServer.onClose env c ?s] =>
          destruct (TelemetryServer.onClose env c s) as [[r st'] t]
      end.
      cbn [fst snd] in *. split.
      * rewrite Hs. cbn. now rewrite update_socket_length.
      * intros x _. left. unfold isAlive_of at 1. rewrite Hs.
        fold (isAlive_of (set_sockets (update_socket c (fun s =>
                       {| readyState := CLOSED; isAlive := isAlive s;
                          role := role s; authData := authData s |})) st) x).
        rewrite isAlive_of_update. destruct (Nat.eqb x c) eqn:Hxc; [|reflexivity].
        apply Nat.eqb_eq in Hxc. subst x. unfold isAlive_of.
        destruct (sockets st !! c); reflexivity.
      * intros x _. unfold role_of at 1. rewrite Hs.
        fold (role_of (set_sockets (update_socket c (fun s =>
                       {| readyState := CLOSED; isAlive := isAlive s;
                          role := role s; authData := authData s |})) st) x).
        now apply role_of_update.
      * left. exact Hc.
  - cbn [dispatch]. unfold ClientServer.onError, TelemetryServer.onError. js_run.
    destruct (role_of st c) as [[]|]; cbn [fst snd]; try (now apply step_ok_same).
    split.
    + cbn. lia.
    + intros x _. now left.
    + intros x _. reflexivity.
    + right. left. exists c. reflexivity.
  - cbn [dispatch]. js_run. unfold ClientServer.onPong. js_run.
    destruct (role_of st c) as [[]|] eqn:Hrole; cbn [fst snd]; try (now apply step_ok_same).
    split.
    + cbn. now rewrite update_socket_length.
    + intros x Hx. cbn [fst snd]. rewrite isAlive_of_update.
      destruct (Nat.eqb x c) eqn:Hxc; [|now left].
      apply Nat.eqb_eq in Hxc. subst x. right. split; [reflexivity|].
      destruct (sockets st !! c) as [s|] eqn:Hl; [reflexivity|].
      apply lookup_ge_None in Hl. lia.
    + intros x _. now apply role_of_update.
    + now left.
Qed.

End EventFacts.

(** *** The state machine of a subscriber *)

Lemma initial_wf : pool_wf initial.
Proof. split; constructor. Qed.

Lemma Set_delete_incl (c x : ConnId) (l : list ConnId) : In x (Set_delete c l) -> In x l.
Proof. unfold Set_delete. intros H. now apply List.filter_In in H. Qed.

Lemma step_ok_wf (ev : Event) (st st' : Relay) :
  step_ok ev st st' -> pool_wf st -> pool_wf st'.
Proof.
  intros [Hlen _ _ Hcl] [Hnodup Hbound]. unfold pool_wf.
  destruct Hcl as [->|[[c ->]|[-> [Hgrow _]]]].
  - split; [exact Hnodup|].
    eapply List.Forall_impl; [|exact Hbound]. cbn. intros; lia.
  - split; [now apply List.NoDup_filter|].
    apply List.Forall_forall. intros x Hx. apply Set_delete_incl in Hx.
    rewrite List.Forall_forall in Hbound. specialize (Hbound x Hx). lia.
  - unfold Set_add. destruct (Set_has (length (sockets st)) (clients st)) eqn:Hhas.
    + split; [exact Hnodup|].
      eapply List.Forall_impl; [|exact Hbound]. cbn. intros; lia.
    + apply Set_has_not_In in Hhas. split.
      * apply List.NoDup_app; [exact Hnodup|repeat constructor; intros []|].
        intros x Hx [<-|[]]. contradiction.
      * apply Forall_app_2; [|repeat constructor; exact Hgrow].
        eapply List.Forall_impl; [|exact Hbound]. cbn. intros; lia.
Qed.

Lemma heartbeat_run (st : Relay) :
  List.NoDup (clients st) ->
  exists st',
    ClientServer.heartbeat st
    = (Normal tt, st', map (fun c => if awaiting st c then Terminate c else Ping c) (clients st))
    /\ clients st' = List.filter (fun x => negb (awaiting st x)) (clients st)
    /\ length (sockets st') = length (sockets st)
    /\ forall x,
         isAlive_of st' x
         = if Set_has x (clients st) && negb (awaiting st x) && Nat.ltb x (length (sockets st))
           then Some false else isAlive_of st x.
Proof.
  intros Hnodup.
  destruct (heartbeat_loop_run (clients st) st Hnodup) as [st' [Hrun [Hcl [Hlen Halive]]]].
  exists st'. unfold ClientServer.heartbeat. js_run. rewrite Hrun.
  split; [reflexivity|]. split; [|split; assumption].
  rewrite Hcl. apply List.filter_ext_in. intros x Hx.
  apply Set_has_In in Hx. now rewrite Hx.
Qed.

Lemma heartbeat_wf (st : Relay) :
  pool_wf st -> pool_wf (state_of (ClientServer.heartbeat st)).
Proof.
  intros [Hnodup Hbound].
  destruct (heartbeat_run st Hnodup) as [st' [-> [Hcl [Hlen _]]]].
  unfold state_of. cbn [fst snd]. split.
  - rewrite Hcl. now apply List.NoDup_filter.
  - rewrite Hcl, Hlen. apply List.Forall_forall. intros x Hx.
    apply List.filter_In in Hx as [Hx _].
    rewrite List.Forall_forall in Hbound. now apply Hbound.
Qed.

Section Runs.
Context (env : Platform).

Lemma dispatch_wf (ev : Event) (st : Relay) :
  pool_wf st -> pool_wf (state_of (dispatch env ev st)).
Proof.
  intros Hwf. destruct ev; try (eapply step_ok_wf; [apply dispatch_step_ok; discriminate|exact Hwf]).
  now apply heartbeat_wf.
Qed.

Lemma run_wf (events : list Event) : forall st, pool_wf st -> pool_wf (fst (run env events st)).
Proof.
  induction events as [|ev rest IH]; intros st Hwf; [exact Hwf|].
  cbn [run fst]. apply IH. now apply dispatch_wf.
Qed.

(** Every state the relay can reach from its initial state has a
    well-formed pool. *)
Lemma reachable_wf (events : list Event) : pool_wf (fst (run env events initial)).
Proof. apply run_wf, initial_wf. Qed.

Lemma heartbeat_loop_roles (pool : list ConnId) :
  forall (st : Relay) (x : ConnId),
  role_of (state_of (ClientServer.heartbeat_loop pool st)) x = role_of st x.
Proof.
  induction pool as [|c rest IH]; intros st x; [reflexivity|].
  cbn [ClientServer.heartbeat_loop]. js_run.
  destruct (isAlive_of st c) as [[]|];
    match goal with
    | |- context [ClientServer.heartbeat_loop rest ?s] =>
        specialize (IH s x); unfold state_of in IH;
        destruct (ClientServer.heartbeat_loop rest s) as [[r st'] t]
    end; cbn [fst snd] in *; rewrite IH;
    try change (role_of (set_clients ?f ?s) x) with (role_of s x);
    now apply role_of_update.
Qed.

Lemma dispatch_subscribers_only (ev : Event) (st : Relay) :
  pool_wf st -> subscribers_only st ->
  subscribers_only (state_of (dispatch env ev st)).
Proof.
  intros [Hnodup Hbound] Hsub. unfold subscribers_only in *.
  rewrite List.Forall_forall in Hbound, Hsub.
  assert (Hcases : ev = HeartbeatTick \/ ev <> HeartbeatTick)
    by (destruct ev; (now left) || (right; discriminate)).
  destruct Hcases as [->|Hev].
  - cbn [dispatch]. apply List.Forall_forall. intros x Hx.
    unfold ClientServer.heartbeat in *. revert Hx. js_run. cbn [fst snd].
    pose proof (heartbeat_loop_roles (clients st) st x) as Hrole.
    destruct (heartbeat_loop_run (clients st) st Hnodup) as [st' [Hrun [Hcl _]]].
    rewrite Hrun in Hrole |- *. unfold state_of in Hrole. cbn [fst snd] in *.
    intros Hx. rewrite Hrole. apply Hsub.
    rewrite Hcl in Hx. now apply List.filter_In in Hx.
  - destruct (dispatch_step_ok env ev st Hev) as [Hlen _ Hrole Hcl].
    apply List.Forall_forall. intros x Hx.
    destruct Hcl as [Hcl|[[c Hcl]|[Hcl [Hgrow Hnew]]]]; rewrite Hcl in Hx.
    + rewrite Hrole; [now apply Hsub|now apply Hbound].
    + apply Set_delete_incl in Hx. rewrite Hrole; [now apply Hsub|now apply Hbound].
    + unfold Set_add in Hx.
      destruct (Set_has (length (sockets st)) (clients st)).
      * rewrite Hrole; [now apply Hsub|now apply Hbound].
      * apply in_app_or in Hx as [Hx|[<-|[]]]; [|exact Hnew].
        rewrite Hrole; [now apply Hsub|now apply Hbound].
Qed.

Lemma run_subscribers_only (events : list Event) :
  forall st, pool_wf st -> subscribers_only st ->
  subscribers_only (fst (run env events st)).
Proof.
  induction events as [|ev rest IH]; intros st Hwf Hsub; [exact Hsub|].
  cbn [run fst]. apply IH; [now apply dispatch_wf|now apply dispatch_subscribers_only].
Qed.

(** In every state the relay can reach, a socket of the producer side is
    not a member of the subscriber pool. *)
Lemma reachable_producer_outside_pool (events : list Event) (c : ConnId) :
  role_of (fst (run env events initial)) c = Some Producer ->
  Set_has c (clients (fst (run env events initial))) = false.
Proof.
  intros Hrole. apply Set_has_not_In. intros Hin.
  assert (Hinit : subscribers_only initial) by constructor.
  pose proof (run_subscribers_only events initial initial_wf Hinit) as Hsub.
  unfold subscribers_only in Hsub. rewrite List.Forall_forall in Hsub.
  specialize (Hsub c Hin). congruence.
Qed.





End Runs.

Lemma ClientServer_handleUpgrade_joins (env : Platform) (request : IncomingMessage)
    (socket : RawId) (st : Relay) (auth : JsValue) :
  completion_of (AuthService.authenticateWebSocketRequest env request st) = Normal auth ->
  truthy auth = true ->
  state_of (ClientServer.handleUpgrade env request socket st) = joined auth st.
Proof.
  intros Hgate Htruthy.
  destruct (authenticate_run env request st) as [auth' [logs [Hlogs Hauth]]].
  rewrite Hauth in Hgate. unfold completion_of in Hgate. cbn [fst] in Hgate.
  injection Hgate as ->.
  unfold ClientServer.handleUpgrade. js_run. rewrite Hauth, Htruthy. cbn [negb].
  unfold wss_handleUpgrade, ClientServer.onConnection, ClientServer.sendToClient. js_run.
  cbv beta iota delta [readyState_of set_sockets set_clients tick_clock sockets clients
                       vehicleConnections PayloadType dateReads].
  rewrite update_socket_last.
  rewrite lookup_app_r by lia; rewrite Nat.sub_diag.
  cbn [lookup list_lookup readyState is_open]. reflexivity.
Qed.



(** * Further properties of the code *)

(** ** The token gate *)

Lemma substring_all (s : string) : String.substring 0 (String.length s) s = s.
Proof. induction s as [|a s IH]; [reflexivity|]. cbn. now rewrite IH. Qed.

Section GateProperties.
Context (env : Platform).

Lemma extractToken_value (request : IncomingMessage) (st : Relay) :
  exists logs, only_logs logs /\
    AuthService.extractToken env request st
    = (Normal (extracted_token env request), st, logs).
Proof.
  unfold AuthService.extractToken, extracted_token, query_token. js_run.
  destruct (url request) as [u|].
  - destruct (nonempty u).
    + destruct (URL_parse env u (base_of request)) as [parsed|].
      * destruct (searchParams_token parsed) as [t|].
        -- destruct (nonempty t); exists []; (split; [constructor|reflexivity]).
        -- exists []; (split; [constructor|reflexivity]).
      * exists [Log ERROR "Failed to extract token"]. split; [auto with js|reflexivity].
    + exists []; (split; [constructor|reflexivity]).
  - exists []; (split; [constructor|reflexivity]).
Qed.

(** X1. Where the credential of a request comes from.  A non-empty [token]
    parameter wins over the header; without one the header counts, and only
    in the form [Bearer <credential>]; and when the address of the request
    does not parse, no credential is found at all, whatever the header
    says.  The relay's state is not touched. *)
Theorem extractToken_sources (request : IncomingMessage) (st : Relay) :
  completion_of (AuthService.extractToken env request st)
  = Normal (match query_token env request with
            | None => None
            | Some (Some t) => Some t
            | Some None => AuthService.bearer request
            end)
  /\ state_of (AuthService.extractToken env request st) = st
  /\ (forall credential,
        headers_authorization request = Some ("Bearer " ++ credential)%string ->
        AuthService.bearer request = Some credential)
  /\ (forall h,
        headers_authorization request = Some h ->
        String.prefix "Bearer " h = false ->
        AuthService.bearer request = None)
  /\ (headers_authorization request = None -> AuthService.bearer request = None).
Proof.
  destruct (extractToken_value request st) as [logs [_ ->]].
  split; [reflexivity|]. split; [reflexivity|].
  unfold AuthService.bearer. split; [|split].
  - intros credential ->. cbn. rewrite Nat.sub_0_r, substring_all.
    now destruct credential.
  - intros h -> Hprefix. rewrite Hprefix. now rewrite andb_false_r.
  - intros ->. reflexivity.
Qed.

Lemma verifyToken_value (token : string) (st : Relay) :
  exists logs, only_logs logs /\
    AuthService.verifyToken env token st
    = (Normal (if nonempty (AuthService.secret env)
               then match jwt_verify env token (AuthService.secret env) with
                    | Some decoded => decoded
                    | None => JNull
                    end
               else JNull), st, logs).
Proof.
  unfold AuthService.verifyToken. js_run.
  destruct (nonempty (AuthService.secret env)); cbn [negb].
  - destruct (jwt_verify env token (AuthService.secret env)) as [decoded|].
    + exists []. split; [constructor|reflexivity].
    + exists [Log ERROR "Token verification failed"]. split; [auto with js|reflexivity].
  - exists [Log ERROR "Token verification failed"]. split; [auto with js|reflexivity].
Qed.

Lemma authenticate_value (request : IncomingMessage) (st : Relay) :
  exists logs, only_logs logs /\
    AuthService.authenticateWebSocketRequest env request st
    = (Normal (verdict env request), st, logs).
Proof.
  unfold AuthService.authenticateWebSocketRequest, verdict. js_run.
  destruct (extractToken_value request st) as [logs0 [Hlogs0 ->]].
  destruct (extracted_token env request) as [t|].
  - destruct (nonempty t); cbn [negb andb].
    + destruct (verifyToken_value t st) as [logs1 [Hlogs1 ->]].
      destruct (nonempty (AuthService.secret env)).
      * destruct (jwt_verify env t (AuthService.secret env)) as [decoded|].
        -- destruct (truthy decoded); cbn [negb].
           ++ exists (logs0 ++ logs1 ++ [Log INFO "WebSocket client authenticated"]).
              split; [auto with js|reflexivity].
           ++ exists (logs0 ++ logs1
                      ++ [Log WARN "WebSocket connection attempt with invalid token"]).
              split; [auto with js|reflexivity].
        -- cbn [truthy negb].
           exists (logs0 ++ logs1
                   ++ [Log WARN "WebSocket connection attempt with invalid token"]).
           split; [auto with js|reflexivity].
      * cbn [truthy negb].
        exists (logs0 ++ logs1
                ++ [Log WARN "WebSocket connection attempt with invalid token"]).
        split; [auto with js|reflexivity].
    + exists (logs0 ++ [Log WARN "WebSocket connection attempt without token"]).
      split; [auto with js|reflexivity].
  - exists (logs0 ++ [Log WARN "WebSocket connection attempt without token"]).
    split; [auto with js|reflexivity].
Qed.

(** X2. The gate lets a request through exactly when it carries a non-empty
    credential that [jwt.verify] accepts under the configured secret.
    Completeness: whenever [extractToken] finds a non-empty token, a secret
    is available and [jwt.verify] decodes the token to a truthy payload, the
    gate returns that payload.  Soundness: whenever the gate returns a
    truthy value, it is the payload [jwt.verify] decoded from the non-empty
    token that [extractToken] found.  In every other case the gate returns
    [null].  It never changes the relay's state and never throws. *)
Theorem gate_sound_and_complete (request : IncomingMessage) (st : Relay) :
  exists auth,
  completion_of (AuthService.authenticateWebSocketRequest env request st) = Normal auth
  /\ state_of (AuthService.authenticateWebSocketRequest env request st) = st
  /\ (forall token decoded,
        completion_of (AuthService.extractToken env request st) = Normal (Some token) ->
        nonempty token = true ->
        nonempty (AuthService.secret env) = true ->
        jwt_verify env token (AuthService.secret env) = Some decoded ->
        truthy decoded = true ->
        auth = decoded)
  /\ (truthy auth = true ->
      exists token,
        completion_of (AuthService.extractToken env request st) = Normal (Some token)
        /\ nonempty token = true
        /\ nonempty (AuthService.secret env) = true
        /\ jwt_verify env token (AuthService.secret env) = Some auth)
  /\ (truthy auth = false -> auth = JNull).
Proof.
  destruct (authenticate_value request st) as [logs [_ ->]].
  destruct (extractToken_value request st) as [logs0 [_ ->]].
  exists (verdict env request). unfold completion_of, state_of. cbn [fst snd].
  split; [reflexivity|]. split; [reflexivity|]. unfold verdict.
  destruct (extracted_token env request) as [t|] eqn:Ht.
  - destruct (nonempty t) eqn:Hn; cbn [andb].
    + destruct (nonempty (AuthService.secret env)) eqn:Hs.
      * destruct (jwt_verify env t (AuthService.secret env)) as [d|] eqn:Hv.
        -- destruct (truthy d) eqn:Hd.
           ++ split; [|split].
              ** intros token decoded [= <-] _ _ Hv' _. congruence.
              ** intros _. exists t. now repeat split.
              ** congruence.
           ++ split; [|split].
              ** intros token decoded [= <-] _ _ Hv' Hd'. congruence.
              ** discriminate.
              ** reflexivity.
        -- split; [|split].
           ++ intros token decoded [= <-] _ _ Hv' _. congruence.
           ++ discriminate.
           ++ reflexivity.
      * split; [|split].
        -- intros token decoded _ _ Hs' _ _. congruence.
        -- discriminate.
        -- reflexivity.
    + split; [|split].
      * intros token decoded [= <-] Hn' _ _ _. congruence.
      * discriminate.
      * reflexivity.
  - split; [|split].
    + intros token decoded [=].
    + discriminate.
    + reflexivity.
Qed.

End GateProperties.

(** The gate on the scenario platform: the request that carries the good
    token is let through with the payload of the token. *)
Lemma gate_sound_and_complete_witness :
  completion_of (AuthService.authenticateWebSocketRequest Scenario.env
                   (Scenario.subscriber_request "good") initial)
  = Normal (JObj [("scope", JStr "client")]).
Proof.
  destruct (gate_sound_and_complete Scenario.env (Scenario.subscriber_request "good") initial)
    as (auth & Hauth & _ & Hcomplete & _).
  rewrite Hauth. f_equal.
  apply (Hcomplete "good" (JObj [("scope", JStr "client")])); reflexivity.
Defined.

(** ** Start-up *)


(** ** The upgrade router, on every request *)

Section RouterProperties.
Context (env : Platform).

(** X4. A request whose target does not parse is answered with status 500 and
    its transport destroyed; no socket is created for it and nothing else
    changes, whichever path or credential it was meant to carry. *)
Theorem unparsable_target_is_answered_500 (request : IncomingMessage) (socket : RawId)
    (st : Relay) :
  pathname_of env request = None ->
  onUpgrade env request socket st
  = (Normal tt, st,
     [Log ERROR "Error handling WebSocket upgrade";
      SocketWrite socket ("HTTP/1.1 500 Internal Server Error" ++ CRLF ++ CRLF);
      SocketDestroy socket]).
Proof.
  unfold pathname_of, onUpgrade. js_run.
  destruct (url request) as [u|]; [|discriminate].
  destruct (nonempty u); [|discriminate].
  destruct (URL_parse env u (base_of request)); [discriminate|reflexivity].
Qed.

Lemma ClientServer_handleUpgrade_run (request : IncomingMessage) (socket : RawId)
    (st : Relay) :
  exists auth logs, only_logs logs /\
    ClientServer.handleUpgrade env request socket st
    = if truthy auth then
        (Normal tt, joined auth st,
         logs ++ [Log INFO "Client connected";
                  Stringify (ClientServer.welcome (toISOString env (dateReads st)));
                  Send (length (sockets st))
                       (JSON_stringify env
                          (ClientServer.welcome (toISOString env (dateReads st))))])
      else
        (Normal tt, st,
         logs ++ [Log WARN "Client authentication failed, rejecting WebSocket connection";
                  SocketWrite socket ("HTTP/1.1 401 Unauthorized" ++ CRLF ++ CRLF);
                  SocketDestroy socket]).
Proof.
  unfold ClientServer.handleUpgrade. js_run.
  destruct (authenticate_run env request st) as [auth [logs [Hlogs Hauth]]].
  rewrite Hauth. exists auth, logs. split; [exact Hlogs|].
  destruct (truthy auth); cbn [negb]; [|reflexivity].
  unfold wss_handleUpgrade, ClientServer.onConnection, ClientServer.sendToClient. js_run.
  cbv beta iota delta [readyState_of set_sockets set_clients tick_clock sockets clients
                       vehicleConnections PayloadType dateReads].
  rewrite update_socket_last.
  rewrite lookup_app_r by lia; rewrite Nat.sub_diag.
  cbn [lookup list_lookup readyState is_open]. unfold joined.
  rewrite ?app_nil_r. reflexivity.
Qed.

Lemma TelemetryServer_handleUpgrade_run (request : IncomingMessage) (socket : RawId)
    (st : Relay) :
  exists logs, only_logs logs /\
    TelemetryServer.handleUpgrade request socket st = (Normal tt, accepted st, logs).
Proof.
  unfold TelemetryServer.handleUpgrade, wss_handleUpgrade,
    TelemetryServer.handleVehicleConnection, TelemetryServer.checkClientCertificate.
  js_run.
  destruct (peer_authorized request) as [[]|];
    (eexists; split; [|reflexivity]; auto with js).
Qed.

(** What the router does with a request, whatever it is: a refusal written
    on the transport and nothing else, a new subscriber with its welcome, or
    a new producer socket. *)
Lemma onUpgrade_cases (request : IncomingMessage) (socket : RawId) (st : Relay) :
  (exists logs status, only_logs logs /\ In status refusals /\
      onUpgrade env request socket st
      = (Normal tt, st, logs ++ [SocketWrite socket status; SocketDestroy socket]))
  \/ (exists auth logs, only_logs logs /\ truthy auth = true /\
      onUpgrade env request socket st
      = (Normal tt, joined auth st,
         logs ++ [Stringify (ClientServer.welcome (toISOString env (dateReads st)));
                  Send (length (sockets st))
                       (JSON_stringify env
                          (ClientServer.welcome (toISOString env (dateReads st))))]))
  \/ (exists logs, only_logs logs /\
      onUpgrade env request socket st = (Normal tt, accepted st, logs)).
Proof.
  destruct (ClientServer_handleUpgrade_run request socket st)
    as [auth [logs1 [Hlogs1 Hclient]]].
  destruct (TelemetryServer_handleUpgrade_run request socket st) as [logs2 [Hlogs2 Hvehicle]].
  assert (Hstream :
    (exists logs status, only_logs logs /\ In status refusals /\
       (let '(c, st1, t1) := ClientServer.handleUpgrade env request socket st in
        (c, st1, Log DEBUG "Client WebSocket connection attempt" :: t1))
       = (Normal tt, st, logs ++ [SocketWrite socket status; SocketDestroy socket]))
    \/ (exists auth logs, only_logs logs /\ truthy auth = true /\
        (let '(c, st1, t1) := ClientServer.handleUpgrade env request socket st in
         (c, st1, Log DEBUG "Client WebSocket connection attempt" :: t1))
        = (Normal tt, joined auth st,
           logs ++ [Stringify (ClientServer.welcome (toISOString env (dateReads st)));
                    Send (length (sockets st))
                         (JSON_stringify env
                            (ClientServer.welcome (toISOString env (dateReads st))))]))).
  { rewrite Hclient. destruct (truthy auth) eqn:Hauth.
    - right. exists auth, (Log DEBUG "Client WebSocket connection attempt"
                           :: logs1 ++ [Log INFO "Client connected"]).
      split; [auto with js|]. split; [exact Hauth|].
      cbn [app]. now rewrite <- app_assoc.
    - left. exists (Log DEBUG "Client WebSocket connection attempt"
                    :: logs1 ++ [Log WARN "Client authentication failed, rejecting WebSocket connection"]),
                   ("HTTP/1.1 401 Unauthorized" ++ CRLF ++ CRLF)%string.
      split; [auto with js|]. split; [now left|].
      cbn [app]. now rewrite <- app_assoc. }
  assert (Hroot :
    exists logs, only_logs logs /\
      (let '(c, st1, t1) := TelemetryServer.handleUpgrade request socket st in
       (c, st1, Log DEBUG "Vehicle WebSocket connection attempt" :: t1))
      = (Normal tt, accepted st, logs)).
  { rewrite Hvehicle. exists (Log DEBUG "Vehicle WebSocket connection attempt" :: logs2).
    split; [auto with js|reflexivity]. }
  assert (Hother :
    exists logs status, only_logs logs /\ In status refusals /\
      (Normal tt, st,
       [Log WARN "WebSocket connection attempt to invalid path";
        SocketWrite socket ("HTTP/1.1 404 Not Found" ++ CRLF ++ CRLF);
        SocketDestroy socket])
      = (Normal tt, st, logs ++ [SocketWrite socket status; SocketDestroy socket])).
  { exists [Log WARN "WebSocket connection attempt to invalid path"],
           ("HTTP/1.1 404 Not Found" ++ CRLF ++ CRLF)%string.
    split; [auto with js|]. split; [right; now left|reflexivity]. }
  clear Hclient Hvehicle.
  unfold onUpgrade. js_run.
  destruct (url request) as [u|];
    [destruct (nonempty u);
       [destruct (URL_parse env u (base_of request)) as [parsed|]|]|].
  2: { left. exists [Log ERROR "Error handling WebSocket upgrade"],
                    ("HTTP/1.1 500 Internal Server Error" ++ CRLF ++ CRLF)%string.
       split; [auto with js|]. split; [right; right; now left|reflexivity]. }
  all: match goal with
       | |- context [String.eqb ?p "/stream"] => destruct (String.eqb p "/stream")
       end.
  all: match goal with
       | |- context [String.eqb ?p "/"] => try destruct (String.eqb p "/")
       | _ => idtac
       end.
  all: cbn [app].
  all: try (left; exact Hother).
  all: try (right; right;
            destruct (TelemetryServer.handleUpgrade request socket st) as [[c st1] t1];
            destruct Hroot as [logs [Hlogs [= -> -> Ht]]]; cbn iota; rewrite Ht;
            exists logs; split; [exact Hlogs|reflexivity]).
  all: destruct (ClientServer.handleUpgrade env request socket st) as [[c st1] t1];
    destruct Hstream as [(logs & status & Hlogs & Hstatus & [= -> -> Ht])
                        |(a & logs & Hlogs & Ha & [= -> -> Ht])];
    cbn iota; rewrite Ht;
    [left; exists logs, status|right; left; exists a, logs]; now repeat split.
Qed.

End RouterProperties.

(** A request for [stream] without the leading slash, carrying a good
    credential in its header, on the scenario platform. *)
Lemma unparsable_target_is_answered_500_witness :
  pathname_of Scenario.env malformed_request = None
  /\ onUpgrade Scenario.env malformed_request 5 initial
     = (Normal tt, initial,
        [Log ERROR "Error handling WebSocket upgrade";
         SocketWrite 5 ("HTTP/1.1 500 Internal Server Error" ++ CRLF ++ CRLF);
         SocketDestroy 5]).
Proof.
  split; [reflexivity|].
  apply (unparsable_target_is_answered_500 Scenario.env malformed_request 5 initial).
  reflexivity.
Defined.

(** ** The pool of subscribers *)

Lemma Set_delete_absent (c : ConnId) (l : list ConnId) : ~ In c l -> Set_delete c l = l.
Proof.
  unfold Set_delete. induction l as [|x l IH]; [reflexivity|].
  intros H. cbn. destruct (Nat.eqb_spec x c) as [->|Hne].
  - exfalso. apply H. now left.
  - cbn. rewrite IH; [reflexivity|]. intros Hin. apply H. now right.
Qed.

Lemma Set_delete_last (c : ConnId) (l : list ConnId) :
  ~ In c l -> Set_delete c (l ++ [c]) = l.
Proof.
  intros H. unfold Set_delete. rewrite List.filter_app. cbn.
  rewrite Nat.eqb_refl. cbn. rewrite app_nil_r. now apply Set_delete_absent.
Qed.

Section PoolProperties.
Context (env : Platform).

(** X6. A subscriber's stay in the pool is a round trip.  Once the gate has
    accepted the request, the new socket is appended to the pool, which
    grows by one; when that socket closes the pool is exactly what it was
    before, and a further [error] or [close] of the same socket changes
    nothing any more. *)
Theorem subscriber_stay_is_a_round_trip (request : IncomingMessage) (socket : RawId)
    (st : Relay) (auth : JsValue) :
  pool_wf st ->
  completion_of (AuthService.authenticateWebSocketRequest env request st) = Normal auth ->
  truthy auth = true ->
  let c := length (sockets st) in
  let st1 := state_of (ClientServer.handleUpgrade env request socket st) in
  let st2 := state_of (ClientServer.onClose c st1) in
  clients st1 = clients st ++ [c]
  /\ completion_of (ClientServer.getClientCount st1) = Normal (S (length (clients st)))
  /\ clients st2 = clients st
  /\ clients (state_of (ClientServer.onError c st2)) = clients st
  /\ clients (state_of (ClientServer.onClose c st2)) = clients st.
Proof.
  intros [Hnodup Hbound] Hauth Htruthy. cbv zeta.
  rewrite (ClientServer_handleUpgrade_joins env request socket st auth Hauth Htruthy).
  assert (Hfresh : ~ In (length (sockets st)) (clients st)).
  { intros Hin. rewrite List.Forall_forall in Hbound. specialize (Hbound _ Hin). lia. }
  assert (Hjoined : clients (joined auth st) = clients st ++ [length (sockets st)]).
  { unfold joined, Set_add. cbn [clients].
    apply Set_has_not_In in Hfresh. now rewrite Hfresh. }
  unfold ClientServer.onClose, ClientServer.onError, ClientServer.getClientCount.
  js_run. cbn [fst snd]. unfold set_clients. cbn [clients].
  rewrite Hjoined, length_app, Set_delete_last by exact Hfresh.
  rewrite Set_delete_absent by exact Hfresh.
  repeat split. cbn. f_equal. lia.
Qed.

Lemma heartbeat_loop_frame (pool : list ConnId) :
  forall st : Relay,
  let r := ClientServer.heartbeat_loop pool st in
  completion_of r = Normal tt
  /\ vehicleConnections (state_of r) = vehicleConnections st
  /\ PayloadType (state_of r) = PayloadType st
  /\ dateReads (state_of r) = dateReads st
  /\ length (sockets (state_of r)) = length (sockets st)
  /\ (forall x, ~ In x pool -> sockets (state_of r) !! x = sockets st !! x)
  /\ Forall (is_probe_of pool) (trace_of r)
  /\ (forall x, In x (clients (state_of r)) -> In x (clients st)).
Proof.
  induction pool as [|c rest IH]; intros st; cbv zeta.
  - cbn. repeat split; auto.
  - cbn [ClientServer.heartbeat_loop]. js_run.
    destruct (isAlive_of st c) as [[]|];
      match goal with
      | |- context [ClientServer.heartbeat_loop rest ?s] =>
          specialize (IH s); cbv zeta in IH; unfold completion_of, state_of, trace_of in IH;
          destruct (ClientServer.heartbeat_loop rest s) as [[r st'] t]
      end; cbn [fst snd] in *;
      destruct IH as (Hc & Hv & Hp & Hd & Hl & Hs & Ht & Hm);
      subst r; rewrite Hv, Hp, Hd, Hl; cbn [vehicleConnections PayloadType dateReads sockets
                                             set_sockets set_clients clients] in *;
      rewrite update_socket_length;
      (split; [reflexivity|]); (split; [reflexivity|]); (split; [reflexivity|]);
      (split; [reflexivity|]); (split; [reflexivity|]);
      (split; [intros x Hx; rewrite Hs by (intros Hin; apply Hx; now right);
               rewrite update_socket_lookup;
               destruct (Nat.eqb_spec x c) as [->|Hne];
               [exfalso; apply Hx; now left|reflexivity]|]);
      (split; [cbn [app]; constructor; [cbn; now left|];
               eapply List.Forall_impl; [|exact Ht];
               intros e He; destruct e; cbn in *; auto|]);
      intros x Hx; specialize (Hm x Hx); try exact Hm.
    now apply Set_delete_incl in Hm.
Qed.

(** X7. A tick of the heartbeat acts on the pool and on nothing else.  It
    never writes a frame; it leaves the registry of vehicles, the schema and
    the clock alone; a socket outside the pool is not touched at all; no
    socket changes its role; the only effects are a ping or a terminate of a
    member; and no socket enters the pool. *)
Theorem heartbeat_touches_only_the_pool (st : Relay) :
  let r := ClientServer.heartbeat st in
  vehicleConnections (state_of r) = vehicleConnections st
  /\ PayloadType (state_of r) = PayloadType st
  /\ dateReads (state_of r) = dateReads st
  /\ (forall x, ~ In x (clients st) -> sockets (state_of r) !! x = sockets st !! x)
  /\ (forall x, role_of (state_of r) x = role_of st x)
  /\ Forall (is_probe_of (clients st)) (trace_of r)
  /\ sends (trace_of r) = []
  /\ (forall x, In x (clients (state_of r)) -> In x (clients st)).
Proof.
  cbv zeta.
  pose proof (heartbeat_loop_frame (clients st) st) as H. cbv zeta in H.
  pose proof (heartbeat_loop_roles (clients st) st) as Hroles.
  unfold ClientServer.heartbeat. js_run.
  unfold completion_of, state_of, trace_of in H, Hroles.
  destruct (ClientServer.heartbeat_loop (clients st) st) as [[r st'] t].
  cbn [fst snd] in *.
  destruct H as (Hc & Hv & Hp & Hd & Hl & Hs & Ht & Hm).
  repeat split; auto.
  clear - Ht. induction Ht as [|e t He _ IH]; [reflexivity|].
  destruct e; cbn in He; try contradiction; exact IH.
Qed.

End PoolProperties.

(** The round trip on the scenario platform, from the initial state. *)
Lemma subscriber_stay_is_a_round_trip_witness :
  pool_wf initial
  /\ truthy (JObj [("scope", JStr "client")]) = true
  /\ clients (state_of (ClientServer.handleUpgrade Scenario.env
                          (Scenario.subscriber_request "good") 7 initial)) = [0]
  /\ clients (state_of (ClientServer.onClose 0
                          (state_of (ClientServer.handleUpgrade Scenario.env
                                       (Scenario.subscriber_request "good") 7 initial))))
     = [].
Proof.
  pose proof (subscriber_stay_is_a_round_trip Scenario.env
                (Scenario.subscriber_request "good") 7 initial
                (JObj [("scope", JStr "client")]) initial_wf eq_refl eq_refl) as H.
  cbv zeta in H. destruct H as (H1 & _ & H2 & _).
  split; [exact initial_wf|]. split; [reflexivity|]. split; [exact H1|exact H2].
Defined.

(** ** The pipeline of producer frames *)

Lemma Map_get_delete (k k' : string) (m : list (string * ConnId)) :
  Map_get k' (Map_delete k m) = if String.eqb k k' then None else Map_get k' m.
Proof.
  unfold Map_delete. induction m as [|[k0 v] m IH]; cbn.
  - now destruct (String.eqb k k').
  - destruct (String.eqb_spec k0 k) as [->|Hne]; cbn.
    + rewrite IH. now destruct (String.eqb k k').
    + rewrite IH. destruct (String.eqb_spec k0 k') as [->|Hne']; [|reflexivity].
      destruct (String.eqb_spec k k') as [->|_]; [contradiction|reflexivity].
Qed.

Lemma Map_delete_last (k : string) (c : ConnId) (m : list (string * ConnId)) :
  Map_has k m = false -> Map_delete k (m ++ [(k, c)]) = m.
Proof.
  intros H. unfold Map_delete. rewrite List.filter_app. cbn.
  rewrite String.eqb_refl. cbn. rewrite app_nil_r.
  unfold Map_has in H. induction m as [|[k0 v] m IH]; [reflexivity|].
  cbn in *. apply orb_false_iff in H as [H0 H]. rewrite H0. cbn. now rewrite IH.
Qed.

Lemma find_vin_last (socket : ConnId) (vin : string) (m : list (string * ConnId)) :
  TelemetryServer.find_vin socket m = None ->
  TelemetryServer.find_vin socket (m ++ [(vin, socket)]) = Some vin.
Proof.
  unfold TelemetryServer.find_vin. induction m as [|[k0 v] m IH]; cbn.
  - now rewrite Nat.eqb_refl.
  - destruct (Nat.eqb v socket); [discriminate|exact IH].
Qed.

Section PipelineProperties.
Context (env : Platform).

(** X8. A frame the relay cannot read (bytes that do not decode, text that is
    not JSON, or data of another kind) is dropped: one line is logged,
    nothing is registered, nothing is forwarded and the sender gets no
    acknowledgment. *)
Theorem undecodable_frame_is_dropped (socket : ConnId) (data : Data) (st : Relay)
    (p : ProtoType) :
  PayloadType st = Some p ->
  payload_of env data = None ->
  TelemetryServer.handleVehicleMessage env socket data st
  = (Normal tt, st, [unreadable data]).
Proof.
  intros Hp Hdata. unfold TelemetryServer.handleVehicleMessage, TelemetryServer.decode.
  js_run. rewrite Hp. unfold payload_of in Hdata.
  destruct data as [bytes|text|]; [rewrite Hdata ..|]; reflexivity.
Qed.

Lemma handleVehicleMessage_dropped (socket : ConnId) (data : Data) (st : Relay) :
  PayloadType st = None
  \/ payload_of env data = None
  \/ (exists messageObject,
        payload_of env data = Some messageObject /\ valid_vin messageObject = None) ->
  exists logs, only_logs logs /\
    TelemetryServer.handleVehicleMessage env socket data st = (Normal tt, st, logs).
Proof.
  intros H. destruct (decode_run env data st) as [logs0 [Hlogs0 Hdec]].
  unfold TelemetryServer.handleVehicleMessage. js_run.
  destruct (PayloadType st) as [p|].
  - rewrite Hdec. destruct H as [H|[H|[messageObject [H Hvin]]]]; [discriminate| |].
    + rewrite H. exists logs0. split; [exact Hlogs0|]. now rewrite app_nil_r.
    + rewrite H, Hvin. eexists. split; [|reflexivity]. auto with js.
  - eexists. split; [|reflexivity]. auto with js.
Qed.

Lemma within_reach_logs (st : Relay) (socket : ConnId) (t : Trace) :
  only_logs t -> Forall (within_reach st socket) t.
Proof. apply List.Forall_impl. intros []; cbn; tauto. Qed.

Lemma within_reach_fan_out (st : Relay) (socket : ConnId) (message : JsValue) :
  Forall (within_reach st socket) (fan_out env message st).
Proof.
  unfold fan_out. destruct (clients st) as [|c0 pool] eqn:Hpool; [constructor|].
  constructor; [exact I|]. apply Forall_app_2; [|repeat constructor].
  apply List.Forall_forall. intros e He.
  apply in_map_iff in He as [c [<- Hc]]. right. exact Hc.
Qed.

Lemma handleVehicleMessage_bounds (socket : ConnId) (data : Data) (st : Relay) :
  let r := TelemetryServer.handleVehicleMessage env socket data st in
  completion_of r = Normal tt
  /\ clients (state_of r) = clients st
  /\ sockets (state_of r) = sockets st
  /\ PayloadType (state_of r) = PayloadType st
  /\ (vehicleConnections (state_of r) = vehicleConnections st
      \/ exists vin,
           Map_has vin (vehicleConnections st) = false
           /\ vehicleConnections (state_of r) = vehicleConnections st ++ [(vin, socket)])
  /\ Forall (within_reach st socket) (trace_of r).
Proof.
  cbv zeta.
  assert (Hdropped : forall logs,
            only_logs logs ->
            TelemetryServer.handleVehicleMessage env socket data st = (Normal tt, st, logs) ->
            let r := TelemetryServer.handleVehicleMessage env socket data st in
            completion_of r = Normal tt
            /\ clients (state_of r) = clients st
            /\ sockets (state_of r) = sockets st
            /\ PayloadType (state_of r) = PayloadType st
            /\ (vehicleConnections (state_of r) = vehicleConnections st
                \/ exists vin,
                     Map_has vin (vehicleConnections st) = false
                     /\ vehicleConnections (state_of r)
                        = vehicleConnections st ++ [(vin, socket)])
            /\ Forall (within_reach st socket) (trace_of r)).
  { intros logs Hlogs ->. cbv zeta. unfold completion_of, state_of, trace_of. cbn [fst snd].
    repeat split; auto. now apply within_reach_logs. }
  destruct (PayloadType st) as [p|] eqn:Hp.
  2: { destruct (handleVehicleMessage_dropped socket data st (or_introl Hp))
         as [logs [Hlogs Hrun]]. exact (Hdropped logs Hlogs Hrun). }
  destruct (payload_of env data) as [messageObject|] eqn:Hdata.
  2: { destruct (handleVehicleMessage_dropped socket data st (or_intror (or_introl Hdata)))
         as [logs [Hlogs Hrun]]. exact (Hdropped logs Hlogs Hrun). }
  destruct (valid_vin messageObject) as [vin|] eqn:Hvin.
  2: { destruct (handleVehicleMessage_dropped socket data st
                   (or_intror (or_intror (ex_intro _ messageObject (conj Hdata Hvin)))))
         as [logs [Hlogs Hrun]]. exact (Hdropped logs Hlogs Hrun). }
  clear Hdropped.
  destruct (handleVehicleMessage_run env socket data st p messageObject vin Hp Hdata Hvin)
    as [logs0 [logs1 [Hlogs0 [Hlogs1 ->]]]].
  unfold completion_of, state_of, trace_of. cbn [fst snd].
  split; [reflexivity|].
  assert (Hstate : forall st0,
            st0 = (if isTelemetryDataMessage messageObject
                   then tick_clock (registered vin socket st) else registered vin socket st) ->
            clients st0 = clients st /\ sockets st0 = sockets st
            /\ PayloadType st0 = PayloadType st
            /\ vehicleConnections st0
               = if Map_has vin (vehicleConnections st) then vehicleConnections st
                 else vehicleConnections st ++ [(vin, socket)]).
  { intros st0 ->. unfold registered.
    destruct (Map_has vin (vehicleConnections st)) eqn:Hhas;
      destruct (isTelemetryDataMessage messageObject);
      cbn [clients sockets PayloadType vehicleConnections tick_clock set_vehicleConnections];
      rewrite ?(Map_set_absent _ _ _ Hhas); repeat split; reflexivity. }
  destruct (Hstate _ eq_refl) as (Hc & Hs & Hp' & Hv).
  split; [exact Hc|]. split; [exact Hs|]. split; [now rewrite Hp'|]. split.
  { rewrite Hv. destruct (Map_has vin (vehicleConnections st)) eqn:Hhas; [now left|].
    right. exists vin. now split. }
  repeat apply Forall_app_2.
  - now apply within_reach_logs.
  - unfold announce. destruct (Map_has vin (vehicleConnections st)); [constructor|].
    constructor; [exact I|]. apply within_reach_fan_out.
  - now apply within_reach_logs.
  - destruct (reaches_broadcast messageObject); [apply within_reach_fan_out|constructor].
  - unfold ack_effects. rewrite readyState_of_registered.
    destruct (isTelemetryDataMessage messageObject); cbn [andb]; [|constructor].
    destruct (is_open (readyState_of st socket)) eqn:Hopen; [|constructor].
    constructor; [exact I|]. constructor; [left; now split|].
    constructor; [exact I|constructor].
Qed.

Lemma within_reach_sent_to (st : Relay) (socket c : ConnId) (t : Trace) :
  Forall (within_reach st socket) t ->
  c <> socket -> ~ In c (open_clients st) -> sent_to c t = [].
Proof.
  intros Ht Hc Hout. induction Ht as [|e t He _ IH]; [reflexivity|].
  destruct e; cbn in *; try exact IH.
  destruct (Nat.eqb_spec c0 c) as [->|_]; [|exact IH].
  exfalso. destruct He as [[He _]|He]; [now apply Hc|now apply Hout].
Qed.

(** X9. Whatever a producer sends, the handler of its frames never throws and
    stays within narrow bounds: the pool, the sockets and the schema are as
    before; the registry is as before or has one new entry, for an identity
    that was not registered, pointing at the sender; and frames are written
    only to the sender, if its socket is open, and to open members of the
    pool, so that no other socket ever receives anything. *)
Theorem producer_frame_stays_within_reach (socket : ConnId) (data : Data) (st : Relay) :
  let r := TelemetryServer.handleVehicleMessage env socket data st in
  completion_of r = Normal tt
  /\ clients (state_of r) = clients st
  /\ sockets (state_of r) = sockets st
  /\ PayloadType (state_of r) = PayloadType st
  /\ (vehicleConnections (state_of r) = vehicleConnections st
      \/ exists vin,
           Map_has vin (vehicleConnections st) = false
           /\ vehicleConnections (state_of r) = vehicleConnections st ++ [(vin, socket)])
  /\ Forall (within_reach st socket) (trace_of r)
  /\ (forall c, c <> socket -> ~ In c (open_clients st) -> sent_to c (trace_of r) = []).
Proof.
  cbv zeta.
  destruct (handleVehicleMessage_bounds socket data st) as (H1 & H2 & H3 & H4 & H5 & H6).
  repeat (split; [assumption|]).
  intros c Hc Hout. now apply (within_reach_sent_to st socket).
Qed.


(** X10. When a socket that is registered under a non-empty identity closes,
    that identity, the first one the scan of the registry finds for the
    socket, is forgotten and announced as disconnected.  Every other entry
    of the registry is kept, also one that names the very same socket. *)
Theorem close_forgets_one_identity (socket : ConnId) (st : Relay) (vin : string) :
  TelemetryServer.find_vin socket (vehicleConnections st) = Some vin ->
  nonempty vin = true ->
  let r := TelemetryServer.onClose env socket st in
  Map_get vin (vehicleConnections (state_of r)) = None
  /\ (forall other, other <> vin ->
        Map_get other (vehicleConnections (state_of r))
        = Map_get other (vehicleConnections st))
  /\ sends (trace_of r)
     = map (fun c => Send c (JSON_stringify env
                               (connectivity vin "DISCONNECTED"
                                  (toISOString env (dateReads st)))))
           (open_clients st).
Proof.
  intros Hfind Hne. cbv zeta. rewrite (onClose_registered env socket st vin Hfind Hne).
  unfold state_of, trace_of. cbn [fst snd vehicleConnections tick_clock set_vehicleConnections].
  split; [|split].
  - rewrite Map_get_delete. now rewrite String.eqb_refl.
  - intros other Hother. rewrite Map_get_delete.
    destruct (String.eqb_spec vin other) as [->|_]; [contradiction|reflexivity].
  - change (Log INFO ("Vehicle " ++ vin ++ " disconnected") :: ?t)
      with ([Log INFO ("Vehicle " ++ vin ++ " disconnected")] ++ t).
    rewrite sends_app. cbn [sends List.filter is_send app]. apply sends_fan_out.
Qed.

(** X11. A vehicle's session is a round trip on the registry.  The first frame
    of a socket that has no identity yet, carrying a non-empty identity that
    is not registered, enters the identity, which [getConnectedVehicles]
    then lists last; when the socket closes, the registry is exactly what
    it was before the frame, [getVehicleCount] is back to its old value, the
    pool is untouched, and the open subscribers are told that this identity
    disconnected. *)
Theorem vehicle_session_is_a_round_trip (socket : ConnId) (data : Data) (st : Relay)
    (p : ProtoType) (messageObject : JsValue) (vin : string) :
  PayloadType st = Some p ->
  payload_of env data = Some messageObject ->
  valid_vin messageObject = Some vin ->
  nonempty vin = true ->
  Map_has vin (vehicleConnections st) = false ->
  TelemetryServer.find_vin socket (vehicleConnections st) = None ->
  let st1 := state_of (TelemetryServer.handleVehicleMessage env socket data st) in
  let r := TelemetryServer.onClose env socket st1 in
  Map_get vin (vehicleConnections st1) = Some socket
  /\ completion_of (TelemetryServer.getConnectedVehicles st1)
     = Normal (map fst (vehicleConnections st) ++ [vin])
  /\ vehicleConnections (state_of r) = vehicleConnections st
  /\ completion_of (TelemetryServer.getVehicleCount (state_of r))
     = Normal (length (vehicleConnections st))
  /\ clients (state_of r) = clients st
  /\ sends (trace_of r)
     = map (fun c => Send c (JSON_stringify env
                               (connectivity vin "DISCONNECTED"
                                  (toISOString env (dateReads st1)))))
           (open_clients st).
Proof.
  intros Hp Hdata Hvin Hne Hhas Hfind. cbv zeta.
  destruct (handleVehicleMessage_run env socket data st p messageObject vin Hp Hdata Hvin)
    as [logs0 [logs1 [_ [_ Hrun]]]].
  assert (Hst1 : state_of (TelemetryServer.handleVehicleMessage env socket data st)
                 = if isTelemetryDataMessage messageObject
                   then tick_clock (registered vin socket st)
                   else registered vin socket st) by now rewrite Hrun.
  rewrite Hst1. clear Hrun Hst1.
  set (st1 := if isTelemetryDataMessage messageObject
              then tick_clock (registered vin socket st) else registered vin socket st).
  assert (Hreg : vehicleConnections st1 = vehicleConnections st ++ [(vin, socket)]
                 /\ clients st1 = clients st /\ sockets st1 = sockets st).
  { unfold st1, registered. rewrite Hhas.
    destruct (isTelemetryDataMessage messageObject);
      cbn [clients sockets vehicleConnections tick_clock set_vehicleConnections];
      rewrite (Map_set_absent _ _ _ Hhas); repeat split; reflexivity. }
  destruct Hreg as (Hv & Hc & Hs).
  assert (Hfind1 : TelemetryServer.find_vin socket (vehicleConnections st1) = Some vin).
  { rewrite Hv. now apply find_vin_last. }
  rewrite (onClose_registered env socket st1 vin Hfind1 Hne).
  unfold state_of, trace_of. cbn [fst snd vehicleConnections clients tick_clock
                                   set_vehicleConnections].
  unfold TelemetryServer.getConnectedVehicles, TelemetryServer.getVehicleCount.
  js_run. cbn [fst snd vehicleConnections].
  split; [|split; [|split; [|split; [|split]]]].
  - rewrite Hv. clear - Hhas. unfold Map_has in Hhas.
    induction (vehicleConnections st) as [|[k0 v] m IH]; cbn in *.
    + now rewrite String.eqb_refl.
    + apply orb_false_iff in Hhas as [H0 H]. rewrite H0. now apply IH.
  - rewrite Hv, map_app. reflexivity.
  - rewrite Hv. now apply Map_delete_last.
  - cbn [vehicleConnections tick_clock set_vehicleConnections].
    rewrite Hv, Map_delete_last by exact Hhas. reflexivity.
  - exact Hc.
  - change (Log INFO ("Vehicle " ++ vin ++ " disconnected") :: ?t)
      with ([Log INFO ("Vehicle " ++ vin ++ " disconnected")] ++ t).
    rewrite sends_app. cbn [sends List.filter is_send app]. rewrite sends_fan_out.
    unfold open_clients, readyState_of. now rewrite Hc, Hs.
Qed.

End PipelineProperties.

(** The three properties on the scenario platform: bytes that do not
    decode; the close of a socket that holds two identities; and the first
    frame and the close of a producer in front of one subscriber. *)
Lemma undecodable_frame_is_dropped_witness :
  PayloadType open_producer = Some VehicleDataPayload
  /\ payload_of Scenario.env (Buffer []) = None
  /\ TelemetryServer.handleVehicleMessage Scenario.env 0 (Buffer []) open_producer
     = (Normal tt, open_producer, [Log ERROR "Failed to decode protobuf message"]).
Proof.
  split; [reflexivity|]. split; [reflexivity|].
  apply (undecodable_frame_is_dropped Scenario.env 0 (Buffer []) open_producer
           VehicleDataPayload); reflexivity.
Defined.

Lemma close_forgets_one_identity_witness :
  vehicleConnections two_identities = [("V1", 0); ("", 0)]
  /\ TelemetryServer.find_vin 0 (vehicleConnections two_identities) = Some "V1"
  /\ nonempty "V1" = true
  /\ Map_get "V1" (vehicleConnections
                     (state_of (TelemetryServer.onClose Scenario.env 0 two_identities)))
     = None
  /\ Map_get "" (vehicleConnections
                   (state_of (TelemetryServer.onClose Scenario.env 0 two_identities)))
     = Some 0.
Proof.
  pose proof (close_forgets_one_identity Scenario.env 0 two_identities "V1"
                eq_refl eq_refl) as H.
  cbv zeta in H. destruct H as (H1 & H2 & _).
  split; [reflexivity|]. split; [reflexivity|]. split; [reflexivity|].
  split; [exact H1|]. rewrite (H2 "" ltac:(discriminate)). reflexivity.
Defined.

Lemma vehicle_session_is_a_round_trip_witness :
  Map_has "V1" (vehicleConnections subscriber_and_producer) = false
  /\ TelemetryServer.find_vin 1 (vehicleConnections subscriber_and_producer) = None
  /\ vehicleConnections
       (state_of (TelemetryServer.onClose Scenario.env 1
                    (state_of (TelemetryServer.handleVehicleMessage Scenario.env 1
                                 (Text (Scenario.print Scenario.frame_A))
                                 subscriber_and_producer))))
     = []
  /\ sends (trace_of (TelemetryServer.onClose Scenario.env 1
                        (state_of (TelemetryServer.handleVehicleMessage Scenario.env 1
                                     (Text (Scenario.print Scenario.frame_A))
                                     subscriber_and_producer))))
     = [Send 0 (Scenario.print (connectivity "V1" "DISCONNECTED" "T2"))].
Proof.
  pose proof (vehicle_session_is_a_round_trip Scenario.env 1
                (Text (Scenario.print Scenario.frame_A)) subscriber_and_producer
                VehicleDataPayload Scenario.frame_A "V1"
                eq_refl eq_refl eq_refl eq_refl eq_refl eq_refl) as H.
  cbv zeta in H. destruct H as (_ & _ & H1 & _ & _ & H2).
  split; [reflexivity|]. split; [reflexivity|]. split; [exact H1|].
  rewrite H2. reflexivity.
Defined.

(** ** What holds along every run *)

Section RunProperties.
Context (env : Platform).

Lemma run_app (events later : list Event) :
  forall st,
  run env (events ++ later) st
  = (fst (run env later (fst (run env events st))),
     snd (run env events st) ++ snd (run env later (fst (run env events st)))).
Proof.
  induction events as [|ev rest IH]; intros st.
  - cbn. now destruct (run env later st).
  - cbn [app run fst snd]. rewrite IH. cbn [fst snd]. now rewrite app_assoc.
Qed.

Lemma TelemetryServer_onClose_cases (socket : ConnId) (st : Relay) :
  (exists logs, only_logs logs /\
     TelemetryServer.onClose env socket st = (Normal tt, st, logs))
  \/ (exists vin,
        TelemetryServer.find_vin socket (vehicleConnections st) = Some vin
        /\ TelemetryServer.onClose env socket st
           = (Normal tt,
              tick_clock (set_vehicleConnections (Map_delete vin) st),
              Log INFO ("Vehicle " ++ vin ++ " disconnected")
              :: fan_out env (connectivity vin "DISCONNECTED"
                                (toISOString env (dateReads st))) st)).
Proof.
  destruct (TelemetryServer.find_vin socket (vehicleConnections st)) as [vin|] eqn:Hfind.
  - destruct (nonempty vin) eqn:Hne.
    + right. exists vin. split; [reflexivity|]. now apply onClose_registered.
    + left. exists [Log INFO "Unknown vehicle disconnected"]. split; [auto with js|].
      unfold TelemetryServer.onClose. js_run. now rewrite Hfind, Hne.
  - left. exists [Log INFO "Unknown vehicle disconnected"]. split; [auto with js|].
    now apply onClose_unregistered.
Qed.

(** The schema is set by the load and by nothing else. *)
Lemma dispatch_PayloadType (ev : Event) (st : Relay) :
  PayloadType (state_of (dispatch env ev st))
  = if is_ProtoLoaded ev then Some VehicleDataPayload else PayloadType st.
Proof.
  destruct ev as [request socket| |c data|c|c|c|]; cbn [dispatch is_ProtoLoaded].
  - destruct (onUpgrade_state env request socket st) as [->|[[auth ->]| ->]]; reflexivity.
  - reflexivity.
  - js_run. destruct (role_of st c) as [[]|]; try reflexivity.
    pose proof (handleVehicleMessage_bounds env c data st) as H. cbv zeta in H.
    destruct H as (_ & _ & _ & Hp & _). unfold state_of in *.
    destruct (TelemetryServer.handleVehicleMessage env c data st) as [[r st'] t].
    exact Hp.
  - unfold ClientServer.onClose. js_run.
    destruct (role_of st c) as [[]|]; cbn [fst snd]; try reflexivity.
    match goal with
    | |- context [TelemetryServer.onClose env c ?s] =>
        destruct (TelemetryServer_onClose_cases c s) as [[logs [_ ->]]|[vin [_ ->]]]
    end; reflexivity.
  - unfold ClientServer.onError, TelemetryServer.onError. js_run.
    destruct (role_of st c) as [[]|]; reflexivity.
  - unfold ClientServer.onPong. js_run. destruct (role_of st c) as [[]|]; reflexivity.
  - pose proof (heartbeat_loop_frame (clients st) st) as H. cbv zeta in H.
    unfold ClientServer.heartbeat. js_run. unfold state_of in *.
    destruct (ClientServer.heartbeat_loop (clients st) st) as [[r st'] t].
    cbn [fst snd] in *. apply H.
Qed.

(** An entry of the registry was there before the event, or was entered
    for the producer socket whose frame the event delivered. *)
Lemma dispatch_registry (ev : Event) (st : Relay) (e : string * ConnId) :
  In e (vehicleConnections (state_of (dispatch env ev st))) ->
  In e (vehicleConnections st) \/ role_of st (snd e) = Some Producer.
Proof.
  destruct ev as [request socket| |c data|c|c|c|]; cbn [dispatch].
  - destruct (onUpgrade_state env request socket st) as [->|[[auth ->]| ->]]; now left.
  - now left.
  - js_run. destruct (role_of st c) as [[]|] eqn:Hrole; try (now left).
    pose proof (handleVehicleMessage_bounds env c data st) as H. cbv zeta in H.
    destruct H as (_ & _ & _ & _ & [Hv|[vin [_ Hv]]] & _); unfold state_of in *;
      destruct (TelemetryServer.handleVehicleMessage env c data st) as [[r st'] t];
      cbn [fst snd] in *; rewrite Hv; [now left|].
    intros Hin. apply in_app_or in Hin as [Hin|[<-|[]]]; [now left|now right].
  - unfold ClientServer.onClose. js_run.
    destruct (role_of st c) as [[]|]; cbn [fst snd]; try (now left).
    match goal with
    | |- context [TelemetryServer.onClose env c ?s] =>
        destruct (TelemetryServer_onClose_cases c s) as [[logs [_ ->]]|[vin [_ ->]]]
    end; cbn [fst snd vehicleConnections tick_clock set_vehicleConnections set_sockets];
      [now left|].
    intros Hin. left. unfold Map_delete in Hin. now apply List.filter_In in Hin.
  - unfold ClientServer.onError, TelemetryServer.onError. js_run.
    destruct (role_of st c) as [[]|]; now left.
  - unfold ClientServer.onPong. js_run. destruct (role_of st c) as [[]|]; now left.
  - pose proof (heartbeat_loop_frame (clients st) st) as H. cbv zeta in H.
    unfold ClientServer.heartbeat. js_run. unfold state_of in *.
    destruct (ClientServer.heartbeat_loop (clients st) st) as [[r st'] t].
    cbn [fst snd] in *. destruct H as (_ & Hv & _). rewrite Hv. now left.
Qed.

(** X12. No handler takes the schema away, and only the load sets it: after
    any run the schema is loaded exactly if it was loaded at the start or
    the load completed during the run. *)
Theorem schema_is_set_by_the_load_only (events : list Event) :
  forall st,
  PayloadType (fst (run env events st))
  = if existsb is_ProtoLoaded events then Some VehicleDataPayload else PayloadType st.
Proof.
  induction events as [|ev rest IH]; intros st; [reflexivity|].
  cbn [run fst existsb]. rewrite IH, dispatch_PayloadType.
  destruct (is_ProtoLoaded ev); cbn [orb]; [|reflexivity].
  now destruct (existsb is_ProtoLoaded rest).
Qed.

Lemma dispatch_role (ev : Event) (st : Relay) (x : ConnId) (r : Role) :
  role_of st x = Some r -> role_of (state_of (dispatch env ev st)) x = Some r.
Proof.
  intros Hrole.
  assert (Hx : x < length (sockets st)).
  { unfold role_of in Hrole. destruct (sockets st !! x) as [s|] eqn:Hl; [|discriminate].
    now apply lookup_lt_Some in Hl. }
  assert (Hcases : ev = HeartbeatTick \/ ev <> HeartbeatTick)
    by (destruct ev; (now left) || (right; discriminate)).
  destruct Hcases as [->|Hev].
  - cbn [dispatch]. pose proof (heartbeat_loop_roles (clients st) st x) as H.
    unfold ClientServer.heartbeat. js_run. unfold state_of in *.
    destruct (ClientServer.heartbeat_loop (clients st) st) as [[c st'] t].
    cbn [fst snd] in *. now rewrite H.
  - destruct (dispatch_step_ok env ev st Hev) as [_ _ Hr _]. now rewrite Hr.
Qed.

Lemma dispatch_names_producers (ev : Event) (st : Relay) :
  names_producers st -> names_producers (state_of (dispatch env ev st)).
Proof.
  unfold names_producers. intros H. rewrite List.Forall_forall in H.
  apply List.Forall_forall. intros e He. apply dispatch_role.
  destruct (dispatch_registry ev st e He) as [Hin|Hrole]; [now apply H|exact Hrole].
Qed.

Lemma run_names_producers (events : list Event) :
  forall st, names_producers st -> names_producers (fst (run env events st)).
Proof.
  induction events as [|ev rest IH]; intros st H; [exact H|].
  cbn [run fst]. apply IH. now apply dispatch_names_producers.
Qed.

Lemma Map_get_In (k : string) (c : ConnId) (m : list (string * ConnId)) :
  Map_get k m = Some c -> In (k, c) m.
Proof.
  induction m as [|[k0 v] m IH]; cbn; [discriminate|].
  destruct (String.eqb_spec k0 k) as [->|_].
  - intros [= ->]. now left.
  - intros H. right. now apply IH.
Qed.

(** X13. In every state the relay can reach, the connection registered for an
    identity is a socket that exists, that the producer side set up, and
    that is not a member of the subscriber pool: a subscriber can never
    pass for a vehicle, and a vehicle never receives the broadcasts. *)
Theorem registered_connections_are_producers (events : list Event) (vin : string)
    (c : ConnId) :
  let st := fst (run env events initial) in
  Map_get vin (vehicleConnections st) = Some c ->
  role_of st c = Some Producer
  /\ c < length (sockets st)
  /\ Set_has c (clients st) = false.
Proof.
  cbv zeta. intros Hget.
  assert (Hinit : names_producers initial) by constructor.
  pose proof (run_names_producers events initial Hinit) as H.
  unfold names_producers in H. rewrite List.Forall_forall in H.
  specialize (H _ (Map_get_In _ _ _ Hget)). cbn [snd] in H.
  split; [exact H|]. split.
  - unfold role_of in H.
    destruct (sockets (fst (run env events initial)) !! c) as [s|] eqn:Hl; [|discriminate].
    now apply lookup_lt_Some in Hl.
  - now apply reachable_producer_outside_pool.
Qed.

Lemma probes_serialise_nothing (pool : list ConnId) (t : Trace) :
  Forall (is_probe_of pool) t -> welcomes_only env t.
Proof. apply List.Forall_impl. intros []; cbn; tauto. Qed.

Lemma logs_welcome_only (t : Trace) : only_logs t -> welcomes_only env t.
Proof. apply List.Forall_impl. intros []; cbn; tauto. Qed.

Lemma dispatch_before_load (ev : Event) (st : Relay) :
  PayloadType st = None -> vehicleConnections st = [] -> is_ProtoLoaded ev = false ->
  vehicleConnections (state_of (dispatch env ev st)) = []
  /\ welcomes_only env (trace_of (dispatch env ev st)).
Proof.
  intros Hp Hv Hev.
  destruct ev as [request socket| |c data|c|c|c|]; cbn [dispatch]; [|discriminate| | | | |].
  - destruct (onUpgrade_cases env request socket st)
      as [(logs & status & Hlogs & _ & ->)
         |[(auth & logs & Hlogs & _ & ->)|(logs & Hlogs & ->)]];
      unfold state_of, trace_of; cbn [fst snd]; (split; [exact Hv|]).
    + apply Forall_app_2; [now apply logs_welcome_only|repeat constructor].
    + apply Forall_app_2; [now apply logs_welcome_only|].
      constructor; [now eexists|]. constructor; [|constructor].
      eexists. split; [now eexists|reflexivity].
    + now apply logs_welcome_only.
  - js_run. destruct (role_of st c) as [[]|];
      try (cbn [fst snd]; split; [exact Hv|constructor]).
    destruct (handleVehicleMessage_dropped env c data st (or_introl Hp))
      as [logs [Hlogs ->]].
    cbn [fst snd]. split; [exact Hv|]. now apply logs_welcome_only.
  - unfold ClientServer.onClose. js_run.
    destruct (role_of st c) as [[]|]; cbn [fst snd];
      try (split; [exact Hv|repeat constructor]).
    match goal with
    | |- context [TelemetryServer.onClose env c ?s] =>
        rewrite (onClose_unregistered env c s) by (cbn [vehicleConnections set_sockets];
                                                     now rewrite Hv)
    end.
    cbn [fst snd]. split; [exact Hv|repeat constructor].
  - unfold ClientServer.onError, TelemetryServer.onError. js_run.
    destruct (role_of st c) as [[]|]; cbn [fst snd]; (split; [exact Hv|repeat constructor]).
  - unfold ClientServer.onPong. js_run.
    destruct (role_of st c) as [[]|]; cbn [fst snd]; (split; [exact Hv|repeat constructor]).
  - pose proof (heartbeat_loop_frame (clients st) st) as H. cbv zeta in H.
    unfold ClientServer.heartbeat. js_run. unfold state_of, trace_of in *.
    destruct (ClientServer.heartbeat_loop (clients st) st) as [[r st'] t].
    cbn [fst snd] in *. destruct H as (_ & Hv' & _ & _ & _ & _ & Ht & _).
    split; [now rewrite Hv'|]. now apply (probes_serialise_nothing (clients st)).
Qed.

(** X14. Until the schema has been loaded the relay is deaf to vehicles: in a
    run from the initial state in which the load has not completed, no
    identity is ever registered, and the only values serialised and the only
    frames written are the welcome messages of subscribers. *)
Theorem nothing_is_relayed_before_the_load (events : list Event) :
  existsb is_ProtoLoaded events = false ->
  vehicleConnections (fst (run env events initial)) = []
  /\ PayloadType (fst (run env events initial)) = None
  /\ welcomes_only env (snd (run env events initial)).
Proof.
  assert (H : forall st,
             PayloadType st = None -> vehicleConnections st = [] ->
             existsb is_ProtoLoaded events = false ->
             vehicleConnections (fst (run env events st)) = []
             /\ PayloadType (fst (run env events st)) = None
             /\ welcomes_only env (snd (run env events st))).
  { induction events as [|ev rest IH]; intros st Hp Hv Hload.
    - cbn. repeat split; auto. constructor.
    - cbn [existsb] in Hload. apply orb_false_iff in Hload as [Hev Hrest].
      destruct (dispatch_before_load ev st Hp Hv Hev) as [Hv' Ht].
      assert (Hp' : PayloadType (state_of (dispatch env ev st)) = None)
        by now rewrite dispatch_PayloadType, Hev.
      destruct (IH _ Hp' Hv' Hrest) as (H1 & H2 & H3).
      cbn [run fst snd]. split; [exact H1|]. split; [exact H2|].
      now apply Forall_app_2. }
  intros Hload. now apply H.
Qed.

Lemma writes_below_sent_to (n c : nat) (t : Trace) :
  writes_below n t -> n <= c -> sent_to c t = [].
Proof.
  intros Ht Hc. induction Ht as [|e t He _ IH]; [reflexivity|].
  destruct e; cbn in *; try exact IH.
  destruct (Nat.eqb_spec c0 c) as [->|_]; [lia|exact IH].
Qed.

Lemma writes_below_logs (n : nat) (t : Trace) : only_logs t -> writes_below n t.
Proof. apply List.Forall_impl. intros []; cbn; tauto. Qed.

Lemma writes_below_mono (n m : nat) (t : Trace) :
  n <= m -> writes_below n t -> writes_below m t.
Proof. intros Hnm. apply List.Forall_impl. intros []; cbn; try tauto. lia. Qed.

Lemma writes_below_fan_out (message : JsValue) (st : Relay) :
  pool_wf st -> writes_below (length (sockets st)) (fan_out env message st).
Proof.
  intros [_ Hbound]. rewrite List.Forall_forall in Hbound. unfold fan_out.
  destruct (clients st) as [|c0 pool] eqn:Hpool; [constructor|].
  constructor; [exact I|]. apply Forall_app_2; [|repeat constructor].
  apply List.Forall_forall. intros e He.
  apply in_map_iff in He as [c [<- Hc]]. apply Hbound.
  unfold open_clients in Hc. rewrite Hpool in Hc. now apply List.filter_In in Hc.
Qed.

Lemma dispatch_writes_below (ev : Event) (st : Relay) :
  pool_wf st ->
  length (sockets st) <= length (sockets (state_of (dispatch env ev st)))
  /\ writes_below (length (sockets (state_of (dispatch env ev st))))
       (trace_of (dispatch env ev st)).
Proof.
  intros Hwf. pose proof Hwf as [_ Hbound]. rewrite List.Forall_forall in Hbound.
  destruct ev as [request socket| |c data|c|c|c|]; cbn [dispatch].
  - destruct (onUpgrade_cases env request socket st)
      as [(logs & status & Hlogs & _ & ->)
         |[(auth & logs & Hlogs & _ & ->)|(logs & Hlogs & ->)]];
      unfold state_of, trace_of; cbn [fst snd].
    + split; [lia|]. apply Forall_app_2; [now apply writes_below_logs|repeat constructor].
    + unfold joined. cbn [sockets]. rewrite length_app. cbn [length]. split; [lia|].
      apply Forall_app_2; [now apply writes_below_logs|].
      constructor; [exact I|]. constructor; [cbn; lia|constructor].
    + unfold accepted, set_sockets. cbn [sockets]. rewrite length_app. cbn [length].
      split; [lia|]. now apply writes_below_logs.
  - cbn. split; [lia|repeat constructor].
  - js_run. destruct (role_of st c) as [[]|] eqn:Hrole;
      try (cbn [fst snd]; split; [lia|constructor]).
    pose proof (handleVehicleMessage_bounds env c data st) as H. cbv zeta in H.
    destruct H as (_ & _ & Hs & _ & _ & Ht). unfold state_of, trace_of in *.
    destruct (TelemetryServer.handleVehicleMessage env c data st) as [[r st'] t].
    cbn [fst snd] in *. rewrite Hs, app_nil_l. split; [lia|].
    eapply List.Forall_impl; [|exact Ht].
    intros [] He; cbn in *; try tauto.
    destruct He as [[-> _]|Hin].
    + unfold role_of in Hrole. destruct (sockets st !! c) as [s|] eqn:Hl; [|discriminate].
      now apply lookup_lt_Some in Hl.
    + apply Hbound. unfold open_clients in Hin. now apply List.filter_In in Hin.
  - unfold ClientServer.onClose. js_run.
    destruct (role_of st c) as [[]|]; cbn [fst snd sockets set_sockets set_clients];
      rewrite ?update_socket_length; try (split; [lia|repeat constructor]).
    match goal with
    | |- context [TelemetryServer.onClose env c ?s] =>
        assert (Hwf' : pool_wf s)
          by (destruct Hwf as [Hn Hb]; split;
              [exact Hn|cbn [clients sockets set_sockets]; now rewrite update_socket_length]);
        assert (Hlen : length (sockets s) = length (sockets st))
          by (cbn [sockets set_sockets]; now rewrite update_socket_length);
        destruct (TelemetryServer_onClose_cases c s) as [[logs [Hlogs ->]]|[vin [_ ->]]]
    end; cbn [fst snd sockets tick_clock set_vehicleConnections]; rewrite Hlen.
    + split; [lia|]. rewrite app_nil_l. now apply writes_below_logs.
    + split; [lia|]. rewrite app_nil_l. constructor; [exact I|].
      rewrite <- Hlen. now apply writes_below_fan_out.
  - unfold ClientServer.onError, TelemetryServer.onError. js_run.
    destruct (role_of st c) as [[]|]; cbn [fst snd]; (split; [cbn; lia|repeat constructor]).
  - unfold ClientServer.onPong. js_run.
    destruct (role_of st c) as [[]|]; cbn [fst snd sockets set_sockets];
      rewrite ?update_socket_length; (split; [lia|repeat constructor]).
  - pose proof (heartbeat_loop_frame (clients st) st) as H. cbv zeta in H.
    unfold ClientServer.heartbeat. js_run. unfold state_of, trace_of in *.
    destruct (ClientServer.heartbeat_loop (clients st) st) as [[r st'] t].
    cbn [fst snd] in *. destruct H as (_ & _ & _ & _ & Hl & _ & Ht & _).
    rewrite Hl. split; [lia|]. rewrite app_nil_l.
    eapply List.Forall_impl; [|exact Ht]. intros []; cbn; tauto.
Qed.

Lemma run_writes_below (events : list Event) :
  forall st, pool_wf st ->
  length (sockets st) <= length (sockets (fst (run env events st)))
  /\ writes_below (length (sockets (fst (run env events st)))) (snd (run env events st)).
Proof.
  induction events as [|ev rest IH]; intros st Hwf.
  - cbn. split; [lia|constructor].
  - destruct (dispatch_writes_below ev st Hwf) as [Hlen Ht].
    destruct (IH _ (dispatch_wf env ev st Hwf)) as [Hlen' Ht'].
    cbn [run fst snd]. split; [lia|].
    apply Forall_app_2; [|exact Ht'].
    eapply writes_below_mono; [|exact Ht]. exact Hlen'.
Qed.

(** X15. The welcome message is the first frame a subscriber ever gets.  Take
    any run from the initial state, an upgrade that creates a subscriber
    socket, and anything that happens later: of all the frames written to
    that socket over the whole history, the first one is the welcome
    message, stamped with the clock reading of the admission. *)
Theorem welcome_is_the_first_frame (events later : list Event)
    (request : IncomingMessage) (socket : RawId) :
  let st := fst (run env events initial) in
  let c := length (sockets st) in
  role_of (state_of (onUpgrade env request socket st)) c = Some Subscriber ->
  exists rest,
    sent_to c (snd (run env (events ++ Upgrade request socket :: later) initial))
    = JSON_stringify env (ClientServer.welcome (toISOString env (dateReads st))) :: rest.
Proof.
  cbv zeta. intros Hrole.
  destruct (run_writes_below events initial initial_wf) as [_ Hbelow].
  rewrite run_app. cbn [snd run dispatch].
  set (st := fst (run env events initial)) in *.
  rewrite !sent_to_app, (writes_below_sent_to _ _ _ Hbelow (le_n _)). cbn [app].
  destruct (onUpgrade_cases env request socket st)
    as [(logs & status & Hlogs & _ & Hrun)
       |[(auth & logs & Hlogs & _ & Hrun)|(logs & Hrun0 & Hrun)]];
    rewrite Hrun in Hrole |- *; unfold state_of, trace_of in *; cbn [fst snd] in *.
  - exfalso. unfold role_of, ConnId in Hrole.
    destruct (sockets st !! length (sockets st)) as [s|] eqn:Hl; [|discriminate Hrole].
    apply lookup_lt_Some in Hl. lia.
  - rewrite sent_to_app, (only_logs_sent_to _ _ Hlogs). cbn [app sent_to].
    rewrite Nat.eqb_refl. eexists. reflexivity.
  - exfalso. unfold role_of, accepted, set_sockets in Hrole. cbn [sockets] in Hrole.
    rewrite lookup_app_r in Hrole by lia. rewrite Nat.sub_diag in Hrole. discriminate.
Qed.

End RunProperties.

(** The three properties on the scenario platform: a producer that has
    sent its first frame; a run without the load in which a subscriber and a
    producer connect, a frame arrives and the timer fires; and a subscriber
    admitted after a producer's first frame, before its second. *)
Lemma registered_connections_are_producers_witness :
  Map_get "V1"
    (vehicleConnections
       (fst (run Scenario.env
               [ProtoLoaded; Upgrade Scenario.producer_request 8;
                Message 0 (Text (Scenario.print Scenario.frame_A))] initial)))
  = Some 0
  /\ role_of (fst (run Scenario.env
                     [ProtoLoaded; Upgrade Scenario.producer_request 8;
                      Message 0 (Text (Scenario.print Scenario.frame_A))] initial)) 0
     = Some Producer.
Proof.
  split; [reflexivity|].
  apply (registered_connections_are_producers Scenario.env
           [ProtoLoaded; Upgrade Scenario.producer_request 8;
            Message 0 (Text (Scenario.print Scenario.frame_A))] "V1" 0).
  reflexivity.
Defined.

Lemma nothing_is_relayed_before_the_load_witness :
  existsb is_ProtoLoaded
    [Upgrade (Scenario.subscriber_request "good") 7; Upgrade Scenario.producer_request 8;
     Message 1 (Text (Scenario.print Scenario.frame_A)); HeartbeatTick] = false
  /\ vehicleConnections
       (fst (run Scenario.env
               [Upgrade (Scenario.subscriber_request "good") 7;
                Upgrade Scenario.producer_request 8;
                Message 1 (Text (Scenario.print Scenario.frame_A)); HeartbeatTick]
               initial)) = []
  /\ welcomes_only Scenario.env
       (snd (run Scenario.env
               [Upgrade (Scenario.subscriber_request "good") 7;
                Upgrade Scenario.producer_request 8;
                Message 1 (Text (Scenario.print Scenario.frame_A)); HeartbeatTick]
               initial)).
Proof.
  split; [reflexivity|].
  pose proof (nothing_is_relayed_before_the_load Scenario.env
                [Upgrade (Scenario.subscriber_request "good") 7;
                 Upgrade Scenario.producer_request 8;
                 Message 1 (Text (Scenario.print Scenario.frame_A)); HeartbeatTick]
                eq_refl) as (H1 & _ & H2).
  split; [exact H1|exact H2].
Defined.

Lemma welcome_is_the_first_frame_witness :
  role_of (state_of (onUpgrade Scenario.env (Scenario.subscriber_request "good") 7
                       (fst (run Scenario.env
                               [ProtoLoaded; Upgrade Scenario.producer_request 8;
                                Message 0 (Text (Scenario.print Scenario.frame_A))]
                               initial)))) 1
  = Some Subscriber
  /\ exists rest,
       sent_to 1
         (snd (run Scenario.env
                 ([ProtoLoaded; Upgrade Scenario.producer_request 8;
                   Message 0 (Text (Scenario.print Scenario.frame_A))]
                  ++ Upgrade (Scenario.subscriber_request "good") 7
                     :: [Message 0 (Text (Scenario.print Scenario.frame_A))])
                 initial))
       = Scenario.print (ClientServer.welcome "T2") :: rest.
Proof.
  split; [reflexivity|].
  exact (welcome_is_the_first_frame Scenario.env
           [ProtoLoaded; Upgrade Scenario.producer_request 8;
            Message 0 (Text (Scenario.print Scenario.frame_A))]
           [Message 0 (Text (Scenario.print Scenario.frame_A))]
           (Scenario.subscriber_request "good") 7 eq_refl).
Defined.

(** ** The fleet API *)

Section FleetProperties.
Context (api : FleetApi).

Lemma makeRequest_ok (endpoint method : string) (body : option JsValue) (st : Relay)
    (v : JsValue) :
  fetch api (API_BASE_URL api ++ endpoint) method body = Response true (Some v) ->
  TeslaApiService.makeRequest api endpoint method body st
  = (Normal v, st,
     [Log DEBUG ("Making " ++ method ++ " request to Tesla API: "
                 ++ (API_BASE_URL api ++ endpoint))]).
Proof. intros H. unfold TeslaApiService.makeRequest. js_run. now rewrite H. Qed.

Lemma makeRequest_failed (endpoint method : string) (body : option JsValue) (st : Relay) :
  failed (fetch api (API_BASE_URL api ++ endpoint) method body) = true ->
  TeslaApiService.makeRequest api endpoint method body st
  = (Thrown, st,
     [Log DEBUG ("Making " ++ method ++ " request to Tesla API: "
                 ++ (API_BASE_URL api ++ endpoint));
      Log ERROR "Tesla API request failed"]).
Proof.
  intros H. unfold TeslaApiService.makeRequest. js_run.
  destruct (fetch api (API_BASE_URL api ++ endpoint) method body) as [|[] [v|]];
    try discriminate; reflexivity.
Qed.



(** X18. [wakeUpVehicle] does not wait for the vehicle: once the request has
    been answered it returns normally, whether the answer says the vehicle
    is online or not, and only the log line differs. *)
Theorem wakeUpVehicle_does_not_wait (vehicleTag : string) (st : Relay)
    (body inner : JsValue) :
  fetch api (API_BASE_URL api ++ ("/vehicles/" ++ vehicleTag ++ "/wake_up")) "POST" None
  = Response true (Some body) ->
  get "response" body = Some inner ->
  is_null inner = false ->
  let r := TeslaApiService.wakeUpVehicle api vehicleTag st in
  completion_of r = Normal tt
  /\ state_of r = st
  /\ In (Log INFO (if is_string_value (get "state" inner) "online"
                   then "Vehicle is now online"
                   else "Vehicle not yet online, waiting..."))
        (trace_of r).
Proof.
  intros Hfetch Hresponse Hinner. cbv zeta.
  unfold TeslaApiService.wakeUpVehicle. js_run.
  rewrite (makeRequest_ok _ "POST" None st body Hfetch).
  unfold member_of, member. destruct body; try discriminate. js_run. cbn [fst snd].
  rewrite Hresponse. destruct inner; try discriminate; cbn [fst snd].
  all: match goal with
       | |- context [is_string_value ?x ?y] => destruct (is_string_value x y)
       end.
  all: cbn [negb fst snd].
  all: (split; [reflexivity|]); (split; [reflexivity|]).
  all: cbn [app]; right; right; now left.
Qed.

(** X19. When no request yields a value (the network fails, the status is not
    a success, or the body is not JSON), every call of the service throws,
    after logging the failure of the request and then its own; none
    swallows the error or returns a default. *)
Theorem fleet_failures_propagate (vehicleTag : string) (st : Relay) :
  (forall url method body, failed (fetch api url method body) = true) ->
  (completion_of (TeslaApiService.getVehicleTag api st) = Thrown
   /\ In (Log ERROR "Tesla API request failed")
         (trace_of (TeslaApiService.getVehicleTag api st))
   /\ In (Log ERROR "Failed to get vehicle tag")
         (trace_of (TeslaApiService.getVehicleTag api st)))
  /\ (completion_of (TeslaApiService.wakeUpVehicle api vehicleTag st) = Thrown
      /\ In (Log ERROR "Tesla API request failed")
            (trace_of (TeslaApiService.wakeUpVehicle api vehicleTag st))
      /\ In (Log ERROR "Failed to wake up vehicle")
            (trace_of (TeslaApiService.wakeUpVehicle api vehicleTag st)))
  /\ (completion_of (TeslaApiService.getTelemetryConfigStatus api vehicleTag st) = Thrown
      /\ In (Log ERROR "Tesla API request failed")
            (trace_of (TeslaApiService.getTelemetryConfigStatus api vehicleTag st))
      /\ In (Log ERROR "Failed to get telemetry config status")
            (trace_of (TeslaApiService.getTelemetryConfigStatus api vehicleTag st)))
  /\ (completion_of (TeslaApiService.getTelemetryErrors api vehicleTag st) = Thrown
      /\ In (Log ERROR "Tesla API request failed")
            (trace_of (TeslaApiService.getTelemetryErrors api vehicleTag st))
      /\ In (Log ERROR "Failed to get telemetry errors")
            (trace_of (TeslaApiService.getTelemetryErrors api vehicleTag st)))
  /\ (completion_of (TeslaApiService.checkVehicleStatus api vehicleTag st) = Thrown
      /\ In (Log ERROR "Tesla API request failed")
            (trace_of (TeslaApiService.checkVehicleStatus api vehicleTag st))
      /\ In (Log ERROR "Failed to check vehicle status")
            (trace_of (TeslaApiService.checkVehicleStatus api vehicleTag st))).
Proof.
  intros Hfail.
  unfold TeslaApiService.getVehicleTag, TeslaApiService.wakeUpVehicle,
    TeslaApiService.getTelemetryConfigStatus, TeslaApiService.getTelemetryErrors,
    TeslaApiService.checkVehicleStatus.
  js_run. rewrite !makeRequest_failed by apply Hfail. cbn [fst snd app].
  repeat split; cbn; tauto.
Qed.

End FleetProperties.


Lemma wakeUpVehicle_does_not_wait_witness :
  is_string_value (get "state" (JObj [("state", JStr "asleep")])) "online" = false
  /\ completion_of (TeslaApiService.wakeUpVehicle fleet "101" initial) = Normal tt.
Proof.
  split; [reflexivity|].
  pose proof (wakeUpVehicle_does_not_wait fleet "101" initial
                (JObj [("response", JObj [("state", JStr "asleep")])])
                (JObj [("state", JStr "asleep")]) eq_refl eq_refl eq_refl) as H.
  cbv zeta in H. exact (proj1 H).
Defined.

Lemma fleet_failures_propagate_witness :
  (forall url method body, failed (fetch unreachable_fleet url method body) = true)
  /\ completion_of (TeslaApiService.getVehicleTag unreachable_fleet initial) = Thrown
  /\ completion_of (TeslaApiService.checkVehicleStatus unreachable_fleet "101" initial)
     = Thrown.
Proof.
  assert (Hfail : forall url method body,
            failed (fetch unreachable_fleet url method body) = true)
    by (intros; reflexivity).
  pose proof (fleet_failures_propagate unreachable_fleet "101" initial Hfail) as H.
  split; [exact Hfail|]. split; [exact (proj1 (proj1 H))|].
  exact (proj1 (proj2 (proj2 (proj2 (proj2 H))))).
Defined.
